(** * voice-transformer: the streaming pipeline, its queues and its lifecycle

  A shallow embedding of the Python sources
    - src/transformation/pipeline.py   (TransformationPipeline)
    - src/transformation/rvc_model.py  (RVCModel.convert, the F0 part)
    - src/audio/input.py, src/audio/output.py (AudioInput, AudioOutput)
    - src/audio/processing.py          (AudioProcessor.process,
                                        AudioProcessor.postprocess)
    - src/cli/commands.py              (CommandHandler)
  followed by the properties of the specification that concern them.

  Conventions.  An audio frame is the list of its samples.  A
  [collections.deque] is the list of its elements, head first.  Python
  floats are values of [pyfloat]: an exact rational, one of the two
  infinities, or NaN; the comparisons follow IEEE 754 (every ordered
  comparison with NaN is false); where a definition rounds a result, it
  does so with [IEEE.round].  Threads are identified by the number they
  received when they were started. *)

From Stdlib Require Import String Ascii ZArith QArith Qround Qabs Bool Lia Arith List.
Import ListNotations.

Set Implicit Arguments.
Close Scope Q_scope.

(* ------------------------------------------------------------------ *)
(** * Python values *)

Module Py.

(** A Python [float]. *)
Inductive pyfloat : Type :=
| Fin (q : Q)
| PInf
| NInf
| NaN.

(** [a < b] on floats. *)
Definition flt (a b : pyfloat) : bool :=
  match a, b with
  | NaN, _ | _, NaN => false
  | Fin x, Fin y => negb (Qle_bool y x)
  | Fin _, PInf => true
  | NInf, Fin _ => true
  | NInf, PInf => true
  | _, _ => false
  end.

(** [a > b] on floats. *)
Definition fgt (a b : pyfloat) : bool := flt b a.

(** Membership in the closed interval [lo, hi]: a NaN belongs to no
    interval. *)
Definition in_range (lo hi : Q) (v : pyfloat) : Prop :=
  match v with
  | Fin q => (lo <= q)%Q /\ (q <= hi)%Q
  | _ => False
  end.

Definition is_nan (v : pyfloat) : bool :=
  match v with NaN => true | _ => false end.

(** The exceptions that occur. *)
Inductive exn : Type := IOError | OSError | ValueError | OverflowError.

(** What a [try] block yields. *)
Inductive outcome (A : Type) : Type :=
| Ret (a : A)
| Raise (e : exn).
Arguments Ret {A} a.
Arguments Raise {A} e.

(** Records of the [logging] module: level and message.  Interpolated
    parts of a message are left out, the fixed text is kept. *)
Inductive level : Type := INFO | WARNING | ERROR.
Definition log_record : Type := (level * string)%type.

End Py.
Import Py.

(** An audio frame: the samples of a NumPy [int16] array. *)
Definition frame : Type := list Z.

(* ------------------------------------------------------------------ *)
(** * Floating-point rounding *)

Module IEEE.

(** The formats of the float arrays and of Python's [float]. *)
Inductive dtype : Type := float32 | float64.

(** The number of bits of the significand. *)
Definition prec (t : dtype) : Z :=
  match t with float32 => 24 | float64 => 53 end.

(** The numbers from [2 ^ emax] on are too large for the format. *)
Definition emax (t : dtype) : Z :=
  match t with float32 => 128 | float64 => 1024 end.

(** [2 ^ emin] is the least positive number of the format. *)
Definition emin (t : dtype) : Z := (3 - emax t - prec t)%Z.

(** [2 ^ e] for any integer [e]. *)
Definition pow2 (e : Z) : Q :=
  if (0 <=? e)%Z then inject_Z (2 ^ e) else 1 # Z.to_pos (2 ^ (- e)).

(** The integer part of the binary logarithm of a positive rational. *)
Definition flog2 (q : Q) : Z :=
  let k := (Z.log2 (Qnum q) - Z.log2 (Z.pos (Qden q)))%Z in
  if Qle_bool (pow2 k) q then k else (k - 1)%Z.

(** The nearest integer, the even one of two that are equally near. *)
Definition rne (q : Q) : Z :=
  let f := Qfloor q in
  match (q - inject_Z f ?= 1 # 2)%Q with
  | Lt => f
  | Gt => (f + 1)%Z
  | Eq => if Z.even f then f else (f + 1)%Z
  end.

(** The exponent of the unit in the last place of the floats around a
    positive [a]. *)
Definition ulp_exp (t : dtype) (a : Q) : Z :=
  Z.max (flog2 a - (prec t - 1)) (emin t).

(** The multiple of the unit in the last place that is nearest to a
    positive [a]. *)
Definition nearest (t : dtype) (a : Q) : Q :=
  (inject_Z (rne (a / pow2 (ulp_exp t a))) * pow2 (ulp_exp t a))%Q.

(** The float of the format that an exact result is rounded to: to
    nearest, ties to even, and to an infinity when it is too large. *)
Definition round (t : dtype) (q : Q) : pyfloat :=
  if Qeq_bool q 0 then Fin 0
  else
    let r := nearest t (Qabs q) in
    if Qle_bool (pow2 (emax t)) r then
      if (0 <? Qnum q)%Z then PInf else NInf
    else Fin (if (0 <? Qnum q)%Z then r else - r)%Q.

End IEEE.

(* ------------------------------------------------------------------ *)
(** * collections.deque with a maxlen *)

Module Deque.
Section Bounded.

Context {A : Type}.

(** [deque.append(x)]: the element is added on the right and, when the
    length then exceeds [maxlen], one element is removed on the left. *)
Definition append (maxlen : nat) (q : list A) (x : A) : list A :=
  let q' := q ++ [x] in
  if maxlen <? length q' then tl q' else q'.

(** [deque.popleft()]; [None] stands for the IndexError of an empty
    deque. *)
Definition popleft (q : list A) : option (A * list A) :=
  match q with
  | [] => None
  | x :: r => Some (x, r)
  end.

(** Pushing a whole sequence, oldest element first. *)
Definition extend (maxlen : nat) (q : list A) (xs : list A) : list A :=
  fold_left (append maxlen) xs q.

(** Popping [k] times; an empty deque answers [None] and stays empty. *)
Fixpoint drain (k : nat) (q : list A) : list (option A) :=
  match k with
  | O => []
  | S k' =>
      match popleft q with
      | Some (x, r) => Some x :: drain k' r
      | None => None :: drain k' q
      end
  end.

(** The [n] rightmost elements of a list. *)
Definition lastn (n : nat) (l : list A) : list A :=
  skipn (length l - n) l.

End Bounded.
End Deque.

(* ------------------------------------------------------------------ *)
(** * src/transformation/pipeline.py *)

Module Pipeline.

(** The attributes of a [TransformationPipeline].  [threads_started]
    counts the worker threads the object has created, and a thread is
    named by that count; [stop_event] is the flag of the
    [threading.Event].  The model handle and the lock carry no data and
    are left out. *)
Record TransformationPipeline : Type := mkPipeline {
  pitch_shift : pyfloat;
  formant_shift : pyfloat;
  intensity : pyfloat;
  preserve_tones : bool;
  active : bool;
  thread : option nat;
  threads_started : nat;
  stop_event : bool;
  input_queue : list frame;
  output_queue : list frame;
  processing_times : list Q;
  last_latency : Q
}.

Definition queue_maxlen : nat := 100.
Definition times_maxlen : nat := 50.

(** [__init__] *)
Definition init (pitch_shift formant_shift intensity : pyfloat)
    (preserve_tones : bool) : TransformationPipeline :=
  {| pitch_shift := pitch_shift;
     formant_shift := formant_shift;
     intensity := intensity;
     preserve_tones := preserve_tones;
     active := false;
     thread := None;
     threads_started := 0;
     stop_event := false;
     input_queue := [];
     output_queue := [];
     processing_times := [];
     last_latency := 0%Q |}.

(** The defaults of [__init__]: 5.0, 1.2, 0.8, True. *)
Definition default : TransformationPipeline :=
  init (Fin 5) (Fin (12 # 10)) (Fin (8 # 10)) true.

Definition with_input_queue (self : TransformationPipeline)
    (q : list frame) : TransformationPipeline :=
  {| pitch_shift := pitch_shift self;
     formant_shift := formant_shift self;
     intensity := intensity self;
     preserve_tones := preserve_tones self;
     active := active self;
     thread := thread self;
     threads_started := threads_started self;
     stop_event := stop_event self;
     input_queue := q;
     output_queue := output_queue self;
     processing_times := processing_times self;
     last_latency := last_latency self |}.

Definition with_output_queue (self : TransformationPipeline)
    (q : list frame) : TransformationPipeline :=
  {| pitch_shift := pitch_shift self;
     formant_shift := formant_shift self;
     intensity := intensity self;
     preserve_tones := preserve_tones self;
     active := active self;
     thread := thread self;
     threads_started := threads_started self;
     stop_event := stop_event self;
     input_queue := input_queue self;
     output_queue := q;
     processing_times := processing_times self;
     last_latency := last_latency self |}.

Definition with_latency (self : TransformationPipeline)
    (times : list Q) (last : Q) : TransformationPipeline :=
  {| pitch_shift := pitch_shift self;
     formant_shift := formant_shift self;
     intensity := intensity self;
     preserve_tones := preserve_tones self;
     active := active self;
     thread := thread self;
     threads_started := threads_started self;
     stop_event := stop_event self;
     input_queue := input_queue self;
     output_queue := output_queue self;
     processing_times := times;
     last_latency := last |}.

Definition with_worker (self : TransformationPipeline)
    (act : bool) (th : option nat) (started : nat) (ev : bool)
    : TransformationPipeline :=
  {| pitch_shift := pitch_shift self;
     formant_shift := formant_shift self;
     intensity := intensity self;
     preserve_tones := preserve_tones self;
     active := act;
     thread := th;
     threads_started := started;
     stop_event := ev;
     input_queue := input_queue self;
     output_queue := output_queue self;
     processing_times := processing_times self;
     last_latency := last_latency self |}.

Definition with_parameters (self : TransformationPipeline)
    (ps fs it : pyfloat) (pt : bool) : TransformationPipeline :=
  {| pitch_shift := ps;
     formant_shift := fs;
     intensity := it;
     preserve_tones := pt;
     active := active self;
     thread := thread self;
     threads_started := threads_started self;
     stop_event := stop_event self;
     input_queue := input_queue self;
     output_queue := output_queue self;
     processing_times := processing_times self;
     last_latency := last_latency self |}.

(** [start]: a second call on a running pipeline only warns. *)
Definition start (self : TransformationPipeline)
    : TransformationPipeline * list log_record :=
  if active self then
    (self, [(WARNING, "Transformation pipeline already running"%string)])
  else
    let n := S (threads_started self) in
    (with_worker self true (Some n) n false,
     [(INFO, "Transformation pipeline started"%string)]).

(** [stop]: sets the event, joins the thread (at most 2 s) and forgets
    it. *)
Definition stop (self : TransformationPipeline)
    : TransformationPipeline * list log_record :=
  if negb (active self) then (self, [])
  else
    (with_worker self false None (threads_started self) true,
     [(INFO, "Transformation pipeline stopped"%string)]).

(** [add_audio] *)
Definition add_audio (self : TransformationPipeline) (audio_data : frame)
    : TransformationPipeline :=
  with_input_queue self
    (Deque.append queue_maxlen (input_queue self) audio_data).

(** [get_transformed_audio] *)
Definition get_transformed_audio (self : TransformationPipeline)
    : option frame * TransformationPipeline :=
  if 0 <? length (output_queue self) then
    match Deque.popleft (output_queue self) with
    | Some (x, rest) => (Some x, with_output_queue self rest)
    | None => (None, self)
    end
  else (None, self).

(** [update_parameters]: an argument that is [None] changes nothing. *)
Definition update_parameters (self : TransformationPipeline)
    (pitch_shift' formant_shift' intensity' : option pyfloat)
    (preserve_tones' : option bool)
    : TransformationPipeline * list log_record :=
  let ps := match pitch_shift' with
            | Some v => v | None => pitch_shift self end in
  let fs := match formant_shift' with
            | Some v => v | None => formant_shift self end in
  let it := match intensity' with
            | Some v => v | None => intensity self end in
  let pt := match preserve_tones' with
            | Some v => v | None => preserve_tones self end in
  (with_parameters self ps fs it pt,
   [(INFO, "Parameters updated: pitch_shift={self.pitch_shift}, formant_shift={self.formant_shift}, intensity={self.intensity}, preserve_tones={self.preserve_tones}"%string)]).

Section Worker.

(** [2 ** x] where Python returns a finite float (x below 1024). *)
Variable exp2 : Q -> Q.

(** The NumPy part of [_simulate_transformation] (resampling by the
    pitch factor, the added harmonics, clipping to +-0.99 and the
    conversion to int16), from the pitch factor, the formant shift and
    the frame.  NumPy raises in it for some arguments. *)
Variable resample : pyfloat -> pyfloat -> frame -> outcome frame.

(** [2 ** (self.pitch_shift / 12.0)].  Python's float power raises
    OverflowError when the finite result exceeds the largest float,
    which for base 2 is an exponent of 1024 or more. *)
Definition pitch_factor (pitch_shift : pyfloat) : outcome pyfloat :=
  match pitch_shift with
  | Fin q =>
      let x := (q / 12)%Q in
      if Qle_bool 1024 x then Raise OverflowError
      else Ret (Fin (exp2 x))
  | PInf => Ret PInf
  | NInf => Ret (Fin 0)
  | NaN => Ret NaN
  end.

(** [_simulate_transformation] *)
Definition _simulate_transformation (self : TransformationPipeline)
    (audio_data : frame) : outcome frame :=
  match pitch_factor (pitch_shift self) with
  | Raise e => Raise e
  | Ret factor => resample factor (formant_shift self) audio_data
  end.

(** One turn of the [while] loop of [_processing_loop]; [proc_time] is
    the duration in milliseconds that the two clock readings give. *)
Definition iteration (proc_time : Q) (self : TransformationPipeline)
    : TransformationPipeline * list log_record :=
  match Deque.popleft (input_queue self) with
  | None => (self, [])
  | Some (audio_data, rest) =>
      let self1 := with_input_queue self rest in
      match _simulate_transformation self1 audio_data with
      | Ret transformed_audio =>
          let self2 :=
            with_output_queue self1
              (Deque.append queue_maxlen (output_queue self1)
                 transformed_audio) in
          (with_latency self2
             (Deque.append times_maxlen (processing_times self2) proc_time)
             proc_time,
           [])
      | Raise e =>
          (self1, [(ERROR, "Error processing audio: {e}"%string)])
      end
  end.

(** [_processing_loop]: the turns taken until the stop event is set,
    one per clock reading. *)
Fixpoint _processing_loop (clock : list Q) (self : TransformationPipeline)
    : TransformationPipeline * list log_record :=
  match clock with
  | [] => (self, [])
  | t :: clock' =>
      if stop_event self then (self, [])
      else
        let '(self1, log1) := iteration t self in
        let '(self2, log2) := _processing_loop clock' self1 in
        (self2, log1 ++ log2)
  end.

End Worker.

End Pipeline.

(* ------------------------------------------------------------------ *)
(** * src/audio/input.py and src/audio/output.py *)

Module Audio.

(** [AudioInput] and [AudioOutput] have the same attributes and the same
    [__init__], [start] and [stop], up to the wording of their log
    messages and the direction of the stream they open. *)
Inductive direction : Type := Input | Output.

(** What PortAudio knows of a device. *)
Record DeviceInfo : Type := mkDeviceInfo {
  name : string;
  maxInputChannels : Z;
  maxOutputChannels : Z;
  defaultSampleRate : Z
}.

(** The Python integers that fit a C [int]. *)
Definition c_int (i : Z) : bool :=
  ((-2147483648 <=? i) && (i <=? 2147483647))%Z.

(** [PyAudio.get_device_info_by_index]: the index is first converted to
    a C [int], which raises OverflowError when it does not fit; the
    devices of the host are numbered from 0, and PortAudio answers any
    other index with an error, raised as IOError. *)
Definition get_device_info_by_index (host : list DeviceInfo) (i : Z)
    : outcome DeviceInfo :=
  if negb (c_int i) then Raise OverflowError
  else
    match (if (0 <=? i)%Z then nth_error host (Z.to_nat i) else None) with
    | Some device_info => Ret device_info
    | None => Raise IOError
    end.

(** The attributes of an [AudioInput] or [AudioOutput].  [stream] names
    the open stream by the number of streams the object has opened. *)
Record AudioEndpoint : Type := mkEndpoint {
  device_index : option Z;
  sample_rate : Z;
  buffer_size : Z;
  channels : Z;
  stream : option nat;
  streams_opened : nat;
  active : bool;
  data_queue : list frame
}.

Definition data_queue_maxlen : nat := 100.

Definition with_device_index (self : AudioEndpoint) (i : option Z)
    : AudioEndpoint :=
  {| device_index := i;
     sample_rate := sample_rate self;
     buffer_size := buffer_size self;
     channels := channels self;
     stream := stream self;
     streams_opened := streams_opened self;
     active := active self;
     data_queue := data_queue self |}.

Definition with_stream (self : AudioEndpoint) (st : option nat)
    (opened : nat) (act : bool) : AudioEndpoint :=
  {| device_index := device_index self;
     sample_rate := sample_rate self;
     buffer_size := buffer_size self;
     channels := channels self;
     stream := st;
     streams_opened := opened;
     active := act;
     data_queue := data_queue self |}.

Definition with_data_queue (self : AudioEndpoint) (q : list frame)
    : AudioEndpoint :=
  {| device_index := device_index self;
     sample_rate := sample_rate self;
     buffer_size := buffer_size self;
     channels := channels self;
     stream := stream self;
     streams_opened := streams_opened self;
     active := active self;
     data_queue := q |}.

Definition msg_using (d : direction) : string :=
  match d with
  | Input => "Using input device: {device_info['name']}"
  | Output => "Using output device: {device_info['name']}"
  end.

Definition msg_not_found (d : direction) : string :=
  match d with
  | Input =>
      "Input device with index {device_index} not found. Using default device."
  | Output =>
      "Output device with index {device_index} not found. Using default device."
  end.

(** The attributes as [__init__] sets them before it looks at the
    device. *)
Definition fresh (device_index : option Z)
    (sample_rate buffer_size channels : Z) : AudioEndpoint :=
  {| device_index := device_index;
     sample_rate := sample_rate;
     buffer_size := buffer_size;
     channels := channels;
     stream := None;
     streams_opened := 0;
     active := false;
     data_queue := [] |}.

(** [__init__]: the index is looked up, and an index that PortAudio does
    not know is replaced by [None], the default device.  Only the IOError
    (the same class as OSError) is caught: any other exception of the
    lookup leaves the constructor. *)
Definition init (d : direction) (host : list DeviceInfo)
    (device_index : option Z) (sample_rate buffer_size channels : Z)
    : outcome AudioEndpoint * list log_record :=
  let self := fresh device_index sample_rate buffer_size channels in
  match device_index with
  | None => (Ret self, [])
  | Some i =>
      match get_device_info_by_index host i with
      | Ret device_info => (Ret self, [(INFO, msg_using d)])
      | Raise IOError | Raise OSError =>
          (Ret (with_device_index self None), [(WARNING, msg_not_found d)])
      | Raise e => (Raise e, [])
      end
  end.

Definition AudioInput_init := init Input.
Definition AudioOutput_init := init Output.

(** The outcome of the next call into PortAudio: [true] when it
    raises.  A call takes the head of the list; the empty list stands for
    calls that all succeed. *)
Definition next_fault (faults : list bool) : bool * list bool :=
  match faults with
  | [] => (false, [])
  | b :: rest => (b, rest)
  end.

Definition msg_already (d : direction) : string :=
  match d with
  | Input => "Audio input already started"
  | Output => "Audio output already started"
  end.

Definition msg_started (d : direction) : string :=
  match d with
  | Input => "Audio input started"
  | Output => "Audio output started"
  end.

Definition msg_start_error (d : direction) : string :=
  match d with
  | Input => "Error starting audio input: {e}"
  | Output => "Error starting audio output: {e}"
  end.

Definition msg_stopped (d : direction) : string :=
  match d with
  | Input => "Audio input stopped"
  | Output => "Audio output stopped"
  end.

(** [start]: opens a new stream unless one is open and active; an error
    of [PyAudio.open] is logged and raised again. *)
Definition start (d : direction) (faults : list bool) (self : AudioEndpoint)
    : outcome unit * AudioEndpoint * list bool * list log_record :=
  match stream self, active self with
  | Some _, true => (Ret tt, self, faults, [(WARNING, msg_already d)])
  | _, _ =>
      let '(raises, faults') := next_fault faults in
      if raises then
        (Raise OSError, self, faults', [(ERROR, msg_start_error d)])
      else
        let n := S (streams_opened self) in
        (Ret tt, with_stream self (Some n) n true, faults',
         [(INFO, msg_started d)])
  end.

(** [stop]: stops the stream when one is open and active;
    [Stream.stop_stream] may raise. *)
Definition stop (d : direction) (faults : list bool) (self : AudioEndpoint)
    : outcome unit * AudioEndpoint * list bool * list log_record :=
  match stream self, active self with
  | Some _, true =>
      let '(raises, faults') := next_fault faults in
      if raises then (Raise OSError, self, faults', [])
      else
        (Ret tt, with_stream self (stream self) (streams_opened self) false,
         faults', [(INFO, msg_stopped d)])
  | _, _ => (Ret tt, self, faults, [])
  end.

(** [play_audio] of [AudioOutput] *)
Definition play_audio (self : AudioEndpoint) (audio_data : frame)
    : AudioEndpoint :=
  with_data_queue self
    (Deque.append data_queue_maxlen (data_queue self) audio_data).

(** [ndarray.tobytes()] of an int16 array: two bytes per sample, low
    byte first. *)
Definition tobytes (a : frame) : list Z :=
  flat_map (fun z => [z mod 256; (z / 256) mod 256]%Z) a.

(** [np.pad(a, (0, n), 'constant')] *)
Definition pad_right (a : frame) (n : nat) : frame := a ++ repeat 0%Z n.

(** [np.zeros(n, dtype=np.int16)] *)
Definition zeros (n : nat) : frame := repeat 0%Z n.

(** [AudioOutput.callback]: the bytes handed to PortAudio (with
    [paContinue]) for a request of [frame_count] samples. *)
Definition callback (status : Z) (frame_count : nat) (self : AudioEndpoint)
    : list Z * AudioEndpoint * list log_record :=
  let log :=
    if (status =? 0)%Z then []
    else [(WARNING, "Audio output status: {status}"%string)] in
  if 0 <? length (data_queue self) then
    match Deque.popleft (data_queue self) with
    | Some (audio_data, rest) =>
        let audio_data' :=
          if length audio_data <? frame_count then
            pad_right audio_data (frame_count - length audio_data)
          else if frame_count <? length audio_data then
            firstn frame_count audio_data
          else audio_data in
        (tobytes audio_data', with_data_queue self rest, log)
    | None => (tobytes (zeros frame_count), self, log)
    end
  else (tobytes (zeros frame_count), self, log).

End Audio.

(* ------------------------------------------------------------------ *)
(** * src/audio/processing.py *)

Module AudioProcessor.

(** [np.clip(x, lo, hi)] on one sample, [minimum(maximum(x, lo), hi)]:
    a NaN stays a NaN. *)
Definition clip (lo hi : Q) (x : pyfloat) : pyfloat :=
  match x with
  | NaN => NaN
  | _ =>
      let y := if flt x (Fin lo) then Fin lo else x in
      if fgt y (Fin hi) then Fin hi else y
  end.

(** [x * c] for a sample [x] of a float array of type [t] and a
    positive constant [c]: the product is rounded to the type of the
    array. *)
Definition scale (t : IEEE.dtype) (c : Q) (x : pyfloat) : pyfloat :=
  match x with
  | Fin q => IEEE.round t (q * c)
  | other => other
  end.

(** Rounding towards zero. *)
Definition truncate (q : Q) : Z := Z.quot (Qnum q) (Z.pos (Qden q)).

(** [astype(np.int16)] on one sample: the value rounded towards zero when
    that is an int16.  A NaN converts to 0 (NumPy warns of an invalid
    value in the cast).  For an infinity or a value out of range the C
    conversion that NumPy performs has no defined result: [None]. *)
Definition astype_int16 (x : pyfloat) : option Z :=
  match x with
  | Fin q =>
      let z := truncate q in
      if ((-32768 <=? z) && (z <=? 32767))%Z then Some z else None
  | NaN => Some 0%Z
  | _ => None
  end.

(** [postprocess] on an array of type [t]. *)
Definition postprocess (t : IEEE.dtype) (audio_data : list pyfloat)
    : list (option Z) :=
  let audio_data := map (clip (-1) 1) audio_data in
  map (fun x => astype_int16 (scale t 32767 x)) audio_data.

End AudioProcessor.

(* ------------------------------------------------------------------ *)
(** * src/transformation/rvc_model.py *)

Module RVCModel.
Section F0.

(** [2 ** x], in exact arithmetic. *)
Variable exp2 : Q -> Q.

Definition sum (l : list Q) : Q := fold_right Qplus 0%Q l.

(** [torch.mean] *)
Definition mean (l : list Q) : Q :=
  (sum l / inject_Z (Z.of_nat (length l)))%Q.

(** [2 ** (pitch_shift / 12.0)] *)
Definition multiplier (pitch_shift : Q) : Q := exp2 (pitch_shift / 12)%Q.

(** The pitch part of [convert]: from the voiced values [f0_torch] of the
    contour to [shifted_f0], in exact arithmetic. *)
Definition shift_f0 (preserve_tones : bool) (pitch_shift : Q)
    (f0_torch : list Q) : list Q :=
  let k := multiplier pitch_shift in
  if preserve_tones then
    if 0 <? length f0_torch then
      let mean_f0 := mean f0_torch in
      let shifted_f0 := map (fun x => x * k)%Q f0_torch in
      let m := mean shifted_f0 in
      map (fun x => x - m + mean_f0 * k)%Q shifted_f0
    else f0_torch
  else map (fun x => x * k)%Q f0_torch.

End F0.
End RVCModel.

(* ------------------------------------------------------------------ *)
(** * src/cli/display.py and src/cli/commands.py *)

Module Cli.

(** [Display.error], [Display.success] and [Display.info] print one
    message each. *)
Inductive kind : Type := Error | Success | Info.

(** The attributes of a [Display] that the commands touch, and what it
    has printed. *)
Record Display : Type := mkDisplay {
  show_metrics : bool;
  d_active : bool;
  d_thread : option nat;
  d_threads_started : nat;
  d_stop_event : bool;
  printed : list (kind * string)
}.

Definition print (k : kind) (message : string) (self : Display) : Display :=
  {| show_metrics := show_metrics self;
     d_active := d_active self;
     d_thread := d_thread self;
     d_threads_started := d_threads_started self;
     d_stop_event := d_stop_event self;
     printed := printed self ++ [(k, message)] |}.

(** [Display.start_metrics] *)
Definition start_metrics (self : Display) : Display * list log_record :=
  if d_active self then (self, [])
  else
    let n := S (d_threads_started self) in
    ({| show_metrics := show_metrics self;
        d_active := true;
        d_thread := Some n;
        d_threads_started := n;
        d_stop_event := false;
        printed := printed self |},
     [(INFO, "Metrics display started"%string)]).

(** [Display.stop_metrics] *)
Definition stop_metrics (self : Display) : Display * list log_record :=
  if negb (d_active self) then (self, [])
  else
    ({| show_metrics := show_metrics self;
        d_active := false;
        d_thread := None;
        d_threads_started := d_threads_started self;
        d_stop_event := true;
        printed := printed self |},
     [(INFO, "Metrics display stopped"%string)]).

(** The attributes of a [CommandHandler], together with what surrounds
    it: the records logged so far and the outcomes of the coming calls
    into PortAudio (see [Audio.next_fault]). *)
Record CommandHandler : Type := mkHandler {
  audio_input : Audio.AudioEndpoint;
  audio_output : Audio.AudioEndpoint;
  pipeline : Pipeline.TransformationPipeline;
  display : Display;
  active : bool;
  paused : bool;
  thread : option nat;
  threads_started : nat;
  stop_event : bool;
  logger : list log_record;
  host_faults : list bool
}.

Definition with_endpoint (d : Audio.direction) (a : Audio.AudioEndpoint)
    (faults : list bool) (self : CommandHandler) : CommandHandler :=
  {| audio_input :=
       match d with Audio.Input => a | Audio.Output => audio_input self end;
     audio_output :=
       match d with Audio.Input => audio_output self | Audio.Output => a end;
     pipeline := pipeline self;
     display := display self;
     active := active self;
     paused := paused self;
     thread := thread self;
     threads_started := threads_started self;
     stop_event := stop_event self;
     logger := logger self;
     host_faults := faults |}.

Definition endpoint (d : Audio.direction) (self : CommandHandler)
    : Audio.AudioEndpoint :=
  match d with
  | Audio.Input => audio_input self
  | Audio.Output => audio_output self
  end.

Definition with_pipeline (p : Pipeline.TransformationPipeline)
    (self : CommandHandler) : CommandHandler :=
  {| audio_input := audio_input self;
     audio_output := audio_output self;
     pipeline := p;
     display := display self;
     active := active self;
     paused := paused self;
     thread := thread self;
     threads_started := threads_started self;
     stop_event := stop_event self;
     logger := logger self;
     host_faults := host_faults self |}.

Definition with_display (d : Display) (self : CommandHandler)
    : CommandHandler :=
  {| audio_input := audio_input self;
     audio_output := audio_output self;
     pipeline := pipeline self;
     display := d;
     active := active self;
     paused := paused self;
     thread := thread self;
     threads_started := threads_started self;
     stop_event := stop_event self;
     logger := logger self;
     host_faults := host_faults self |}.

Definition with_flags (act psd : bool) (self : CommandHandler)
    : CommandHandler :=
  {| audio_input := audio_input self;
     audio_output := audio_output self;
     pipeline := pipeline self;
     display := display self;
     active := act;
     paused := psd;
     thread := thread self;
     threads_started := threads_started self;
     stop_event := stop_event self;
     logger := logger self;
     host_faults := host_faults self |}.

Definition with_thread (th : option nat) (started : nat) (ev : bool)
    (self : CommandHandler) : CommandHandler :=
  {| audio_input := audio_input self;
     audio_output := audio_output self;
     pipeline := pipeline self;
     display := display self;
     active := active self;
     paused := paused self;
     thread := th;
     threads_started := started;
     stop_event := ev;
     logger := logger self;
     host_faults := host_faults self |}.

Definition with_logger (l : list log_record) (self : CommandHandler)
    : CommandHandler :=
  {| audio_input := audio_input self;
     audio_output := audio_output self;
     pipeline := pipeline self;
     display := display self;
     active := active self;
     paused := paused self;
     thread := thread self;
     threads_started := threads_started self;
     stop_event := stop_event self;
     logger := l;
     host_faults := host_faults self |}.

(** ** Methods as state transformers that may raise *)

Definition M (A : Type) : Type := CommandHandler -> outcome A * CommandHandler.

Definition ret {A : Type} (a : A) : M A := fun s => (Ret a, s).

Definition bind {A B : Type} (c : M A) (k : A -> M B) : M B :=
  fun s =>
    match c s with
    | (Ret a, s') => k a s'
    | (Raise e, s') => (Raise e, s')
    end.

Definition raise {A : Type} (e : exn) : M A := fun s => (Raise e, s).

(** [try: c except Exception as e: handler e] *)
Definition try_ {A : Type} (c : M A) (handler : exn -> M A) : M A :=
  fun s =>
    match c s with
    | (Ret a, s') => (Ret a, s')
    | (Raise e, s') => handler e s'
    end.

Declare Scope cmd_scope.
Delimit Scope cmd_scope with cmd.
Notation "c1 ;; c2" := (bind c1 (fun _ => c2))
  (at level 61, right associativity) : cmd_scope.
Local Open Scope cmd_scope.

Definition log (l : level) (message : string) : M unit :=
  fun s => (Ret tt, with_logger (logger s ++ [(l, message)]) s).

Definition logs (records : list log_record) : M unit :=
  fun s => (Ret tt, with_logger (logger s ++ records) s).

Definition show (k : kind) (message : string) : M unit :=
  fun s => (Ret tt, with_display (print k message (display s)) s).

(** [self.audio_input.start()] and [self.audio_output.start()] *)
Definition endpoint_start (d : Audio.direction) : M unit :=
  fun s =>
    let '(r, a, faults, records) :=
      Audio.start d (host_faults s) (endpoint d s) in
    (r, with_logger (logger s ++ records) (with_endpoint d a faults s)).

(** [self.audio_input.stop()] and [self.audio_output.stop()] *)
Definition endpoint_stop (d : Audio.direction) : M unit :=
  fun s =>
    let '(r, a, faults, records) :=
      Audio.stop d (host_faults s) (endpoint d s) in
    (r, with_logger (logger s ++ records) (with_endpoint d a faults s)).

(** [self.pipeline.start()] *)
Definition pipeline_start : M unit :=
  fun s =>
    let '(p, records) := Pipeline.start (pipeline s) in
    (Ret tt, with_logger (logger s ++ records) (with_pipeline p s)).

(** [self.pipeline.stop()] *)
Definition pipeline_stop : M unit :=
  fun s =>
    let '(p, records) := Pipeline.stop (pipeline s) in
    (Ret tt, with_logger (logger s ++ records) (with_pipeline p s)).

(** [self.display.start_metrics()] *)
Definition display_start_metrics : M unit :=
  fun s =>
    let '(d, records) := start_metrics (display s) in
    (Ret tt, with_logger (logger s ++ records) (with_display d s)).

(** [self.display.stop_metrics()] *)
Definition display_stop_metrics : M unit :=
  fun s =>
    let '(d, records) := stop_metrics (display s) in
    (Ret tt, with_logger (logger s ++ records) (with_display d s)).

(** Clearing the stop event and starting the handler's own thread. *)
Definition thread_start : M unit :=
  fun s =>
    let n := S (threads_started s) in
    (Ret tt, with_thread (Some n) n false s).

(** Setting the stop event, joining the thread (at most 2 s) and
    forgetting it. *)
Definition thread_stop : M unit :=
  fun s => (Ret tt, with_thread None (threads_started s) true s).

Definition set_flags (act psd : bool) : M unit :=
  fun s => (Ret tt, with_flags act psd s).

Definition set_paused (psd : bool) : M unit :=
  fun s => (Ret tt, with_flags (active s) psd s).

(** [_cleanup] *)
Definition _cleanup : M unit :=
  try_
    (thread_stop ;;
     endpoint_stop Audio.Input ;;
     endpoint_stop Audio.Output ;;
     pipeline_stop ;;
     display_stop_metrics ;;
     set_flags false false ;;
     log INFO "Resources cleaned up")
    (fun e =>
       log ERROR "Error during cleanup: {e}" ;;
       show Error "Error during cleanup: {e}").

(** The [try] statement of [_start_transformation]. *)
Definition start_body : M unit :=
  try_
    (endpoint_start Audio.Input ;;
     endpoint_start Audio.Output ;;
     pipeline_start ;;
     thread_start ;;
     display_start_metrics ;;
     set_flags true false ;;
     log INFO "Voice transformation started" ;;
     show Success "Voice transformation started")
    (fun e =>
       log ERROR "Error starting voice transformation: {e}" ;;
       show Error "Failed to start voice transformation: {e}" ;;
       _cleanup).

(** The [try] statement of [_resume_transformation]. *)
Definition resume_body : M unit :=
  try_
    (endpoint_start Audio.Input ;;
     endpoint_start Audio.Output ;;
     set_paused false ;;
     log INFO "Voice transformation resumed" ;;
     show Success "Voice transformation resumed")
    (fun e =>
       log ERROR "Error resuming voice transformation: {e}" ;;
       show Error "Error resuming voice transformation: {e}").

(** [_start_transformation].  The two methods call each other:
    [_start_transformation] calls [_resume_transformation] when active and
    paused, where the latter goes on to its [try] statement, and
    [_resume_transformation] calls [_start_transformation] when not
    active, where the latter goes on to its own. *)
Definition _start_transformation : M unit :=
  fun s =>
    if active s then
      if paused s then resume_body s
      else show Info "Voice transformation is already running" s
    else start_body s.

(** [_resume_transformation] *)
Definition _resume_transformation : M unit :=
  fun s =>
    if negb (active s) then start_body s
    else if negb (paused s) then
      show Info "Voice transformation is not paused" s
    else resume_body s.

(** [_stop_transformation] *)
Definition _stop_transformation : M unit :=
  fun s =>
    if negb (active s) then
      show Info "Voice transformation is not running" s
    else
      try_
        (thread_stop ;;
         endpoint_stop Audio.Input ;;
         endpoint_stop Audio.Output ;;
         pipeline_stop ;;
         display_stop_metrics ;;
         set_flags false false ;;
         log INFO "Voice transformation stopped" ;;
         show Success "Voice transformation stopped")
        (fun e =>
           log ERROR "Error stopping voice transformation: {e}" ;;
           show Error "Error stopping voice transformation: {e}")
        s.

(** [_pause_transformation] *)
Definition _pause_transformation : M unit :=
  fun s =>
    if negb (active s) then
      show Error "Voice transformation is not running" s
    else if paused s then
      show Info "Voice transformation is already paused" s
    else
      try_
        (endpoint_stop Audio.Input ;;
         endpoint_stop Audio.Output ;;
         set_paused true ;;
         log INFO "Voice transformation paused" ;;
         show Success "Voice transformation paused")
        (fun e =>
           log ERROR "Error pausing voice transformation: {e}" ;;
           show Error "Error pausing voice transformation: {e}")
        s.

Section Parameters.

(** The builtin [float] on a command argument; [None] stands for its
    ValueError. *)
Variable float : string -> option pyfloat.

Definition parse_float (a : string) : M pyfloat :=
  match float a with
  | Some v => ret v
  | None => raise ValueError
  end.

(** [self.pipeline.update_parameters(...)] *)
Definition pipeline_update (ps fs it : option pyfloat) (pt : option bool)
    : M unit :=
  fun s =>
    let '(p, records) :=
      Pipeline.update_parameters (pipeline s) ps fs it pt in
    (Ret tt, with_logger (logger s ++ records) (with_pipeline p s)).

(** [_set_pitch_shift] *)
Definition _set_pitch_shift (args : list string) : M unit :=
  match args with
  | [] => show Error "Please specify a pitch shift value"
  | a :: _ =>
      try_
        (bind (parse_float a) (fun pitch_shift =>
           if flt pitch_shift (Fin (-12)) || fgt pitch_shift (Fin 12) then
             show Error "Pitch shift must be between -12.0 and 12.0 semitones"
           else
             pipeline_update (Some pitch_shift) None None None ;;
             log INFO "Pitch shift set to {pitch_shift}" ;;
             show Success "Pitch shift set to {pitch_shift} semitones"))
        (fun e =>
           match e with
           | ValueError => show Error "Pitch shift must be a number"
           | _ =>
               log ERROR "Error setting pitch shift: {e}" ;;
               show Error "Error setting pitch shift: {e}"
           end)
  end.

(** [_set_formant_shift] *)
Definition _set_formant_shift (args : list string) : M unit :=
  match args with
  | [] => show Error "Please specify a formant shift value"
  | a :: _ =>
      try_
        (bind (parse_float a) (fun formant_shift =>
           if flt formant_shift (Fin (1 # 2)) || fgt formant_shift (Fin 2) then
             show Error "Formant shift must be between 0.5 and 2.0"
           else
             pipeline_update None (Some formant_shift) None None ;;
             log INFO "Formant shift set to {formant_shift}" ;;
             show Success "Formant shift set to {formant_shift}"))
        (fun e =>
           match e with
           | ValueError => show Error "Formant shift must be a number"
           | _ =>
               log ERROR "Error setting formant shift: {e}" ;;
               show Error "Error setting formant shift: {e}"
           end)
  end.

End Parameters.

(** A handler as [voice_transformer.py] builds it: nothing started. *)
Definition init (audio_input audio_output : Audio.AudioEndpoint)
    (transformation_pipeline : Pipeline.TransformationPipeline)
    (display : Display) (faults : list bool) : CommandHandler :=
  {| audio_input := audio_input;
     audio_output := audio_output;
     pipeline := transformation_pipeline;
     display := display;
     active := false;
     paused := false;
     thread := None;
     threads_started := 0;
     stop_event := false;
     logger := [(INFO, "Command handler initialized"%string)];
     host_faults := faults |}.

End Cli.


(* ================================================================== *)
(** * The rest of the code *)

From Stdlib Require Import Sorted.

(* ------------------------------------------------------------------ *)
(** ** src/transformation/pipeline.py: get_metrics *)

Module Telemetry.
Import Pipeline.

(** [a < b] on durations. *)
Definition Qltb (a b : Q) : bool := negb (Qle_bool b a).

(** The builtin [max] on a sequence with first element [x]: a later
    element replaces the candidate when it is greater. *)
Definition py_max (x : Q) (l : list Q) : Q :=
  fold_left (fun m y => if Qltb m y then y else m) l x.

(** The builtin [min], likewise. *)
Definition py_min (x : Q) (l : list Q) : Q :=
  fold_left (fun m y => if Qltb y m then y else m) l x.

(** The dictionary that [get_metrics] returns. *)
Record Metrics : Type := mkMetrics {
  avg_latency_ms : pyfloat;
  max_latency_ms : Q;
  min_latency_ms : Q;
  current_latency_ms : Q;
  input_queue_len : nat;
  output_queue_len : nat;
  is_active : bool
}.

Section Metrics.

(** The builtin [sum] on a sequence of floats.  Its additions are
    rounded, and how depends on the version of Python. *)
Variable fsum : list Q -> Q.

(** [get_metrics]: statistics of the latency window when it is not
    empty, zeros otherwise.  The average is the float quotient of the
    sum and the length. *)
Definition get_metrics (self : TransformationPipeline) : Metrics :=
  match processing_times self with
  | t :: ts =>
      {| avg_latency_ms :=
           IEEE.round IEEE.float64
             (fsum (t :: ts) / inject_Z (Z.of_nat (length (t :: ts))));
         max_latency_ms := py_max t ts;
         min_latency_ms := py_min t ts;
         current_latency_ms := last_latency self;
         input_queue_len := length (input_queue self);
         output_queue_len := length (output_queue self);
         is_active := active self |}
  | [] =>
      {| avg_latency_ms := Fin 0;
         max_latency_ms := 0;
         min_latency_ms := 0;
         current_latency_ms := 0;
         input_queue_len := length (input_queue self);
         output_queue_len := length (output_queue self);
         is_active := active self |}
  end.

End Metrics.

End Telemetry.

(* ------------------------------------------------------------------ *)
(** ** src/transformation/pipeline.py: sequences of calls *)

Module PipelineRuns.
Import Pipeline.

(** The methods of a pipeline that other threads call, and one turn of
    its own work loop. *)
Inductive call : Type :=
| AddAudio (audio_data : frame)
| GetTransformedAudio
| Turn (proc_time : Q)
| UpdateParameters (ps fs it : option pyfloat) (pt : option bool)
| Start
| Stop.

Section Runs.

Variable exp2 : Q -> Q.
Variable resample : pyfloat -> pyfloat -> frame -> outcome frame.

(** The pipeline after one call.  A turn of the loop is taken only
    while the stop event is clear. *)
Definition apply (self : TransformationPipeline) (c : call)
    : TransformationPipeline :=
  match c with
  | AddAudio audio_data => add_audio self audio_data
  | GetTransformedAudio => snd (get_transformed_audio self)
  | Turn proc_time =>
      if stop_event self then self
      else fst (iteration exp2 resample proc_time self)
  | UpdateParameters ps fs it pt =>
      fst (update_parameters self ps fs it pt)
  | Start => fst (start self)
  | Stop => fst (stop self)
  end.

(** The pipeline after a sequence of calls, first call first. *)
Definition run (self : TransformationPipeline) (calls : list call)
    : TransformationPipeline :=
  fold_left apply calls self.

End Runs.
End PipelineRuns.

(* ------------------------------------------------------------------ *)
(** ** src/audio/input.py, src/audio/output.py: list_devices;
       src/cli/commands.py: _set_input_device, _set_output_device *)

Module Devices.
Import Cli.
Local Open Scope cmd_scope.

(** An entry of the list that [list_devices] returns. *)
Record Listed : Type := mkListed {
  index : Z;
  listed_name : string;
  listed_channels : Z;
  listed_sample_rate : Z
}.

(** [maxInputChannels] for an input, [maxOutputChannels] for an
    output. *)
Definition channels_of (d : Audio.direction) (info : Audio.DeviceInfo) : Z :=
  match d with
  | Audio.Input => Audio.maxInputChannels info
  | Audio.Output => Audio.maxOutputChannels info
  end.

(** [list_devices]: the devices of the host, in the order of their
    indices, that have channels of the direction.  The lookup does not
    raise within [range(get_device_count())]: the count is a C [int], and
    the indices below it are those that PortAudio knows. *)
Definition list_devices (d : Audio.direction) (host : list Audio.DeviceInfo)
    : list Listed :=
  flat_map
    (fun i =>
       match Audio.get_device_info_by_index host (Z.of_nat i) with
       | Ret device_info =>
           if (0 <? channels_of d device_info)%Z then
             [{| index := Z.of_nat i;
                 listed_name := Audio.name device_info;
                 listed_channels := channels_of d device_info;
                 listed_sample_rate := Audio.defaultSampleRate device_info |}]
           else []
       | Raise _ => []
       end)
    (seq 0 (length host)).

Definition msg_specify (d : Audio.direction) : string :=
  match d with
  | Audio.Input => "Please specify an input device ID"
  | Audio.Output => "Please specify an output device ID"
  end.

Definition msg_set_log (d : Audio.direction) : string :=
  match d with
  | Audio.Input => "Input device set to {device_id} ({device_name})"
  | Audio.Output => "Output device set to {device_id} ({device_name})"
  end.

Definition msg_set (d : Audio.direction) : string :=
  match d with
  | Audio.Input => "Input device set to: {device_name}"
  | Audio.Output => "Output device set to: {device_name}"
  end.

Definition msg_set_error (d : Audio.direction) : string :=
  match d with
  | Audio.Input => "Error setting input device: {e}"
  | Audio.Output => "Error setting output device: {e}"
  end.

Section Selection.

(** The builtin [int] on a command argument; [None] stands for its
    ValueError. *)
Variable int : string -> option Z.

(** The devices of the host. *)
Variable host : list Audio.DeviceInfo.

Definition parse_int (a : string) : M Z :=
  match int a with
  | Some v => ret v
  | None => raise ValueError
  end.

(** The assignment of a new [AudioInput] or [AudioOutput], built for
    the device with the rate, buffer size and channels of the old one. *)
Definition replace_endpoint (d : Audio.direction) (device_id : Z) : M unit :=
  fun s =>
    let old := endpoint d s in
    match Audio.init d host (Some device_id) (Audio.sample_rate old)
            (Audio.buffer_size old) (Audio.channels old) with
    | (Ret a, records) =>
        (Ret tt,
         with_logger (logger s ++ records)
           (with_endpoint d a (host_faults s) s))
    | (Raise e, records) => (Raise e, with_logger (logger s ++ records) s)
    end.

(** [_set_input_device] and [_set_output_device], which differ in the
    endpoint and in the wording of their messages. *)
Definition _set_device (d : Audio.direction) (args : list string) : M unit :=
  match args with
  | [] => show Error (msg_specify d)
  | a :: _ =>
      try_
        (bind (parse_int a) (fun device_id =>
           let devices := list_devices d host in
           let device_ids := map index devices in
           if negb (existsb (Z.eqb device_id) device_ids) then
             show Error "Invalid device ID: {device_id}"
           else
             fun s =>
               let was_active := active s in
               ((if was_active then _stop_transformation else ret tt) ;;
                replace_endpoint d device_id ;;
                (if was_active then _start_transformation else ret tt) ;;
                log INFO (msg_set_log d) ;;
                show Success (msg_set d)) s))
        (fun e =>
           match e with
           | ValueError => show Error "Device ID must be a number"
           | _ =>
               log ERROR (msg_set_error d) ;;
               show Error (msg_set_error d)
           end)
  end.

Definition _set_input_device : list string -> M unit :=
  _set_device Audio.Input.

Definition _set_output_device : list string -> M unit :=
  _set_device Audio.Output.

End Selection.
End Devices.

(* ------------------------------------------------------------------ *)
(** ** src/audio/input.py: callback, get_audio_chunk *)

Module Capture.
Import Audio.

(** The int16 that two bytes hold, low byte first. *)
Definition int16_of_bytes (lo hi : Z) : Z :=
  let u := (lo + 256 * hi)%Z in
  if (u <? 32768)%Z then u else (u - 65536)%Z.

(** [np.frombuffer(in_data, dtype=np.int16)]: a buffer whose size is not
    a multiple of two raises ValueError ([None]). *)
Fixpoint frombuffer (in_data : list Z) : option frame :=
  match in_data with
  | [] => Some []
  | lo :: hi :: rest =>
      match frombuffer rest with
      | Some a => Some (int16_of_bytes lo hi :: a)
      | None => None
      end
  | [_] => None
  end.

(** [AudioInput.callback]: the frame that the bytes hold is added to
    the queue. *)
Definition callback (in_data : list Z) (status : Z) (self : AudioEndpoint)
    : outcome unit * AudioEndpoint * list log_record :=
  let log :=
    if (status =? 0)%Z then []
    else [(WARNING, "Audio input status: {status}"%string)] in
  match frombuffer in_data with
  | Some audio_data =>
      (Ret tt,
       with_data_queue self
         (Deque.append data_queue_maxlen (data_queue self) audio_data),
       log)
  | None => (Raise ValueError, self, log)
  end.

(** [AudioInput.get_audio_chunk]: [polls] is the number of times the
    clock lets the loop look at the queue before the timeout; the queue is
    the one found at the call. *)
Fixpoint get_audio_chunk (polls : nat) (self : AudioEndpoint)
    : option frame * AudioEndpoint * list log_record :=
  match polls with
  | O =>
      (None, self,
       [(WARNING, "Timeout while waiting for audio input"%string)])
  | S polls' =>
      if 0 <? length (data_queue self) then
        match Deque.popleft (data_queue self) with
        | Some (x, rest) => (Some x, with_data_queue self rest, [])
        | None => get_audio_chunk polls' self
        end
      else get_audio_chunk polls' self
  end.

(** The samples of a frame are int16 values. *)
Definition is_int16 (a : frame) : Prop :=
  Forall (fun z => (-32768 <= z <= 32767)%Z) a.

End Capture.

(* ------------------------------------------------------------------ *)
(** ** src/cli/commands.py: _toggle_metrics, _processing_loop *)

Module Relay.
Import Cli.
Local Open Scope cmd_scope.

Definition with_show_metrics (b : bool) (d : Display) : Display :=
  {| show_metrics := b;
     d_active := d_active d;
     d_thread := d_thread d;
     d_threads_started := d_threads_started d;
     d_stop_event := d_stop_event d;
     printed := printed d |}.

(** [_toggle_metrics] *)
Definition _toggle_metrics : M unit :=
  fun s =>
    let s1 :=
      with_display
        (with_show_metrics (negb (show_metrics (display s))) (display s)) s in
    if show_metrics (display s1) then
      ((if active s1 && negb (d_active (display s1))
        then display_start_metrics else ret tt) ;;
       show Info "Performance metrics display enabled") s1
    else
      ((if d_active (display s1) then display_stop_metrics else ret tt) ;;
       show Info "Performance metrics display disabled") s1.

(** A handler together with the metrics that its display holds
    ([Display.metrics], an empty dictionary at first: [None]). *)
Record Monitor : Type := mkMonitor {
  handler : CommandHandler;
  metrics : option Telemetry.Metrics
}.

Section Loop.

(** The builtin [sum] on floats, for [get_metrics]. *)
Variable fsum : list Q -> Q.

(** One turn of the [while] loop of [CommandHandler._processing_loop];
    [polls] is the number of looks at the input queue that the timeout of
    [get_audio_chunk] allows. *)
Definition turn (polls : nat) (m : Monitor) : Monitor :=
  let s := handler m in
  if active s && negb (paused s) then
    let '(chunk, input', records) :=
      Capture.get_audio_chunk polls (audio_input s) in
    let s1 :=
      with_logger (logger s ++ records)
        (with_endpoint Audio.Input input' (host_faults s) s) in
    let s2 :=
      match chunk with
      | Some audio_data =>
          let '(transformed, p) :=
            Pipeline.get_transformed_audio
              (Pipeline.add_audio (pipeline s1) audio_data) in
          let s' := with_pipeline p s1 in
          match transformed with
          | Some transformed_audio =>
              with_endpoint Audio.Output
                (Audio.play_audio (audio_output s') transformed_audio)
                (host_faults s') s'
          | None => s'
          end
      | None => s1
      end in
    {| handler := s2;
       metrics := Some (Telemetry.get_metrics fsum (pipeline s2)) |}
  else m.

End Loop.
End Relay.

(* ------------------------------------------------------------------ *)
(** ** The threads that run while the transformation runs *)

Module Threads.
Import Cli.

(** A step of one of the threads that [_start_transformation] sets
    going: PortAudio calls the callback of the input or of the output
    stream, the work loop of the pipeline takes a turn, or the loop of
    the handler does. *)
Inductive step : Type :=
| InputCallback (in_data : list Z) (status : Z)
| OutputCallback (frame_count : nat) (status : Z)
| PipelineTurn (proc_time : Q)
| HandlerTurn (polls : nat).

Section Threads.

Variable exp2 : Q -> Q.
Variable resample : pyfloat -> pyfloat -> frame -> outcome frame.
Variable fsum : list Q -> Q.

(** The handler after one step.  A callback is called while its stream
    is active; a loop takes a turn while its thread is there and its
    stop event is clear. *)
Definition take (s : CommandHandler) (st : step) : CommandHandler :=
  match st with
  | InputCallback in_data status =>
      if Audio.active (audio_input s) then
        let '(_, a, records) :=
          Capture.callback in_data status (audio_input s) in
        with_logger (logger s ++ records)
          (with_endpoint Audio.Input a (host_faults s) s)
      else s
  | OutputCallback frame_count status =>
      if Audio.active (audio_output s) then
        let '(_, a, records) :=
          Audio.callback status frame_count (audio_output s) in
        with_logger (logger s ++ records)
          (with_endpoint Audio.Output a (host_faults s) s)
      else s
  | PipelineTurn proc_time =>
      match Pipeline.thread (pipeline s) with
      | Some _ =>
          if Pipeline.stop_event (pipeline s) then s
          else
            let '(p, records) :=
              Pipeline.iteration exp2 resample proc_time (pipeline s) in
            with_logger (logger s ++ records) (with_pipeline p s)
      | None => s
      end
  | HandlerTurn polls =>
      match thread s with
      | Some _ =>
          if stop_event s then s
          else
            Relay.handler
              (Relay.turn fsum polls
                 {| Relay.handler := s; Relay.metrics := None |})
      | None => s
      end
  end.

(** The handler after a sequence of steps, first step first. *)
Definition run (s : CommandHandler) (steps : list step) : CommandHandler :=
  fold_left take steps s.

End Threads.
End Threads.

(* ------------------------------------------------------------------ *)
(** ** src/audio/processing.py: process, _normalize_audio *)

Module Preprocess.

(** The attributes of an [AudioProcessor] that [process] reads. *)
Record AudioProcessor : Type := mkProcessor {
  normalize : bool;
  noise_reduction : bool;
  noise_profile : option (list Q)
}.

Section Process.

(** [_reduce_noise], the spectral subtraction done with librosa, from
    the noise profile and the audio. *)
Variable reduce_noise : list Q -> list Q -> list Q.

(** [target_amp / max_amp] and [sample * gain] as NumPy computes them:
    the results are rounded, to a type that depends on the version of
    NumPy. *)
Variable divide : Q -> Q -> Q.
Variable multiply : Q -> Q -> Q.

(** [_normalize_audio].  [np.max] of an empty array raises ValueError.
    The magnitudes and their maximum are exact; for float32 samples the
    comparison with 0.01 gives what the comparison with its float
    gives. *)
Definition _normalize_audio (audio_data : list Q) : outcome (list Q) :=
  match map Qabs audio_data with
  | [] => Raise ValueError
  | a :: rest =>
      let max_amp := Telemetry.py_max a rest in
      if Telemetry.Qltb (1 # 100) max_amp then
        let target_amp := (7 # 10)%Q in
        let gain := divide target_amp max_amp in
        Ret (map (fun x => multiply x gain) audio_data)
      else Ret audio_data
  end.

(** [astype(np.float32) / 32768.0]: exact on int16 samples. *)
Definition to_float (audio_data : frame) : list Q :=
  map (fun z => inject_Z z / 32768)%Q audio_data.

(** [process] *)
Definition process (self : AudioProcessor) (audio_data : frame)
    : outcome (list Q) :=
  let audio_float := to_float audio_data in
  match (if normalize self then _normalize_audio audio_float
         else Ret audio_float) with
  | Raise e => Raise e
  | Ret audio_float' =>
      match noise_reduction self, noise_profile self with
      | true, Some profile => Ret (reduce_noise profile audio_float')
      | _, _ => Ret audio_float'
      end
  end.

End Process.
End Preprocess.

(* ------------------------------------------------------------------ *)
(** ** src/transformation/rvc_model.py: load, unload, convert *)

Module Engine.

(** The attributes of an [RVCModel] that its methods read and write;
    [Net] is the type of the dictionary of networks. *)
Record RVCModel (Net : Type) : Type := mkModel {
  model_path : string;
  model : option Net;
  is_loaded : bool
}.

Arguments mkModel {Net} _ _ _.

Section Model.

Variable Net : Type.

(** [os.path.exists] *)
Variable path_exists : string -> bool.

(** Building the dictionary of placeholder networks on the device, which
    may raise. *)
Variable build : outcome Net.

(** The features that [convert] takes and returns. *)
Variable Features : Type.

(** The [try] body of [convert], done with torch: from [self.model], the
    features and the four parameters to the transformed features. *)
Variable transform :
  option Net -> Features -> pyfloat -> pyfloat -> pyfloat -> bool ->
  outcome Features.

(** [__init__] *)
Definition init (path : string) : RVCModel Net :=
  {| model_path := path; model := None; is_loaded := false |}.

(** [load] *)
Definition load (self : RVCModel Net)
    : bool * RVCModel Net * list log_record :=
  if is_loaded self then (true, self, [])
  else if negb (path_exists (model_path self)) then
    (false, self,
     [(ERROR, "Model file not found: {self.model_path}"%string)])
  else
    match build with
    | Ret net =>
        (true,
         {| model_path := model_path self;
            model := Some net;
            is_loaded := true |},
         [(INFO, "Loading RVC model from {self.model_path}"%string);
          (INFO, "RVC model loaded successfully"%string)])
    | Raise e =>
        (false, self,
         [(INFO, "Loading RVC model from {self.model_path}"%string);
          (ERROR, "Error loading RVC model: {e}"%string)])
    end.

(** [unload] *)
Definition unload (self : RVCModel Net)
    : RVCModel Net * list log_record :=
  if is_loaded self then
    ({| model_path := model_path self;
        model := None;
        is_loaded := false |},
     [(INFO, "RVC model unloaded"%string)])
  else (self, []).

(** [convert] *)
Definition convert (self : RVCModel Net) (features : Features)
    (pitch_shift formant_shift intensity : pyfloat) (preserve_tones : bool)
    : Features * RVCModel Net * list log_record :=
  let '(ok, self, records) :=
    if negb (is_loaded self) then load self else (true, self, []) in
  if negb ok then
    (features, self,
     records ++ [(ERROR, "Failed to load RVC model"%string)])
  else
    match transform (model self) features pitch_shift formant_shift
            intensity preserve_tones with
    | Ret transformed_features => (transformed_features, self, records)
    | Raise e =>
        (features, self,
         records ++ [(ERROR, "Error in voice conversion: {e}"%string)])
    end.

(** The flag [is_loaded] tells whether the networks are there. *)
Definition coherent (self : RVCModel Net) : Prop :=
  is_loaded self = match model self with Some _ => true | None => false end.

End Model.
End Engine.
(* ================================================================== *)
(** * Properties *)

(* ------------------------------------------------------------------ *)
(** ** The bounded queues *)

Module DequeFacts.
Section Bounded.

Context {A : Type}.
Implicit Types (q xs l r : list A) (n : nat).

Lemma lastn_length n l :
  length (Deque.lastn n l) = Nat.min n (length l).
Proof. unfold Deque.lastn. rewrite length_skipn. lia. Qed.

Lemma lastn_all n l : length l <= n -> Deque.lastn n l = l.
Proof.
  intros H. unfold Deque.lastn.
  replace (length l - n) with 0 by lia. reflexivity.
Qed.

Lemma lastn_app_lastn n l r :
  Deque.lastn n (Deque.lastn n l ++ r) = Deque.lastn n (l ++ r).
Proof.
  destruct (Nat.le_gt_cases (length l) n) as [Hle | Hgt].
  - now rewrite (@lastn_all n l Hle).
  - unfold Deque.lastn at 1 3. rewrite !length_app, lastn_length.
    unfold Deque.lastn. rewrite !skipn_app, skipn_skipn, length_skipn.
    f_equal; f_equal; lia.
Qed.

Lemma lastn_app_long n q xs :
  n <= length xs -> Deque.lastn n (q ++ xs) = Deque.lastn n xs.
Proof.
  intros H. unfold Deque.lastn. rewrite length_app, skipn_app.
  replace (length q + length xs - n - length q)
    with (length xs - n) by lia.
  rewrite skipn_all2 by lia. reflexivity.
Qed.

Lemma append_lastn n q (x : A) :
  length q <= n -> Deque.append n q x = Deque.lastn n (q ++ [x]).
Proof.
  intros H. unfold Deque.append, Deque.lastn. cbv zeta.
  rewrite length_app. cbn [length].
  destruct (Nat.ltb_spec n (length q + 1)) as [Hlt | Hge].
  - replace (length q + 1 - n) with 1 by lia.
    destruct q; reflexivity.
  - replace (length q + 1 - n) with 0 by lia. reflexivity.
Qed.

Lemma append_length n q (x : A) :
  length q <= n -> length (Deque.append n q x) <= n.
Proof.
  intros H. rewrite append_lastn by assumption.
  rewrite lastn_length. lia.
Qed.

Lemma extend_lastn n xs : forall q,
  length q <= n -> Deque.extend n q xs = Deque.lastn n (q ++ xs).
Proof.
  unfold Deque.extend.
  induction xs as [| x xs IH]; intros q H; cbn [fold_left].
  - rewrite app_nil_r. symmetry. now apply lastn_all.
  - rewrite IH by now apply append_length.
    rewrite append_lastn by assumption.
    rewrite lastn_app_lastn, <- app_assoc. reflexivity.
Qed.

End Bounded.
End DequeFacts.

Module PipelineFacts.
Import Pipeline.

(** [add_audio] for a sequence of frames, oldest first. *)
Definition add_all (self : TransformationPipeline) (frames : list frame)
    : TransformationPipeline :=
  fold_left add_audio frames self.

(** [k] successive calls of [get_transformed_audio]. *)
Fixpoint pops (k : nat) (self : TransformationPipeline)
    : list (option frame) :=
  match k with
  | O => []
  | S k' =>
      let '(r, self') := get_transformed_audio self in
      r :: pops k' self'
  end.

Lemma add_all_input_queue frames : forall self,
  input_queue (add_all self frames)
  = Deque.extend queue_maxlen (input_queue self) frames.
Proof.
  unfold add_all, Deque.extend.
  induction frames as [| f frames IH]; intros self; cbn [fold_left].
  - reflexivity.
  - rewrite IH. reflexivity.
Qed.

Lemma get_transformed_audio_popleft self :
  get_transformed_audio self
  = match Deque.popleft (output_queue self) with
    | Some (x, rest) => (Some x, with_output_queue self rest)
    | None => (None, self)
    end.
Proof.
  unfold get_transformed_audio.
  destruct (output_queue self); reflexivity.
Qed.

End PipelineFacts.

(** C1.  The queues of the transformation stage drop their oldest frame
    on overflow.  For a queue of capacity [N] holding at most [N] frames,
    pushing a sequence [xs] longer than [N] leaves exactly the [N] last
    frames of [xs], in the order they were pushed.  [add_audio] is a total
    function (it neither blocks nor fails): after any sequence of calls
    the input queue holds the last 100 frames of what it held followed by
    what was added.  [get_transformed_audio] on an empty output queue
    returns [None] and changes nothing, and otherwise returns the head.
    With capacity 3, pushing 1, 2, 3, 4 leaves 2, 3, 4, and four pops
    then return 2, 3, 4 and [None]. *)
Theorem bounded_queue_drops_oldest
    (N : nat) (q xs : list frame) (self : Pipeline.TransformationPipeline) :
  length q <= N ->
  N < length xs ->
  length (Pipeline.input_queue self) <= Pipeline.queue_maxlen ->
  Deque.extend N q xs = Deque.lastn N xs
  /\ length (Deque.extend N q xs) = N
  /\ Pipeline.input_queue (PipelineFacts.add_all self xs)
     = Deque.lastn 100 (Pipeline.input_queue self ++ xs)
  /\ (Pipeline.output_queue self = [] ->
      Pipeline.get_transformed_audio self = (None, self))
  /\ (forall x rest, Pipeline.output_queue self = x :: rest ->
      Pipeline.get_transformed_audio self
      = (Some x, Pipeline.with_output_queue self rest))
  /\ Deque.extend 3 [] [1; 2; 3; 4]%Z = [2; 3; 4]%Z
  /\ Deque.drain 4 [2; 3; 4]%Z = [Some 2; Some 3; Some 4; None]%Z
  /\ PipelineFacts.pops 4
       (Pipeline.with_output_queue self [[2]; [3]; [4]]%Z)
     = [Some [2]; Some [3]; Some [4]; None]%Z.
Proof.
  intros Hq Hxs Hin.
  assert (E : Deque.extend N q xs = Deque.lastn N xs).
  { rewrite DequeFacts.extend_lastn by assumption.
    apply DequeFacts.lastn_app_long. lia. }
  split; [exact E |].
  split; [rewrite E, DequeFacts.lastn_length; lia |].
  split.
  { rewrite PipelineFacts.add_all_input_queue.
    now apply DequeFacts.extend_lastn. }
  split.
  { intros H. rewrite PipelineFacts.get_transformed_audio_popleft, H.
    reflexivity. }
  split.
  { intros x rest H.
    rewrite PipelineFacts.get_transformed_audio_popleft, H. reflexivity. }
  repeat split; reflexivity.
Qed.

Lemma bounded_queue_drops_oldest_witness :
  Deque.extend 2 [[7]]%Z [[1]; [2]; [3]]%Z = [[2]; [3]]%Z
  /\ Pipeline.input_queue
       (PipelineFacts.add_all Pipeline.default [[1]; [2]; [3]]%Z)
     = [[1]; [2]; [3]]%Z.
Proof.
  destruct (@bounded_queue_drops_oldest 2 [[7]]%Z [[1]; [2]; [3]]%Z
              Pipeline.default)
    as (H1 & _ & H3 & _); cbn; try lia.
  split; [exact H1 | exact H3].
Defined.

(* ------------------------------------------------------------------ *)
(** ** The work loop of the transformation stage *)

Module WorkerFacts.
Import Pipeline.

Section Worker.

Variable exp2 : Q -> Q.
Variable resample : pyfloat -> pyfloat -> frame -> outcome frame.

(** A turn of the loop whose conversion raises: the frame has left the
    input queue, one error is logged, and nothing else has changed; the
    output queue in particular is as it was. *)
Lemma iteration_raise t self audio_data rest e :
  input_queue self = audio_data :: rest ->
  _simulate_transformation exp2 resample
    (with_input_queue self rest) audio_data = Raise e ->
  iteration exp2 resample t self
  = (with_input_queue self rest,
     [(ERROR, "Error processing audio: {e}"%string)]).
Proof.
  intros Hq He. unfold iteration. rewrite Hq. cbn [Deque.popleft].
  rewrite He. reflexivity.
Qed.

(** A turn of the loop whose conversion returns: the result is appended
    to the output queue and the duration is recorded. *)
Lemma iteration_ret t self audio_data rest out :
  input_queue self = audio_data :: rest ->
  _simulate_transformation exp2 resample
    (with_input_queue self rest) audio_data = Ret out ->
  output_queue (fst (iteration exp2 resample t self))
  = Deque.append queue_maxlen (output_queue self) out
  /\ last_latency (fst (iteration exp2 resample t self)) = t
  /\ snd (iteration exp2 resample t self) = [].
Proof.
  intros Hq He. unfold iteration. rewrite Hq. cbn [Deque.popleft].
  rewrite He. repeat split; reflexivity.
Qed.

(** A pitch shift of 12288 semitones or more makes the power overflow,
    whatever the frame. *)
Lemma simulate_overflow self audio_data q :
  pitch_shift self = Fin q ->
  (12288 <= q)%Q ->
  _simulate_transformation exp2 resample self audio_data
  = Raise OverflowError.
Proof.
  intros Hp Hq. unfold _simulate_transformation, pitch_factor.
  rewrite Hp.
  assert (H : Qle_bool 1024 (q / 12) = true).
  { apply Qle_bool_iff. apply Qle_shift_div_l; [reflexivity |].
    exact Hq. }
  rewrite H. reflexivity.
Qed.

(** With nothing in the input queue the loop only polls. *)
Lemma processing_loop_idle clock : forall self,
  input_queue self = [] ->
  _processing_loop exp2 resample clock self = (self, []).
Proof.
  induction clock as [| c clock IH]; intros self Hq; cbn [_processing_loop].
  - reflexivity.
  - destruct (stop_event self); [reflexivity |].
    unfold iteration. rewrite Hq. cbn [Deque.popleft].
    rewrite (IH self Hq). reflexivity.
Qed.

End Worker.

(** A pipeline with the default parameters whose pitch shift was then
    set to 20000 by [update_parameters], and to which one frame was
    added. *)
Definition overflowing (audio_data : frame) : TransformationPipeline :=
  add_audio
    (fst (update_parameters default (Some (Fin 20000)) None None None))
    audio_data.

End WorkerFacts.

(** C2.  The work loop does not forward a frame whose conversion raised:
    with the pitch shift set to 20000 (which [update_parameters] accepts),
    [2 ** (20000 / 12.0)] raises OverflowError for the frame popped; the
    loop logs one error, the output queue stays empty and the input queue
    is empty, so the frame is lost, and the next turns find nothing to
    forward. *)
Theorem work_loop_drops_frame_when_conversion_raises :
  forall (exp2 : Q -> Q)
         (resample : pyfloat -> pyfloat -> frame -> outcome frame)
         (t : Q) (clock : list Q),
    let self := WorkerFacts.overflowing [1; 2; 3]%Z in
    let after := Pipeline.iteration exp2 resample t self in
    Pipeline.input_queue self = [[1; 2; 3]%Z]
    /\ Pipeline.output_queue self = []
    /\ Pipeline.input_queue (fst after) = []
    /\ Pipeline.output_queue (fst after) = []
    /\ snd after = [(ERROR, "Error processing audio: {e}"%string)]
    /\ Pipeline.output_queue
         (fst (Pipeline._processing_loop exp2 resample clock (fst after)))
       = [].
Proof.
  intros exp2 resample t clock self after.
  assert (E : after
              = (Pipeline.with_input_queue self [],
                 [(ERROR, "Error processing audio: {e}"%string)])).
  { subst after.
    apply WorkerFacts.iteration_raise with (audio_data := [1; 2; 3]%Z)
                                            (e := OverflowError).
    - reflexivity.
    - apply WorkerFacts.simulate_overflow with (q := 20000%Q).
      + reflexivity.
      + discriminate. }
  rewrite E. cbn [fst snd].
  repeat split.
  rewrite WorkerFacts.processing_loop_idle by reflexivity.
  reflexivity.
Qed.

(* ------------------------------------------------------------------ *)
(** ** The playback callback *)

Module AudioFacts.
Import Audio.

Lemma tobytes_length (a : frame) : length (tobytes a) = 2 * length a.
Proof.
  unfold tobytes. induction a as [| z a IH]; cbn [flat_map length app].
  - reflexivity.
  - rewrite IH. lia.
Qed.

Lemma pad_right_length (a : frame) (n : nat) :
  length (pad_right a n) = length a + n.
Proof. unfold pad_right. now rewrite length_app, repeat_length. Qed.

(** The bytes of the buffer that [callback] returns. *)
Definition buffer (status : Z) (frame_count : nat) (self : AudioEndpoint)
    : list Z :=
  fst (fst (callback status frame_count self)).

(** The object after [callback]. *)
Definition after (status : Z) (frame_count : nat) (self : AudioEndpoint)
    : AudioEndpoint :=
  snd (fst (callback status frame_count self)).

Lemma callback_empty status frame_count self :
  data_queue self = [] ->
  callback status frame_count self
  = (tobytes (zeros frame_count), self,
     if (status =? 0)%Z then []
     else [(WARNING, "Audio output status: {status}"%string)]).
Proof. intros H. unfold callback. rewrite H. reflexivity. Qed.

Lemma callback_head status frame_count self audio_data rest :
  data_queue self = audio_data :: rest ->
  callback status frame_count self
  = (tobytes
       (if length audio_data <? frame_count then
          pad_right audio_data (frame_count - length audio_data)
        else if frame_count <? length audio_data then
          firstn frame_count audio_data
        else audio_data),
     with_data_queue self rest,
     if (status =? 0)%Z then []
     else [(WARNING, "Audio output status: {status}"%string)]).
Proof. intros H. unfold callback. rewrite H. reflexivity. Qed.

End AudioFacts.

(** C3.  The playback callback always returns [frame_count] samples:
    the frame at the head of the queue followed by zeros when it is
    shorter, its first [frame_count] samples when it is longer, the frame
    itself when it has that length, and [frame_count] zeros when the queue
    is empty.  The buffer has two bytes per sample. *)
Theorem playback_callback_exact_length
    (status : Z) (frame_count : nat) (self : Audio.AudioEndpoint) :
  (exists samples,
      AudioFacts.buffer status frame_count self = Audio.tobytes samples
      /\ length samples = frame_count)
  /\ length (AudioFacts.buffer status frame_count self) = 2 * frame_count
  /\ (Audio.data_queue self = [] ->
      AudioFacts.buffer status frame_count self
      = Audio.tobytes (repeat 0%Z frame_count)
      /\ AudioFacts.after status frame_count self = self)
  /\ (forall audio_data rest,
      Audio.data_queue self = audio_data :: rest ->
      AudioFacts.after status frame_count self
      = Audio.with_data_queue self rest
      /\ (length audio_data < frame_count ->
          AudioFacts.buffer status frame_count self
          = Audio.tobytes
              (audio_data ++ repeat 0%Z (frame_count - length audio_data)))
      /\ (frame_count < length audio_data ->
          AudioFacts.buffer status frame_count self
          = Audio.tobytes (firstn frame_count audio_data))
      /\ (length audio_data = frame_count ->
          AudioFacts.buffer status frame_count self
          = Audio.tobytes audio_data)).
Proof.
  unfold AudioFacts.buffer, AudioFacts.after.
  destruct (Audio.data_queue self) as [| a rest] eqn:Hq.
  - rewrite (AudioFacts.callback_empty status frame_count self Hq).
    cbn [fst snd].
    split; [| split; [| split]].
    + exists (Audio.zeros frame_count). split; [reflexivity |].
      apply repeat_length.
    + rewrite AudioFacts.tobytes_length. unfold Audio.zeros.
      now rewrite repeat_length.
    + intros _. split; reflexivity.
    + intros ? ? H. discriminate H.
  - rewrite (AudioFacts.callback_head status frame_count self Hq).
    cbn [fst snd].
    destruct (Nat.ltb_spec (length a) frame_count) as [Hlt | Hge];
      [| destruct (Nat.ltb_spec frame_count (length a)) as [Hgt | Hle]].
    + split; [| split; [| split]].
      * exists (Audio.pad_right a (frame_count - length a)).
        split; [reflexivity |].
        rewrite AudioFacts.pad_right_length. lia.
      * rewrite AudioFacts.tobytes_length, AudioFacts.pad_right_length.
        lia.
      * intros H. discriminate H.
      * intros a' rest' H. injection H as <- <-.
        split; [reflexivity |]. split; [reflexivity |].
        split; intros; lia.
    + split; [| split; [| split]].
      * exists (firstn frame_count a). split; [reflexivity |].
        rewrite length_firstn. lia.
      * rewrite AudioFacts.tobytes_length, length_firstn. lia.
      * intros H. discriminate H.
      * intros a' rest' H. injection H as <- <-.
        split; [reflexivity |]. split; [intros; lia |].
        split; [reflexivity | intros; lia].
    + split; [| split; [| split]].
      * exists a. split; [reflexivity | lia].
      * rewrite AudioFacts.tobytes_length. lia.
      * intros H. discriminate H.
      * intros a' rest' H. injection H as <- <-.
        split; [reflexivity |]. split; [intros; lia |].
        split; [intros; lia | reflexivity].
Qed.

Lemma playback_callback_exact_length_witness :
  let self :=
    Audio.with_data_queue
      (Audio.fresh None 16000 512 1)
      [repeat 1%Z 256] in
  AudioFacts.buffer 0 512 self
  = Audio.tobytes (repeat 1%Z 256 ++ repeat 0%Z 256).
Proof.
  intros self.
  destruct (playback_callback_exact_length 0 512 self) as (_ & _ & _ & H).
  destruct (H (repeat 1%Z 256) [] eq_refl) as (_ & Hpad & _).
  apply Hpad. rewrite repeat_length. lia.
Defined.

(* ------------------------------------------------------------------ *)
(** ** The lifecycle commands *)

Module CliFacts.
Import Cli.
Local Open Scope cmd_scope.

(** A command that leaves an observation [f] of the handler as it
    was, whether it returns or raises. *)
Definition preserves {X A : Type} (f : CommandHandler -> X) (c : M A)
    : Prop :=
  forall s, f (snd (c s)) = f s.

(** A command that returns, never raises. *)
Definition returns (c : M unit) : Prop :=
  forall s, fst (c s) = Ret tt.

Section Frame.

Context {X : Type} (f : CommandHandler -> X).

Lemma preserves_bind {A B : Type} (c : M A) (k : A -> M B) :
  preserves f c -> (forall a, preserves f (k a)) -> preserves f (bind c k).
Proof.
  intros Hc Hk s. unfold bind.
  specialize (Hc s). destruct (c s) as [[a | e] s']; cbn [snd] in *.
  - now rewrite Hk.
  - exact Hc.
Qed.

Lemma preserves_try {A : Type} (c : M A) (h : exn -> M A) :
  preserves f c -> (forall e, preserves f (h e)) -> preserves f (try_ c h).
Proof.
  intros Hc Hh s. unfold try_.
  specialize (Hc s). destruct (c s) as [[a | e] s']; cbn [snd] in *.
  - exact Hc.
  - now rewrite Hh.
Qed.

End Frame.

Lemma returns_try (c : M unit) (h : exn -> M unit) :
  (forall e, returns (h e)) -> returns (try_ c h).
Proof.
  intros Hh s. unfold try_.
  destruct (c s) as [[[] | e] s']; [reflexivity | apply Hh].
Qed.

Lemma returns_log_show l m k m' : returns (log l m ;; show k m').
Proof. intros s. reflexivity. Qed.

(** What pausing and resuming must not touch: the pipeline (its
    parameters, its worker thread, its queues and its latency window),
    the handler's own thread, and the [active] flag. *)
Definition untouched (s : CommandHandler)
    : Pipeline.TransformationPipeline * option nat * nat * bool * bool :=
  (pipeline s, thread s, threads_started s, stop_event s, active s).

Lemma untouched_log l m : preserves untouched (log l m).
Proof. intros s. reflexivity. Qed.

Lemma untouched_show k m : preserves untouched (show k m).
Proof. intros s. reflexivity. Qed.

Lemma untouched_set_paused b : preserves untouched (set_paused b).
Proof. intros s. reflexivity. Qed.

Lemma untouched_endpoint_start d : preserves untouched (endpoint_start d).
Proof.
  intros s. unfold endpoint_start.
  destruct (Audio.start d (host_faults s) (endpoint d s))
    as [[[r a] faults] records].
  reflexivity.
Qed.

Lemma untouched_endpoint_stop d : preserves untouched (endpoint_stop d).
Proof.
  intros s. unfold endpoint_stop.
  destruct (Audio.stop d (host_faults s) (endpoint d s))
    as [[[r a] faults] records].
  reflexivity.
Qed.

Create HintDb frame.
#[local] Hint Resolve untouched_log untouched_show untouched_set_paused
  untouched_endpoint_start untouched_endpoint_stop : frame.
#[local] Hint Extern 2 (preserves _ (bind _ _)) =>
  apply preserves_bind; [| intros ?] : frame.
#[local] Hint Extern 2 (preserves _ (try_ _ _)) =>
  apply preserves_try; [| intros ?] : frame.

Lemma untouched_resume_body : preserves untouched resume_body.
Proof. unfold resume_body. auto 12 with frame. Qed.

Lemma untouched_pause s :
  untouched (snd (_pause_transformation s)) = untouched s.
Proof.
  unfold _pause_transformation.
  destruct (negb (active s)); [apply untouched_show |].
  destruct (paused s); [apply untouched_show |].
  revert s. change (preserves untouched
    (try_
       (endpoint_stop Audio.Input ;;
        endpoint_stop Audio.Output ;;
        set_paused true ;;
        log INFO "Voice transformation paused" ;;
        show Success "Voice transformation paused")
       (fun e =>
          log ERROR "Error pausing voice transformation: {e}" ;;
          show Error "Error pausing voice transformation: {e}"))).
  auto 12 with frame.
Qed.

Lemma untouched_resume s :
  active s = true ->
  untouched (snd (_resume_transformation s)) = untouched s.
Proof.
  intros Ha. unfold _resume_transformation. rewrite Ha. cbn [negb].
  destruct (negb (paused s)); [apply untouched_show |].
  apply untouched_resume_body.
Qed.

Lemma pause_returns s : fst (_pause_transformation s) = Ret tt.
Proof.
  unfold _pause_transformation.
  destruct (negb (active s)); [reflexivity |].
  destruct (paused s); [reflexivity |].
  apply returns_try. intros e. apply returns_log_show.
Qed.

Lemma resume_returns s :
  active s = true -> fst (_resume_transformation s) = Ret tt.
Proof.
  intros Ha. unfold _resume_transformation. rewrite Ha. cbn [negb].
  destruct (negb (paused s)); [reflexivity |].
  apply returns_try. intros e. apply returns_log_show.
Qed.

(** An endpoint is active only while it has a stream; [__init__],
    [start] and [stop] keep it so. *)
Definition consistent (a : Audio.AudioEndpoint) : Prop :=
  Audio.active a = true -> Audio.stream a <> None.

Lemma consistent_init d host i sr bs ch a :
  fst (Audio.init d host i sr bs ch) = Ret a -> consistent a.
Proof.
  unfold Audio.init.
  destruct i as [i |];
    [destruct (Audio.get_device_info_by_index host i) as [info | []] |];
    cbn [fst]; intros E; try discriminate E;
    injection E as <-; intros H; discriminate H.
Qed.

Lemma consistent_start d faults a :
  consistent a ->
  consistent (snd (fst (fst (Audio.start d faults a)))).
Proof.
  intros Ha. unfold Audio.start.
  destruct (Audio.stream a) eqn:Hs, (Audio.active a) eqn:Hact;
    try exact Ha;
    destruct (Audio.next_fault faults) as [[|] faults']; cbn;
    try exact Ha; intros _; discriminate.
Qed.

Lemma consistent_stop d faults a :
  consistent a ->
  consistent (snd (fst (fst (Audio.stop d faults a)))).
Proof.
  intros Ha. unfold Audio.stop.
  destruct (Audio.stream a) eqn:Hs, (Audio.active a) eqn:Hact;
    try exact Ha.
  destruct (Audio.next_fault faults) as [[|] faults']; cbn;
    try exact Ha. intros H. discriminate H.
Qed.

(** Pausing and resuming when no call into PortAudio fails. *)
Lemma pause_resume_no_fault s :
  active s = true -> paused s = false -> host_faults s = [] ->
  consistent (audio_input s) -> consistent (audio_output s) ->
  let s1 := snd (_pause_transformation s) in
  let s2 := snd (_resume_transformation s1) in
  paused s1 = true
  /\ Audio.active (audio_input s1) = false
  /\ Audio.active (audio_output s1) = false
  /\ paused s2 = false
  /\ Audio.active (audio_input s2) = true
  /\ Audio.active (audio_output s2) = true.
Proof.
  destruct s as [ai ao p d act psd th n ev lg hf]. cbn [active paused host_faults].
  intros -> -> ->.
  unfold consistent.
  destruct ai as [? ? ? ? [st |] ? [|] ?], ao as [? ? ? ? [st' |] ? [|] ?];
    cbn; intros Hi Ho; repeat split;
    try reflexivity;
    try (exfalso; now apply Hi); try (exfalso; now apply Ho).
Qed.

(** The handler with one more message on the display and nothing else
    changed. *)
Definition report (k : kind) (message : string) (s : CommandHandler)
    : CommandHandler :=
  with_display (print k message (display s)) s.

(** A handler on which nothing has been started: default pipeline,
    default devices, an empty display. *)
Definition idle : CommandHandler :=
  init (Audio.fresh None 16000 512 1)
       (Audio.fresh None 16000 512 1)
       Pipeline.default
       {| show_metrics := true; d_active := false; d_thread := None;
          d_threads_started := 0; d_stop_event := false; printed := [] |}
       [].

(** The handler after [start] on [idle]. *)
Definition running : CommandHandler := snd (_start_transformation idle).

End CliFacts.

(** C4.  From a running handler, [pause] followed by [resume] raises
    nothing and leaves the pipeline object exactly as it was: the same
    parameters, the same worker thread (none was started or stopped), the
    same queues and latency window; the handler's own thread and its
    [active] flag are as they were too.  When no device call fails (and
    each endpoint is active only while it has a stream, as it always
    is), [pause] leaves both device streams inactive and sets [paused],
    and [resume] makes both active again and clears [paused]. *)
Theorem pause_resume_keeps_pipeline (s : Cli.CommandHandler) :
  Cli.active s = true ->
  Cli.paused s = false ->
  let s1 := snd (Cli._pause_transformation s) in
  let s2 := snd (Cli._resume_transformation s1) in
  fst (Cli._pause_transformation s) = Ret tt
  /\ fst (Cli._resume_transformation s1) = Ret tt
  /\ Cli.pipeline s1 = Cli.pipeline s
  /\ Cli.pipeline s2 = Cli.pipeline s
  /\ CliFacts.untouched s1 = CliFacts.untouched s
  /\ CliFacts.untouched s2 = CliFacts.untouched s
  /\ (Cli.host_faults s = [] ->
      CliFacts.consistent (Cli.audio_input s) ->
      CliFacts.consistent (Cli.audio_output s) ->
      Cli.paused s1 = true
      /\ Audio.active (Cli.audio_input s1) = false
      /\ Audio.active (Cli.audio_output s1) = false
      /\ Cli.paused s2 = false
      /\ Audio.active (Cli.audio_input s2) = true
      /\ Audio.active (Cli.audio_output s2) = true).
Proof.
  intros Ha Hp s1 s2.
  assert (U1 : CliFacts.untouched s1 = CliFacts.untouched s)
    by apply CliFacts.untouched_pause.
  assert (A1 : Cli.active s1 = true).
  { apply (f_equal snd) in U1. cbn in U1. congruence. }
  assert (U2 : CliFacts.untouched s2 = CliFacts.untouched s).
  { unfold s2. rewrite CliFacts.untouched_resume by exact A1. exact U1. }
  split; [apply CliFacts.pause_returns |].
  split; [now apply CliFacts.resume_returns |].
  split; [now injection U1 |].
  split; [now injection U2 |].
  split; [exact U1 |].
  split; [exact U2 |].
  intros Hf Hi Ho. now apply CliFacts.pause_resume_no_fault.
Qed.

Lemma pause_resume_keeps_pipeline_witness :
  let s1 := snd (Cli._pause_transformation CliFacts.running) in
  let s2 := snd (Cli._resume_transformation s1) in
  Cli.active CliFacts.running = true
  /\ Cli.paused CliFacts.running = false
  /\ Cli.pipeline s2 = Cli.pipeline CliFacts.running
  /\ Cli.paused s1 = true
  /\ Audio.active (Cli.audio_input s2) = true.
Proof.
  intros s1 s2.
  pose proof (pause_resume_keeps_pipeline CliFacts.running eq_refl eq_refl)
    as H.
  cbv zeta in H. destruct H as (_ & _ & _ & H2 & _ & _ & H).
  assert (Hf : Cli.host_faults CliFacts.running = [])
    by (vm_compute; reflexivity).
  assert (Hi : CliFacts.consistent (Cli.audio_input CliFacts.running))
    by (intros _; vm_compute; discriminate).
  assert (Ho : CliFacts.consistent (Cli.audio_output CliFacts.running))
    by (intros _; vm_compute; discriminate).
  destruct (H Hf Hi Ho) as (P1 & _ & _ & _ & I2 & _).
  split; [vm_compute; reflexivity |].
  split; [vm_compute; reflexivity |].
  split; [exact H2 |].
  split; [exact P1 | exact I2].
Defined.

(** C6.  What a lifecycle command does in a state where it does not
    apply.  [stop] on a handler that is not active only prints that the
    transformation is not running, so a second [stop] after a first
    finds the handler as the first left it; [pause] on a handler that is
    not active, or is already paused, only prints a message; [resume]
    and [start] on a handler that is active and not paused only print a
    message; [stop] on a pipeline that is not active returns it as it is,
    and [start] on an active pipeline only logs a warning.  In each case
    nothing is raised and, the printed message apart, the state is the one
    before. *)
Theorem lifecycle_noop_outside_valid_states (s : Cli.CommandHandler) :
  (Cli.active s = false ->
   Cli._stop_transformation s
   = (Ret tt,
      CliFacts.report Cli.Info "Voice transformation is not running" s)
   /\ Cli._stop_transformation (snd (Cli._stop_transformation s))
      = (Ret tt,
         CliFacts.report Cli.Info "Voice transformation is not running"
           (CliFacts.report Cli.Info "Voice transformation is not running"
              s))
   /\ Cli._pause_transformation s
      = (Ret tt,
         CliFacts.report Cli.Error "Voice transformation is not running" s))
  /\ (Cli.active s = true -> Cli.paused s = true ->
      Cli._pause_transformation s
      = (Ret tt,
         CliFacts.report Cli.Info "Voice transformation is already paused"
           s))
  /\ (Cli.active s = true -> Cli.paused s = false ->
      Cli._resume_transformation s
      = (Ret tt,
         CliFacts.report Cli.Info "Voice transformation is not paused" s)
      /\ Cli._start_transformation s
         = (Ret tt,
            CliFacts.report Cli.Info
              "Voice transformation is already running" s))
  /\ (Pipeline.active (Cli.pipeline s) = false ->
      Pipeline.stop (Cli.pipeline s) = (Cli.pipeline s, []))
  /\ (Pipeline.active (Cli.pipeline s) = true ->
      Pipeline.start (Cli.pipeline s)
      = (Cli.pipeline s,
         [(WARNING, "Transformation pipeline already running"%string)])).
Proof.
  split; [| split; [| split; [| split]]].
  - intros Ha.
    assert (E : forall s', Cli.active s' = false ->
              Cli._stop_transformation s'
              = (Ret tt,
                 CliFacts.report Cli.Info
                   "Voice transformation is not running" s')).
    { intros s' H. unfold Cli._stop_transformation. now rewrite H. }
    split; [now apply E |]. split.
    + rewrite (E s Ha). cbn [snd]. now apply E.
    + unfold Cli._pause_transformation. now rewrite Ha.
  - intros Ha Hp. unfold Cli._pause_transformation. now rewrite Ha, Hp.
  - intros Ha Hp. split.
    + unfold Cli._resume_transformation. now rewrite Ha, Hp.
    + unfold Cli._start_transformation. now rewrite Ha, Hp.
  - intros Ha. unfold Pipeline.stop. now rewrite Ha.
  - intros Ha. unfold Pipeline.start. now rewrite Ha.
Qed.

Lemma lifecycle_noop_outside_valid_states_witness :
  Cli.active CliFacts.idle = false
  /\ Cli._stop_transformation CliFacts.idle
     = (Ret tt,
        CliFacts.report Cli.Info "Voice transformation is not running"
          CliFacts.idle)
  /\ Cli.active CliFacts.running = true
  /\ Cli.paused CliFacts.running = false
  /\ Cli._resume_transformation CliFacts.running
     = (Ret tt,
        CliFacts.report Cli.Info "Voice transformation is not paused"
          CliFacts.running).
Proof.
  split; [reflexivity |]. split.
  - apply (lifecycle_noop_outside_valid_states CliFacts.idle). reflexivity.
  - split; [reflexivity |]. split; [reflexivity |].
    apply (lifecycle_noop_outside_valid_states CliFacts.running);
      reflexivity.
Defined.

(** [resume] on a handler that is neither paused nor active is not a
    no-op: it starts the transformation.  On the idle handler it opens
    both streams, starts the worker thread of the pipeline and sets
    [active]. *)
Lemma resume_from_idle_starts :
  Cli.paused CliFacts.idle = false
  /\ Cli.active CliFacts.idle = false
  /\ Cli.active (snd (Cli._resume_transformation CliFacts.idle)) = true
  /\ Pipeline.thread
       (Cli.pipeline (snd (Cli._resume_transformation CliFacts.idle)))
     = Some 1
  /\ ~ (exists k message,
          snd (Cli._resume_transformation CliFacts.idle)
          = CliFacts.report k message CliFacts.idle).
Proof.
  repeat split; try reflexivity.
  intros (k & message & H).
  apply (f_equal Cli.active) in H. discriminate H.
Qed.

(* ------------------------------------------------------------------ *)
(** ** Parameter updates *)

Module ParameterFacts.
Import Cli.

Section Parameters.

Variable float : string -> option pyfloat.

(** A value below -12 or above 12 is refused: an error is printed and
    nothing else changes. *)
Lemma set_pitch_shift_rejects a rest v s :
  float a = Some v ->
  flt v (Fin (-12)) = true \/ fgt v (Fin 12) = true ->
  _set_pitch_shift float (a :: rest) s
  = (Ret tt,
     CliFacts.report Error
       "Pitch shift must be between -12.0 and 12.0 semitones" s).
Proof.
  intros Hv Hout. unfold _set_pitch_shift, try_, bind, parse_float.
  rewrite Hv. cbn [ret].
  replace (flt v (Fin (-12)) || fgt v (Fin 12)) with true
    by (symmetry; apply orb_true_iff; exact Hout).
  reflexivity.
Qed.

(** A value of the interval is forwarded to the pipeline. *)
Lemma set_pitch_shift_accepts a rest v s :
  float a = Some v ->
  in_range (-12) 12 v ->
  fst (_set_pitch_shift float (a :: rest) s) = Ret tt
  /\ Cli.pipeline (snd (_set_pitch_shift float (a :: rest) s))
     = fst (Pipeline.update_parameters (Cli.pipeline s)
              (Some v) None None None).
Proof.
  intros Hv Hin. unfold _set_pitch_shift, try_, bind, parse_float.
  rewrite Hv. cbn [ret].
  destruct v as [q | | |]; try contradiction.
  destruct Hin as [Hlo Hhi].
  apply Qle_bool_iff in Hlo, Hhi.
  unfold fgt, flt. rewrite Hlo, Hhi. cbn. split; reflexivity.
Qed.

Lemma set_formant_shift_rejects a rest v s :
  float a = Some v ->
  flt v (Fin (1 # 2)) = true \/ fgt v (Fin 2) = true ->
  _set_formant_shift float (a :: rest) s
  = (Ret tt,
     CliFacts.report Error "Formant shift must be between 0.5 and 2.0" s).
Proof.
  intros Hv Hout. unfold _set_formant_shift, try_, bind, parse_float.
  rewrite Hv. cbn [ret].
  replace (flt v (Fin (1 # 2)) || fgt v (Fin 2)) with true
    by (symmetry; apply orb_true_iff; exact Hout).
  reflexivity.
Qed.

Lemma set_formant_shift_accepts a rest v s :
  float a = Some v ->
  in_range (1 # 2) 2 v ->
  fst (_set_formant_shift float (a :: rest) s) = Ret tt
  /\ Cli.pipeline (snd (_set_formant_shift float (a :: rest) s))
     = fst (Pipeline.update_parameters (Cli.pipeline s)
              None (Some v) None None).
Proof.
  intros Hv Hin. unfold _set_formant_shift, try_, bind, parse_float.
  rewrite Hv. cbn [ret].
  destruct v as [q | | |]; try contradiction.
  destruct Hin as [Hlo Hhi].
  apply Qle_bool_iff in Hlo, Hhi.
  unfold fgt, flt. rewrite Hlo, Hhi. cbn. split; reflexivity.
Qed.

End Parameters.

(** A [float] that knows the spelling of NaN and of a few numbers. *)
Definition float_sample (a : string) : option pyfloat :=
  if String.eqb a "nan" then Some NaN
  else if String.eqb a "99" then Some (Fin 99)
  else if String.eqb a "3.5" then Some (Fin (35 # 10))
  else None.

End ParameterFacts.

(** C5.  The range checks of the [pitch] and [formant] commands let a
    NaN through.  [float("nan")] is a float; it is not in [-12, 12] nor
    in [0.5, 2.0], yet both comparisons of each check are false for it, so
    the command forwards it: the pitch shift (the formant shift) of the
    pipeline becomes NaN and a success message is printed. *)
Theorem range_check_forwards_nan
    (float : string -> option pyfloat) (s : Cli.CommandHandler) :
  float "nan"%string = Some NaN ->
  ~ in_range (-12) 12 NaN
  /\ ~ in_range (1 # 2) 2 NaN
  /\ Cli._set_pitch_shift float ["nan"%string] s
     = (Ret tt,
        CliFacts.report Cli.Success
          "Pitch shift set to {pitch_shift} semitones"
          (Cli.with_logger
             (Cli.logger s
              ++ snd (Pipeline.update_parameters (Cli.pipeline s)
                        (Some NaN) None None None)
              ++ [(INFO, "Pitch shift set to {pitch_shift}"%string)])
             (Cli.with_pipeline
                (fst (Pipeline.update_parameters (Cli.pipeline s)
                        (Some NaN) None None None))
                s)))
  /\ Pipeline.pitch_shift
       (Cli.pipeline (snd (Cli._set_pitch_shift float ["nan"%string] s)))
     = NaN
  /\ Pipeline.formant_shift
       (Cli.pipeline (snd (Cli._set_formant_shift float ["nan"%string] s)))
     = NaN.
Proof.
  intros Hnan.
  split; [intros H; exact H |].
  split; [intros H; exact H |].
  unfold Cli._set_pitch_shift, Cli._set_formant_shift, Cli.try_, Cli.bind,
    Cli.parse_float.
  rewrite Hnan. cbn.
  split; [| split; reflexivity].
  unfold CliFacts.report. cbn. rewrite <- !app_assoc. reflexivity.
Qed.

Lemma range_check_forwards_nan_witness :
  ParameterFacts.float_sample "nan" = Some NaN
  /\ Pipeline.pitch_shift (Cli.pipeline CliFacts.idle) = Fin 5
  /\ Pipeline.pitch_shift
       (Cli.pipeline
          (snd (Cli._set_pitch_shift ParameterFacts.float_sample
                  ["nan"%string] CliFacts.idle)))
     = NaN.
Proof.
  split; [reflexivity |]. split; [reflexivity |].
  apply (range_check_forwards_nan ParameterFacts.float_sample CliFacts.idle).
  reflexivity.
Defined.

(** C8.  [update_parameters] sets the fields it is given and leaves the
    others: for each of the four parameters, a value that is passed
    becomes the field, whatever the value (99, an infinity or NaN are
    stored like any other), and [None] leaves the field as it was; the
    worker, the queues and the latency window are not touched. *)
Theorem update_parameters_per_field
    (self : Pipeline.TransformationPipeline)
    (ps fs it : option pyfloat) (pt : option bool) :
  let self' := fst (Pipeline.update_parameters self ps fs it pt) in
  (forall v, ps = Some v -> Pipeline.pitch_shift self' = v)
  /\ (ps = None -> Pipeline.pitch_shift self' = Pipeline.pitch_shift self)
  /\ (forall v, fs = Some v -> Pipeline.formant_shift self' = v)
  /\ (fs = None ->
      Pipeline.formant_shift self' = Pipeline.formant_shift self)
  /\ (forall v, it = Some v -> Pipeline.intensity self' = v)
  /\ (it = None -> Pipeline.intensity self' = Pipeline.intensity self)
  /\ (forall v, pt = Some v -> Pipeline.preserve_tones self' = v)
  /\ (pt = None ->
      Pipeline.preserve_tones self' = Pipeline.preserve_tones self)
  /\ Pipeline.active self' = Pipeline.active self
  /\ Pipeline.thread self' = Pipeline.thread self
  /\ Pipeline.threads_started self' = Pipeline.threads_started self
  /\ Pipeline.stop_event self' = Pipeline.stop_event self
  /\ Pipeline.input_queue self' = Pipeline.input_queue self
  /\ Pipeline.output_queue self' = Pipeline.output_queue self
  /\ Pipeline.processing_times self' = Pipeline.processing_times self
  /\ Pipeline.last_latency self' = Pipeline.last_latency self.
Proof.
  cbn. repeat split; try (intros v ->; reflexivity);
    try (intros ->; reflexivity).
Qed.

Lemma update_parameters_per_field_witness :
  let self' :=
    fst (Pipeline.update_parameters Pipeline.default
           (Some (Fin 99)) None None (Some false)) in
  Pipeline.pitch_shift self' = Fin 99
  /\ Pipeline.formant_shift self' = Fin (12 # 10)
  /\ Pipeline.preserve_tones self' = false.
Proof.
  intros self'.
  pose proof (update_parameters_per_field Pipeline.default
                (Some (Fin 99)) None None (Some false)) as H.
  cbv zeta in H.
  destruct H as (H1 & _ & _ & H4 & _ & _ & H7 & _).
  split; [exact (H1 _ eq_refl) |].
  split; [exact (H4 eq_refl) | exact (H7 _ eq_refl)].
Defined.

(* ------------------------------------------------------------------ *)
(** ** Construction of the device endpoints *)

(** C9.  Constructing an [AudioInput] or an [AudioOutput] with a device
    index that is not in the device list does not always succeed.  For an
    index that fits a C [int] and that PortAudio does not know (negative,
    or not below the number of devices) the constructor returns: a warning
    is logged and the index of the object is [None], the default device.
    For an index that does not fit a C [int] (2147483648, say) the lookup
    raises OverflowError, which [except IOError] does not catch: the
    constructor raises and no object is built. *)
Theorem endpoint_init_raises_beyond_c_int
    (d : Audio.direction) (host : list Audio.DeviceInfo)
    (i sample_rate buffer_size channels : Z) :
  (Audio.c_int i = true ->
   (i < 0 \/ Z.of_nat (length host) <= i)%Z ->
   Audio.init d host (Some i) sample_rate buffer_size channels
   = (Ret (Audio.fresh None sample_rate buffer_size channels),
      [(WARNING, Audio.msg_not_found d)]))
  /\ (Audio.c_int i = false ->
      Audio.get_device_info_by_index host i = Raise OverflowError
      /\ Audio.init d host (Some i) sample_rate buffer_size channels
         = (Raise OverflowError, [])
      /\ fst (Audio.AudioInput_init host (Some i)
                sample_rate buffer_size channels) = Raise OverflowError
      /\ fst (Audio.AudioOutput_init host (Some i)
                sample_rate buffer_size channels) = Raise OverflowError).
Proof.
  unfold Audio.AudioInput_init, Audio.AudioOutput_init, Audio.init,
    Audio.get_device_info_by_index.
  split.
  - intros Hc Hi. rewrite Hc. cbn [negb].
    assert (E : (if (0 <=? i)%Z then nth_error host (Z.to_nat i) else None)
                = None).
    { destruct (Z.leb_spec 0 i) as [Hnn | Hneg]; [| reflexivity].
      apply nth_error_None. lia. }
    rewrite E. reflexivity.
  - intros Hc. rewrite Hc. cbn [negb fst]. repeat split.
Qed.

Lemma endpoint_init_raises_beyond_c_int_witness :
  fst (Audio.AudioInput_init
         [Audio.mkDeviceInfo "Microphone" 2 0 44100;
          Audio.mkDeviceInfo "Speakers" 0 2 48000]
         (Some 2147483648%Z) 16000 512 1) = Raise OverflowError
  /\ fst (Audio.AudioInput_init
            [Audio.mkDeviceInfo "Microphone" 2 0 44100;
             Audio.mkDeviceInfo "Speakers" 0 2 48000]
            (Some 9999%Z) 16000 512 1)
     = Ret (Audio.fresh None 16000 512 1).
Proof.
  split.
  - apply (@endpoint_init_raises_beyond_c_int Audio.Input
             [Audio.mkDeviceInfo "Microphone" 2 0 44100;
              Audio.mkDeviceInfo "Speakers" 0 2 48000]
             2147483648 16000 512 1).
    reflexivity.
  - destruct (@endpoint_init_raises_beyond_c_int Audio.Input
                [Audio.mkDeviceInfo "Microphone" 2 0 44100;
                 Audio.mkDeviceInfo "Speakers" 0 2 48000]
                9999 16000 512 1) as [H _].
    unfold Audio.AudioInput_init. rewrite H.
    + reflexivity.
    + reflexivity.
    + right. cbn. lia.
Defined.

(* ------------------------------------------------------------------ *)
(** ** Conversion back to int16 *)

Module IEEEFacts.
Import IEEE.

(** Rounding to an integer stays between the integers around. *)
Lemma rne_le (q : Q) (M : Z) : (q <= inject_Z M)%Q -> (rne q <= M)%Z.
Proof.
  intros H. unfold rne. cbv zeta.
  assert (Hf : (Qfloor q <= M)%Z).
  { rewrite <- (Qfloor_Z M). now apply Qfloor_resp_le. }
  destruct (Z.eq_dec (Qfloor q) M) as [E | E].
  - assert (C : (q - inject_Z (Qfloor q) ?= 1 # 2)%Q = Lt).
    { apply Qlt_alt. rewrite E.
      apply Qle_lt_trans with 0%Q; [| reflexivity].
      apply Qle_minus_iff in H.
      apply Qle_minus_iff. ring_simplify.
      setoid_replace (-1 * q + inject_Z M)%Q
        with (inject_Z M + - q)%Q by ring. exact H. }
    rewrite C. exact Hf.
  - destruct (q - inject_Z (Qfloor q) ?= 1 # 2)%Q;
      [destruct (Z.even (Qfloor q)) | |]; lia.
Qed.

Lemma rne_ge (q : Q) (M : Z) : (inject_Z M <= q)%Q -> (M <= rne q)%Z.
Proof.
  intros H. unfold rne. cbv zeta.
  assert (Hf : (M <= Qfloor q)%Z).
  { rewrite <- (Qfloor_Z M). now apply Qfloor_resp_le. }
  destruct (q - inject_Z (Qfloor q) ?= 1 # 2)%Q;
    [destruct (Z.even (Qfloor q)) | |]; lia.
Qed.

(** A bound on the exponent from the sizes of numerator and
    denominator. *)
Lemma flog2_le (q : Q) :
  (flog2 q <= Z.log2 (Qnum q) - Z.log2 (Z.pos (Qden q)))%Z.
Proof. unfold flog2. cbv zeta. destruct (Qle_bool _ _); lia. Qed.

Lemma pow2_neg (e : Z) :
  (e < 0)%Z -> pow2 e = (1 # Z.to_pos (2 ^ (- e)))%Q.
Proof.
  intros H. unfold pow2. destruct (Z.leb_spec 0 e); [lia | reflexivity].
Qed.

(** The significand of the nearest number, when the unit in the last
    place is [1 / K]. *)
Lemma nearest_between (t : dtype) (a : Q) (A B : Z) :
  (ulp_exp t a < 0)%Z ->
  let K := (2 ^ (- ulp_exp t a))%Z in
  (inject_Z A <= a * inject_Z K)%Q ->
  (a * inject_Z K <= inject_Z B)%Q ->
  exists m, nearest t a = (inject_Z m * (1 # Z.to_pos K))%Q
            /\ (A <= m <= B)%Z.
Proof.
  intros He K HA HB. unfold nearest. rewrite (pow2_neg He). fold K.
  assert (HK : (0 < K)%Z) by (apply Z.pow_pos_nonneg; lia).
  assert (E : (a / (1 # Z.to_pos K) == a * inject_Z K)%Q).
  { unfold Qdiv, Qinv. cbn [Qnum Qden].
    destruct (Z.to_pos K) eqn:EP; cbn;
      (assert (EK : K = Z.pos (Z.to_pos K)) by (rewrite Z2Pos.id; lia));
      rewrite EK, EP; reflexivity. }
  exists (rne (a / (1 # Z.to_pos K))). split; [reflexivity |].
  split.
  - apply rne_ge. now rewrite E.
  - apply rne_le. now rewrite E.
Qed.

(** Rounding towards zero of [m / K]. *)
Lemma truncate_ratio (m K : Z) :
  (0 < K)%Z -> (0 <= m)%Z ->
  AudioProcessor.truncate (inject_Z m * (1 # Z.to_pos K)) = (m / K)%Z
  /\ AudioProcessor.truncate (- (inject_Z m * (1 # Z.to_pos K)))
     = (- (m / K))%Z.
Proof.
  intros HK Hm. unfold AudioProcessor.truncate. cbn [Qnum Qden Qmult Qopp inject_Z].
  rewrite Z.mul_1_r, Pos.mul_1_l, Z2Pos.id by lia.
  split.
  - apply Z.quot_div_nonneg; lia.
  - rewrite Z.quot_opp_l by lia. f_equal. apply Z.quot_div_nonneg; lia.
Qed.

Lemma ulp_exp_neg (t : dtype) (a : Q) (L : Z) :
  (Z.log2 (Qnum a) - Z.log2 (Z.pos (Qden a)) <= L)%Z ->
  (0 <= L <= 22)%Z ->
  (ulp_exp t a <= L - 23)%Z /\ (ulp_exp t a < 0)%Z.
Proof.
  intros Ha HL. pose proof (flog2_le a) as Hf.
  unfold ulp_exp, emin. destruct t; cbn [prec emax]; lia.
Qed.


(** What becomes of an int16 sample [z] divided by 32768 and multiplied
    by 32767 in floating point. *)
Lemma round_int16 (t : dtype) (z : Z) :
  (-32768 <= z <= 32767)%Z ->
  exists r,
    round t ((inject_Z z / 32768) * 32767)%Q = Fin r
    /\ AudioProcessor.truncate r = (z - Z.sgn z)%Z.
Proof.
  intros Hz.
  destruct (Z.eq_dec z 0) as [-> | Hz0].
  { exists 0%Q. split; reflexivity. }
  unfold round.
  set (x := ((inject_Z z / 32768) * 32767)%Q).
  assert (E0 : Qeq_bool x 0 = false).
  { destruct (Qeq_bool x 0) eqn:E; [| reflexivity].
    apply Qeq_bool_eq in E. unfold Qeq in E. cbn in E. lia. }
  rewrite E0. cbv zeta.
  set (w := Z.abs z).
  assert (Hw : (1 <= w <= 32768)%Z) by (unfold w; lia).
  assert (Ea : Qabs x = (w * 32767 # 32768)%Q).
  { unfold x, w. cbn. rewrite Z.mul_1_r, Z.abs_mul. reflexivity. }
  rewrite Ea.
  set (a := (w * 32767 # 32768)%Q).
  assert (HL : (Z.log2 (Qnum a) - Z.log2 (Z.pos (Qden a)) <= Z.log2 w)%Z).
  { cbn [a Qnum Qden]. change (Z.log2 32768) with 15%Z.
    assert (H1 : (w * 32767 <= w * 2 ^ 15)%Z) by lia.
    apply Z.log2_le_mono in H1.
    rewrite Z.log2_mul_pow2 in H1 by lia. lia. }
  assert (Hlw : (0 <= Z.log2 w <= 15)%Z).
  { split; [apply Z.log2_nonneg |].
    change 15%Z with (Z.log2 32768). apply Z.log2_le_mono. lia. }
  destruct (ulp_exp_neg t a HL) as [He1 He]; [lia |].
  set (K := (2 ^ (- ulp_exp t a))%Z).
  assert (HK : (0 < K)%Z) by (apply Z.pow_pos_nonneg; lia).
  assert (HwK : (32768 <= w * K)%Z).
  { assert (H1 : (2 ^ (23 - Z.log2 w) <= K)%Z)
      by (apply Z.pow_le_mono_r; lia).
    assert (H2 : (2 ^ Z.log2 w <= w)%Z) by (apply Z.log2_spec; lia).
    assert (H3 : (2 ^ Z.log2 w * 2 ^ (23 - Z.log2 w) = 2 ^ 23)%Z).
    { rewrite <- Z.pow_add_r by lia. f_equal. lia. }
    assert (H4 : (0 < 2 ^ (23 - Z.log2 w))%Z)
      by (apply Z.pow_pos_nonneg; lia).
    assert (H5 : (0 < 2 ^ Z.log2 w)%Z) by (apply Z.pow_pos_nonneg; lia).
    assert (H6 : (2 ^ Z.log2 w * 2 ^ (23 - Z.log2 w) <= w * K)%Z)
      by (apply Z.mul_le_mono_nonneg; lia).
    rewrite H3 in H6. change (2 ^ 23)%Z with 8388608%Z in H6. lia. }
  assert (HwK' : (w * K <= 32768 * K)%Z)
    by (apply Z.mul_le_mono_nonneg_r; lia).
  destruct (@nearest_between t a ((w - 1) * K) (w * K - 1) He)
    as (m & -> & Hm0 & Hm1).
  { fold K. unfold Qle. cbn [a Qnum Qden Qmult inject_Z]. lia. }
  { fold K. unfold Qle. cbn [a Qnum Qden Qmult inject_Z]. lia. }
  fold K in Hm0, Hm1 |- *.
  assert (Hm : (0 <= m)%Z) by nia.
  destruct (truncate_ratio HK Hm) as [T1 T2].
  assert (Hq : (m / K = w - 1)%Z).
  { symmetry. apply (Z.div_unique m K (w - 1) (m - (w - 1) * K)); lia. }
  assert (Hov : Qle_bool (pow2 (emax t)) (inject_Z m * (1 # Z.to_pos K))
                = false).
  { destruct (Qle_bool _ _) eqn:B; [| reflexivity].
    apply Qle_bool_iff in B. exfalso.
    assert (Hr : (inject_Z m * (1 # Z.to_pos K) <= 32768)%Q).
    { unfold Qle. cbn [Qnum Qden Qmult inject_Z].
      rewrite Z.mul_1_r, Pos.mul_1_l, Z2Pos.id by lia. lia. }
    assert (Hbig : (32768 < pow2 (emax t))%Q) by (destruct t; reflexivity).
    apply (Qlt_not_le _ _ Hbig). now apply Qle_trans with (1 := B). }
  rewrite Hov.
  assert (Es : (0 <? Qnum x)%Z = (0 <? z)%Z).
  { unfold x. cbn [Qnum Qmult Qdiv Qinv inject_Z].
    destruct (Z.ltb_spec 0 z); [apply Z.ltb_lt | apply Z.ltb_ge]; lia. }
  rewrite Es.
  destruct (Z.ltb_spec 0 z) as [Hp | Hn]; eexists;
    (split; [reflexivity |]).
  - rewrite T1, Hq, (Z.sgn_pos z Hp). unfold w. lia.
  - rewrite T2, Hq, (Z.sgn_neg z) by lia. unfold w. lia.
Qed.

End IEEEFacts.

Module AudioProcessorFacts.
Import AudioProcessor.

(** Clipping a float that is not a NaN gives a number of [-1, 1]. *)
Lemma clip_unit (x : pyfloat) :
  is_nan x = false ->
  exists q, clip (-1) 1 x = Fin q /\ (-1 <= q)%Q /\ (q <= 1)%Q.
Proof.
  intros Hx. destruct x as [q | | |]; try discriminate Hx.
  - unfold clip, fgt, flt.
    destruct (Qle_bool (-1) q) eqn:Hlo; cbn [negb].
    + destruct (Qle_bool q 1) eqn:Hhi; cbn [negb].
      * exists q. apply Qle_bool_iff in Hlo, Hhi. auto.
      * exists 1%Q. repeat split; discriminate.
    + exists (-1)%Q. repeat split; [apply Qle_refl | discriminate].
  - exists 1%Q. repeat split; discriminate.
  - exists (-1)%Q. repeat split; [apply Qle_refl | discriminate].
Qed.





(** On an array without NaN, every sample is clipped to [-1, 1]. *)
Lemma postprocess_clips (audio_data : list pyfloat) :
  Forall (fun x => is_nan x = false) audio_data ->
  Forall (fun x => in_range (-1) 1 (clip (-1) 1 x)) audio_data.
Proof.
  intros H. induction H as [| x l Hx Hl IH]; constructor; [| exact IH].
  destruct (clip_unit x Hx) as (q & -> & Hlo & Hhi). split; assumption.
Qed.


End AudioProcessorFacts.



(* ------------------------------------------------------------------ *)
(** ** The pitch shift of the conversion engine *)

Module RVCModelFacts.
Import RVCModel.

Lemma sum_scaled (k : Q) (l : list Q) :
  (sum (map (fun x => x * k) l) == sum l * k)%Q.
Proof.
  induction l as [| x l IH]; cbn [map sum fold_right].
  - ring.
  - fold (sum (map (fun x => x * k)%Q l)). fold (sum l).
    rewrite IH. ring.
Qed.

(** The mean of the scaled contour is the scaled mean. *)
Lemma mean_scaled (k : Q) (l : list Q) :
  (mean (map (fun x => x * k) l) == mean l * k)%Q.
Proof.
  unfold mean. rewrite length_map, sum_scaled.
  unfold Qdiv. ring.
Qed.

(** Subtracting a number and adding an equal one changes nothing. *)
Lemma recentre_id (m m' : Q) (l : list Q) :
  (m == m')%Q ->
  Forall2 Qeq (map (fun x => x - m + m')%Q l) l.
Proof.
  intros E. induction l as [| x l IH]; cbn [map]; constructor.
  - rewrite E. ring.
  - exact IH.
Qed.

End RVCModelFacts.

(** C7.  The pitch multiplier is [2 ** (pitch_shift / 12)], and under
    [preserve_tones] the engine computes, for each voiced value of the
    contour, the shifted value minus the mean of the shifted contour plus
    the shifted mean of the original one.  In exact arithmetic these two
    means are equal, so the contour under [preserve_tones] is the plain
    multiplicative shift, value by value: the flag changes nothing.  For
    the contour 100, 200 Hz and a multiplier of 2 both settings give 200,
    400 Hz. *)
Theorem preserve_tones_is_plain_shift
    (exp2 : Q -> Q) (pitch_shift : Q) (f0 : list Q) :
  RVCModel.multiplier exp2 pitch_shift = exp2 (pitch_shift / 12)%Q
  /\ RVCModel.shift_f0 exp2 false pitch_shift f0
     = map (fun x => x * exp2 (pitch_shift / 12))%Q f0
  /\ Forall2 Qeq
       (RVCModel.shift_f0 exp2 true pitch_shift f0)
       (RVCModel.shift_f0 exp2 false pitch_shift f0)
  /\ RVCModel.shift_f0 (fun _ => 2%Q) false 12 [100; 200]%Q
     = [100 * 2; 200 * 2]%Q
  /\ Forall2 Qeq
       (RVCModel.shift_f0 (fun _ => 2%Q) true 12 [100; 200]%Q)
       [200; 400]%Q.
Proof.
  split; [reflexivity |]. split; [reflexivity |]. split.
  - unfold RVCModel.shift_f0.
    destruct f0 as [| x l]; [constructor |].
    cbn [length Nat.ltb Nat.leb].
    apply RVCModelFacts.recentre_id.
    apply RVCModelFacts.mean_scaled.
  - split; [reflexivity |].
    repeat constructor; reflexivity.
Qed.

(* ================================================================== *)
(** * Properties of the rest of the code *)

(* ------------------------------------------------------------------ *)
(** ** The metrics of the transformation stage *)

Module TelemetryFacts.
Import Pipeline Telemetry.

Lemma Qltb_false (a b : Q) : Qltb a b = false -> (b <= a)%Q.
Proof.
  unfold Qltb. intros H. apply Qle_bool_iff.
  now destruct (Qle_bool b a).
Qed.

Lemma Qltb_true (a b : Q) : Qltb a b = true -> (a <= b)%Q.
Proof.
  unfold Qltb. intros H.
  destruct (Qle_bool b a) eqn:E; [discriminate H |].
  destruct (Qlt_le_dec a b) as [Hlt | Hle].
  - now apply Qlt_le_weak.
  - apply Qle_bool_iff in Hle. congruence.
Qed.

Lemma py_max_spec (l : list Q) : forall x,
  In (py_max x l) (x :: l)
  /\ forall y, In y (x :: l) -> (y <= py_max x l)%Q.
Proof.
  unfold py_max.
  induction l as [| z l IH]; intros x; cbn [fold_left].
  - split; [now left |]. intros y [<- | []]. apply Qle_refl.
  - destruct (Qltb x z) eqn:E.
    + destruct (IH z) as [Hin Hle]. split.
      * right. exact Hin.
      * intros y [<- | Hy].
        -- apply Qle_trans with z; [now apply Qltb_true |].
           apply Hle. now left.
        -- now apply Hle.
    + destruct (IH x) as [Hin Hle]. split.
      * destruct Hin as [<- | Hin]; [now left | right; now right].
      * intros y [<- | [<- | Hy]].
        -- apply Hle. now left.
        -- apply Qle_trans with x; [now apply Qltb_false |].
           apply Hle. now left.
        -- apply Hle. now right.
Qed.

Lemma py_min_spec (l : list Q) : forall x,
  In (py_min x l) (x :: l)
  /\ forall y, In y (x :: l) -> (py_min x l <= y)%Q.
Proof.
  unfold py_min.
  induction l as [| z l IH]; intros x; cbn [fold_left].
  - split; [now left |]. intros y [<- | []]. apply Qle_refl.
  - destruct (Qltb z x) eqn:E.
    + destruct (IH z) as [Hin Hle]. split.
      * right. exact Hin.
      * intros y [<- | Hy].
        -- apply Qle_trans with z; [apply Hle; now left |].
           now apply Qltb_true.
        -- now apply Hle.
    + destruct (IH x) as [Hin Hle]. split.
      * destruct Hin as [<- | Hin]; [now left | right; now right].
      * intros y [<- | [<- | Hy]].
        -- apply Hle. now left.
        -- apply Qle_trans with x; [apply Hle; now left |].
           now apply Qltb_false.
        -- apply Hle. now right.
Qed.

End TelemetryFacts.

(* ------------------------------------------------------------------ *)
(** ** The pipeline under any sequence of calls *)

Module PipelineRunsFacts.
Import Pipeline PipelineRuns.

Section Runs.

Variable exp2 : Q -> Q.
Variable resample : pyfloat -> pyfloat -> frame -> outcome frame.

(** The queues and the latency window within their capacities. *)
Definition bounded (self : TransformationPipeline) : Prop :=
  length (input_queue self) <= queue_maxlen
  /\ length (output_queue self) <= queue_maxlen
  /\ length (processing_times self) <= times_maxlen.

(** [last_latency] is the newest duration of the window. *)
Definition latest (self : TransformationPipeline) : Prop :=
  processing_times self <> [] ->
  last (processing_times self) 0%Q = last_latency self.

(** The pipeline is active exactly while it has a worker thread, the
    thread is the last one it started, and the stop event is clear while
    it is active. *)
Definition one_worker (self : TransformationPipeline) : Prop :=
  (active self = true ->
   thread self = Some (threads_started self) /\ stop_event self = false)
  /\ (active self = false -> thread self = None).

Lemma tl_length_le {A : Type} (l : list A) (n : nat) :
  length l <= n -> length (tl l) <= n.
Proof. destruct l; cbn; lia. Qed.

Lemma append_last {A : Type} (n : nat) (q : list A) (x d : A) :
  0 < n -> last (Deque.append n q x) d = x.
Proof.
  intros Hn. unfold Deque.append. cbv zeta.
  destruct (n <? length (q ++ [x])) eqn:E.
  - destruct q as [| y q]; cbn [app tl].
    + apply Nat.ltb_lt in E. cbn in E. lia.
    + apply last_last.
  - apply last_last.
Qed.

Lemma append_nonempty {A : Type} (n : nat) (q : list A) (x : A) :
  0 < n -> Deque.append n q x <> [].
Proof.
  intros Hn. unfold Deque.append. cbv zeta.
  destruct (n <? length (q ++ [x])) eqn:E.
  - destruct q as [| y q]; cbn [app tl].
    + apply Nat.ltb_lt in E. cbn in E. lia.
    + destruct q; discriminate.
  - destruct q; discriminate.
Qed.

Lemma bounded_apply self c : bounded self -> bounded (apply exp2 resample self c).
Proof.
  intros (Hi & Ho & Ht). destruct c as [f | | t | ps fs it pt | |];
    cbn [apply].
  - repeat split; try assumption.
    cbn [add_audio with_input_queue input_queue].
    now apply DequeFacts.append_length.
  - rewrite PipelineFacts.get_transformed_audio_popleft.
    destruct (output_queue self) as [| x rest] eqn:E; cbn [Deque.popleft snd].
    + repeat split; try assumption. rewrite E. cbn. lia.
    + repeat split; try assumption.
      cbn [with_output_queue output_queue]. cbn [length] in Ho. lia.
  - destruct (stop_event self); [repeat split; assumption |].
    unfold iteration.
    destruct (input_queue self) as [| f rest] eqn:E; cbn [Deque.popleft].
    + cbn [fst]. repeat split; try assumption. rewrite E. cbn. lia.
    + assert (Hr : length rest <= queue_maxlen) by (cbn [length] in Hi; lia).
      destruct (_simulate_transformation exp2 resample
                  (with_input_queue self rest) f) as [out | e]; cbn [fst].
      * repeat split; cbn; try assumption.
        -- now apply DequeFacts.append_length.
        -- now apply DequeFacts.append_length.
      * repeat split; assumption.
  - repeat split; assumption.
  - unfold start. destruct (active self); repeat split; assumption.
  - unfold stop. destruct (negb (active self)); repeat split; assumption.
Qed.

Lemma latest_apply self c : latest self -> latest (apply exp2 resample self c).
Proof.
  intros H. destruct c as [f | | t | ps fs it pt | |]; cbn [apply].
  - exact H.
  - rewrite PipelineFacts.get_transformed_audio_popleft.
    destruct (output_queue self); exact H.
  - destruct (stop_event self); [exact H |].
    unfold iteration.
    destruct (input_queue self) as [| f rest]; cbn [Deque.popleft];
      [exact H |].
    destruct (_simulate_transformation exp2 resample
                (with_input_queue self rest) f) as [out | e]; cbn [fst];
      [| exact H].
    intros _. cbn. apply append_last. unfold times_maxlen. lia.
  - exact H.
  - unfold start. destruct (active self); exact H.
  - unfold stop. destruct (negb (active self)); exact H.
Qed.

Lemma one_worker_apply self c : one_worker self -> one_worker (apply exp2 resample self c).
Proof.
  intros H. destruct c as [f | | t | ps fs it pt | |]; cbn [apply].
  - exact H.
  - rewrite PipelineFacts.get_transformed_audio_popleft.
    destruct (output_queue self); exact H.
  - destruct (stop_event self); [exact H |].
    unfold iteration.
    destruct (input_queue self) as [| f rest]; cbn [Deque.popleft];
      [exact H |].
    destruct (_simulate_transformation exp2 resample
                (with_input_queue self rest) f) as [out | e]; exact H.
  - exact H.
  - unfold start. destruct (active self) eqn:E; [exact H |].
    cbn. split; [intros _; split; reflexivity | discriminate].
  - unfold stop. destruct (active self) eqn:E; cbn [negb]; [| exact H].
    cbn. split; [discriminate | reflexivity].
Qed.

Lemma run_invariant (P : TransformationPipeline -> Prop) :
  (forall self c, P self -> P (apply exp2 resample self c)) ->
  forall calls self, P self -> P (run exp2 resample self calls).
Proof.
  intros Hstep. unfold run.
  induction calls as [| c calls IH]; intros self H; cbn [fold_left].
  - exact H.
  - apply IH. now apply Hstep.
Qed.

(** The conversion reads only the parameters of the pipeline. *)
Lemma simulate_with_input_queue self q f :
  _simulate_transformation exp2 resample (with_input_queue self q) f
  = _simulate_transformation exp2 resample self f.
Proof. reflexivity. Qed.

(** The work loop on a pipeline whose conversion returns for each
    waiting frame: the frames come out converted, in the order they
    went in. *)
Lemma processing_loop_converts (conv : frame -> frame) :
  forall (frames : list frame) (clock : list Q) self,
    input_queue self = frames ->
    stop_event self = false ->
    (forall f, In f frames ->
       _simulate_transformation exp2 resample self f = Ret (conv f)) ->
    length (output_queue self) + length frames <= queue_maxlen ->
    length frames <= length clock ->
    let self' := fst (_processing_loop exp2 resample clock self) in
    input_queue self' = []
    /\ output_queue self' = output_queue self ++ map conv frames
    /\ snd (_processing_loop exp2 resample clock self) = [].
Proof.
  induction frames as [| f frames IH]; intros clock self Hq Hs Hc Hcap Hlen.
  - cbv zeta. rewrite (@WorkerFacts.processing_loop_idle exp2 resample clock self Hq).
    cbn [fst snd map]. rewrite app_nil_r. auto.
  - destruct clock as [| t clock]; [cbn in Hlen; lia |].
    cbn [_processing_loop]. rewrite Hs.
    unfold iteration. rewrite Hq. cbn [Deque.popleft].
    rewrite simulate_with_input_queue, (Hc f (or_introl eq_refl)).
    set (self1 :=
           with_latency
             (with_output_queue (with_input_queue self frames)
                (Deque.append queue_maxlen
                   (output_queue (with_input_queue self frames)) (conv f)))
             (Deque.append times_maxlen
                (processing_times
                   (with_output_queue (with_input_queue self frames)
                      (Deque.append queue_maxlen
                         (output_queue (with_input_queue self frames))
                         (conv f)))) t) t).
    assert (Ho1 : output_queue self1 = output_queue self ++ [conv f]).
    { subst self1. cbn. unfold Deque.append. cbv zeta.
      rewrite length_app. cbn [length] in *.
      destruct (Nat.ltb_spec queue_maxlen (length (output_queue self) + 1));
        [lia | reflexivity]. }
    specialize (IH clock self1).
    destruct IH as (I1 & I2 & I3).
    + reflexivity.
    + exact Hs.
    + intros g Hg. apply (Hc g). now right.
    + rewrite Ho1, length_app. cbn [length] in *. lia.
    + cbn [length] in Hlen. lia.
    + cbv zeta in I1, I2, I3 |- *.
      destruct (_processing_loop exp2 resample clock self1) as [s2 l2].
      cbn [fst snd app] in *. subst l2.
      rewrite I1, I2, Ho1, <- app_assoc. repeat split; reflexivity.
Qed.

End Runs.
End PipelineRunsFacts.

(** X1.  In every state that a pipeline reaches from its construction,
    by any sequence of [add_audio], [get_transformed_audio],
    [update_parameters], [start], [stop] and turns of the work loop, the
    two queues hold at most 100 frames and the latency window at most 50
    durations; the queue lengths that [get_metrics] reports are at most
    100. *)
Theorem reachable_pipeline_bounded
    (exp2 : Q -> Q)
    (resample : pyfloat -> pyfloat -> frame -> outcome frame)
    (ps fs it : pyfloat) (pt : bool) (calls : list PipelineRuns.call) :
  let self :=
    PipelineRuns.run exp2 resample (Pipeline.init ps fs it pt) calls in
  length (Pipeline.input_queue self) <= 100
  /\ length (Pipeline.output_queue self) <= 100
  /\ length (Pipeline.processing_times self) <= 50
  /\ (forall fsum,
        Telemetry.input_queue_len (Telemetry.get_metrics fsum self) <= 100
        /\ Telemetry.output_queue_len (Telemetry.get_metrics fsum self)
           <= 100).
Proof.
  intros self.
  assert (B : PipelineRunsFacts.bounded self).
  { apply PipelineRunsFacts.run_invariant.
    - apply PipelineRunsFacts.bounded_apply.
    - unfold PipelineRunsFacts.bounded. cbn. lia. }
  destruct B as (Hi & Ho & Ht).
  repeat (split; [assumption |]).
  intros fsum. unfold Telemetry.get_metrics.
  destruct (Pipeline.processing_times self);
    cbn [Telemetry.input_queue_len Telemetry.output_queue_len];
    split; assumption.
Qed.

(** X2.  In every reachable state of a pipeline the latencies that
    [get_metrics] reads off the window are consistent: the minimum is at
    most the current latency, which is at most the maximum; when the
    window is not empty the minimum and the maximum are durations of the
    window and the current latency is its newest one. *)
Theorem reachable_metrics_ordered
    (exp2 : Q -> Q)
    (resample : pyfloat -> pyfloat -> frame -> outcome frame)
    (fsum : list Q -> Q)
    (ps fs it : pyfloat) (pt : bool) (calls : list PipelineRuns.call) :
  let self :=
    PipelineRuns.run exp2 resample (Pipeline.init ps fs it pt) calls in
  let m := Telemetry.get_metrics fsum self in
  (Telemetry.min_latency_ms m <= Telemetry.current_latency_ms m)%Q
  /\ (Telemetry.current_latency_ms m <= Telemetry.max_latency_ms m)%Q
  /\ (Pipeline.processing_times self = []
      \/ (In (Telemetry.min_latency_ms m) (Pipeline.processing_times self)
          /\ In (Telemetry.max_latency_ms m)
               (Pipeline.processing_times self)
          /\ Telemetry.current_latency_ms m
             = last (Pipeline.processing_times self) 0%Q)).
Proof.
  intros self m.
  assert (L : PipelineRunsFacts.latest self).
  { apply PipelineRunsFacts.run_invariant.
    - apply PipelineRunsFacts.latest_apply.
    - intros H. now contradiction H. }
  subst m. unfold Telemetry.get_metrics.
  unfold PipelineRunsFacts.latest in L.
  destruct (Pipeline.processing_times self) as [| t ts] eqn:E.
  - cbn. repeat split; try apply Qle_refl. now left.
  - cbn [Telemetry.max_latency_ms Telemetry.min_latency_ms
         Telemetry.current_latency_ms].
    destruct (TelemetryFacts.py_max_spec ts t) as [Hmax_in Hmax].
    destruct (TelemetryFacts.py_min_spec ts t) as [Hmin_in Hmin].
    assert (Hcur : In (Pipeline.last_latency self) (t :: ts)).
    { rewrite <- L by discriminate.
      destruct (exists_last (l := t :: ts)) as (l' & a & Ha);
        [discriminate |].
      rewrite Ha, last_last. apply in_or_app. right. now left. }
    split; [| split].
    + now apply Hmin.
    + now apply Hmax.
    + right. split; [exact Hmin_in |]. split; [exact Hmax_in |].
      symmetry. apply L. discriminate.
Qed.

(** X3.  In every reachable state a pipeline is active exactly while it
    has a worker thread: when active, its thread is the last one it
    started and the stop event is clear, and when not active it has no
    thread.  A [start] on an active pipeline starts no thread, and one
    on an inactive pipeline starts exactly one. *)
Theorem reachable_pipeline_one_worker
    (exp2 : Q -> Q)
    (resample : pyfloat -> pyfloat -> frame -> outcome frame)
    (ps fs it : pyfloat) (pt : bool) (calls : list PipelineRuns.call) :
  let self :=
    PipelineRuns.run exp2 resample (Pipeline.init ps fs it pt) calls in
  (Pipeline.active self = true ->
   Pipeline.thread self = Some (Pipeline.threads_started self)
   /\ Pipeline.stop_event self = false)
  /\ (Pipeline.active self = false -> Pipeline.thread self = None)
  /\ Pipeline.threads_started
       (PipelineRuns.apply exp2 resample self PipelineRuns.Start)
     = (if Pipeline.active self then Pipeline.threads_started self
        else S (Pipeline.threads_started self)).
Proof.
  intros self.
  assert (W : PipelineRunsFacts.one_worker self).
  { apply PipelineRunsFacts.run_invariant.
    - apply PipelineRunsFacts.one_worker_apply.
    - split; [discriminate | reflexivity]. }
  destruct W as [W1 W2].
  split; [exact W1 |]. split; [exact W2 |].
  cbn [PipelineRuns.apply]. unfold Pipeline.start.
  destruct (Pipeline.active self); reflexivity.
Qed.

Lemma reachable_pipeline_one_worker_witness :
  let self :=
    PipelineRuns.run (fun _ => 1%Q) (fun _ _ f => Ret f) Pipeline.default
      [PipelineRuns.Start; PipelineRuns.Start; PipelineRuns.Stop;
       PipelineRuns.Start] in
  Pipeline.active self = true
  /\ Pipeline.thread self = Some 2
  /\ Pipeline.stop_event self = false.
Proof.
  intros self.
  pose proof (reachable_pipeline_one_worker (fun _ => 1%Q)
                (fun _ _ f => Ret f) (Fin 5) (Fin (12 # 10)) (Fin (8 # 10))
                true
                [PipelineRuns.Start; PipelineRuns.Start; PipelineRuns.Stop;
                 PipelineRuns.Start]) as H.
  cbv zeta in H. destruct H as (H1 & _ & _).
  split; [reflexivity |]. exact (H1 eq_refl).
Defined.

(** X4.  The work loop preserves the order of the frames.  When the
    stop event is clear, the conversion returns for each waiting frame,
    the output queue has room for them and the loop takes at least as
    many turns as frames wait, it empties the input queue, appends the
    converted frames to the output queue in the order they were added,
    and logs nothing. *)
Theorem work_loop_fifo
    (exp2 : Q -> Q)
    (resample : pyfloat -> pyfloat -> frame -> outcome frame)
    (conv : frame -> frame) (clock : list Q)
    (self : Pipeline.TransformationPipeline) :
  Pipeline.stop_event self = false ->
  (forall f, In f (Pipeline.input_queue self) ->
     Pipeline._simulate_transformation exp2 resample self f
     = Ret (conv f)) ->
  length (Pipeline.output_queue self)
  + length (Pipeline.input_queue self) <= 100 ->
  length (Pipeline.input_queue self) <= length clock ->
  let self' := fst (Pipeline._processing_loop exp2 resample clock self) in
  Pipeline.input_queue self' = []
  /\ Pipeline.output_queue self'
     = Pipeline.output_queue self ++ map conv (Pipeline.input_queue self)
  /\ snd (Pipeline._processing_loop exp2 resample clock self) = [].
Proof.
  intros Hs Hc Hcap Hlen.
  now apply PipelineRunsFacts.processing_loop_converts.
Qed.

Lemma work_loop_fifo_witness :
  let self := PipelineFacts.add_all Pipeline.default [[1]; [2]; [3]]%Z in
  let self' :=
    fst (Pipeline._processing_loop (fun _ => 1%Q) (fun _ _ f => Ret f)
           [60; 70; 65; 80]%Q self) in
  Pipeline.input_queue self' = []
  /\ Pipeline.output_queue self' = [[1]; [2]; [3]]%Z.
Proof.
  intros self self'.
  destruct (@work_loop_fifo (fun _ => 1%Q) (fun _ _ f => Ret f)
              (fun f => f) [60; 70; 65; 80]%Q self)
    as (H1 & H2 & _).
  - reflexivity.
  - intros f _. reflexivity.
  - cbn. lia.
  - cbn. lia.
  - split; [exact H1 | exact H2].
Defined.

(* ------------------------------------------------------------------ *)
(** ** Starting and stopping the transformation *)

Module LifecycleFacts.
Import Cli.

(** Everything that [start] switches on is off, and the handler has no
    thread. *)
Definition all_off (s : CommandHandler) : Prop :=
  active s = false
  /\ paused s = false
  /\ thread s = None
  /\ Audio.active (audio_input s) = false
  /\ Audio.active (audio_output s) = false
  /\ Pipeline.active (pipeline s) = false
  /\ d_active (display s) = false.

(** Everything that [start] switches on is on. *)
Definition all_on (s : CommandHandler) : Prop :=
  active s = true
  /\ paused s = false
  /\ thread s = Some (threads_started s)
  /\ Audio.active (audio_input s) = true
  /\ Audio.active (audio_output s) = true
  /\ Pipeline.active (pipeline s) = true
  /\ d_active (display s) = true.

(** The last message on the display. *)
Definition last_printed (s : CommandHandler) : option (kind * string) :=
  match rev (printed (display s)) with
  | [] => None
  | m :: _ => Some m
  end.

(** The frames and durations that a pipeline holds. *)
Definition contents (p : Pipeline.TransformationPipeline)
    : list frame * list frame * list Q :=
  (Pipeline.input_queue p, Pipeline.output_queue p,
   Pipeline.processing_times p).

(** The four parameters of a pipeline. *)
Definition parameters (p : Pipeline.TransformationPipeline)
    : pyfloat * pyfloat * pyfloat * bool :=
  (Pipeline.pitch_shift p, Pipeline.formant_shift p, Pipeline.intensity p,
   Pipeline.preserve_tones p).

Ltac open_handler s :=
  destruct s as [[? ? ? ? [?|] ? [|] ?] [? ? ? ? [?|] ? [|] ?]
                 [? ? ? ? [|] ? ? ? ? ? ? ?] [? [|] ? ? ? ?]
                 ? ? ? ? ? ? ?].

Ltac finish :=
  unfold all_on, all_off, last_printed, contents, parameters,
    CliFacts.consistent in *;
  cbn in *; rewrite ?rev_app_distr; cbn;
  repeat split; try reflexivity; try congruence.

Lemma start_no_fault s :
  active s = false -> host_faults s = [] ->
  let s1 := snd (_start_transformation s) in
  fst (_start_transformation s) = Ret tt
  /\ all_on s1
  /\ last_printed s1 = Some (Success, "Voice transformation started"%string)
  /\ Audio.stream (audio_input s1) <> None
  /\ Audio.stream (audio_output s1) <> None
  /\ host_faults s1 = []
  /\ parameters (pipeline s1) = parameters (pipeline s).
Proof.
  open_handler s; cbn [active host_faults]; intros -> ->; finish;
    discriminate.
Qed.


Lemma start_fault_rolls_back s rest :
  active s = false ->
  Audio.active (audio_input s) = false ->
  Audio.active (audio_output s) = false ->
  host_faults s = true :: rest
  \/ host_faults s = false :: true :: false :: rest ->
  let s1 := snd (_start_transformation s) in
  fst (_start_transformation s) = Ret tt
  /\ all_off s1
  /\ host_faults s1 = rest
  /\ In (Error, "Failed to start voice transformation: {e}"%string)
       (printed (display s1))
  /\ contents (pipeline s1) = contents (pipeline s)
  /\ parameters (pipeline s1) = parameters (pipeline s).
Proof.
  open_handler s; cbn [active host_faults audio_input audio_output
                       Audio.active];
    intros -> Hi Ho [-> | ->]; try discriminate Hi; try discriminate Ho;
    finish; apply in_or_app; right; now left.
Qed.

Lemma stop_fault_then_retry s :
  active s = true ->
  Audio.active (audio_input s) = true ->
  Audio.stream (audio_input s) <> None ->
  CliFacts.consistent (audio_output s) ->
  host_faults s = [true] ->
  let s1 := snd (_stop_transformation s) in
  let s2 := snd (_stop_transformation s1) in
  fst (_stop_transformation s) = Ret tt
  /\ active s1 = true
  /\ paused s1 = paused s
  /\ thread s1 = None
  /\ stop_event s1 = true
  /\ Audio.active (audio_input s1) = true
  /\ pipeline s1 = pipeline s
  /\ last_printed s1
     = Some (Error, "Error stopping voice transformation: {e}"%string)
  /\ all_off s2.
Proof.
  open_handler s; cbn [active host_faults audio_input audio_output
                       Audio.active Audio.stream];
    intros -> Hi Hs Ho ->; try discriminate Hi; try (now contradiction Hs);
    finish;
    try (exfalso; apply Ho; reflexivity).
Qed.

End LifecycleFacts.

(** X6.  A [start] that fails rolls back.  From a handler that is not
    active and whose endpoints are not active, when opening the input
    stream fails, or when opening the output stream fails and stopping the
    input stream then succeeds, [start] itself returns (the error is
    caught), prints that it failed to start, and leaves the handler, both
    endpoints, the pipeline and the metrics display inactive, with the
    pipeline's frames and parameters as they were. *)
Theorem failed_start_rolls_back
    (s : Cli.CommandHandler) (rest : list bool) :
  Cli.active s = false ->
  Audio.active (Cli.audio_input s) = false ->
  Audio.active (Cli.audio_output s) = false ->
  Cli.host_faults s = true :: rest
  \/ Cli.host_faults s = false :: true :: false :: rest ->
  let s1 := snd (Cli._start_transformation s) in
  fst (Cli._start_transformation s) = Ret tt
  /\ LifecycleFacts.all_off s1
  /\ Cli.host_faults s1 = rest
  /\ In (Cli.Error, "Failed to start voice transformation: {e}"%string)
       (Cli.printed (Cli.display s1))
  /\ LifecycleFacts.contents (Cli.pipeline s1)
     = LifecycleFacts.contents (Cli.pipeline s)
  /\ LifecycleFacts.parameters (Cli.pipeline s1)
     = LifecycleFacts.parameters (Cli.pipeline s).
Proof. apply LifecycleFacts.start_fault_rolls_back. Qed.

Lemma failed_start_rolls_back_witness :
  let s := Cli.with_endpoint Audio.Input (Cli.audio_input CliFacts.idle)
             [false; true; false] CliFacts.idle in
  let s1 := snd (Cli._start_transformation s) in
  Cli.active s1 = false
  /\ Audio.active (Cli.audio_input s1) = false
  /\ Audio.streams_opened (Cli.audio_input s1) = 1.
Proof.
  intros s s1.
  pose proof (@failed_start_rolls_back s [] eq_refl eq_refl eq_refl
                (or_intror eq_refl)) as H.
  cbv zeta in H. destruct H as (_ & (H1 & _ & _ & H2 & _) & _).
  split; [exact H1 |]. split; [exact H2 | reflexivity].
Defined.

(** X7.  A [stop] that fails can be repeated.  On an active handler
    whose input stream is active, when stopping that stream fails,
    [stop] returns (the error is caught) and prints the error; the
    handler is still active and the pipeline is untouched, but the
    handler's own thread is already gone and its stop event set.  A second
    [stop], with no further failure, then leaves everything inactive. *)
Theorem failed_stop_then_retry (s : Cli.CommandHandler) :
  Cli.active s = true ->
  Audio.active (Cli.audio_input s) = true ->
  Audio.stream (Cli.audio_input s) <> None ->
  CliFacts.consistent (Cli.audio_output s) ->
  Cli.host_faults s = [true] ->
  let s1 := snd (Cli._stop_transformation s) in
  let s2 := snd (Cli._stop_transformation s1) in
  fst (Cli._stop_transformation s) = Ret tt
  /\ Cli.active s1 = true
  /\ Cli.paused s1 = Cli.paused s
  /\ Cli.thread s1 = None
  /\ Cli.stop_event s1 = true
  /\ Audio.active (Cli.audio_input s1) = true
  /\ Cli.pipeline s1 = Cli.pipeline s
  /\ LifecycleFacts.last_printed s1
     = Some (Cli.Error, "Error stopping voice transformation: {e}"%string)
  /\ LifecycleFacts.all_off s2.
Proof. apply LifecycleFacts.stop_fault_then_retry. Qed.

Lemma failed_stop_then_retry_witness :
  let s := Cli.with_endpoint Audio.Input (Cli.audio_input CliFacts.running)
             [true] CliFacts.running in
  let s1 := snd (Cli._stop_transformation s) in
  let s2 := snd (Cli._stop_transformation s1) in
  Cli.active s1 = true /\ Cli.thread s1 = None /\ Cli.active s2 = false.
Proof.
  intros s s1 s2.
  assert (Hs : Audio.stream (Cli.audio_input s) <> None)
    by (vm_compute; discriminate).
  assert (Ho : CliFacts.consistent (Cli.audio_output s))
    by (intros _; vm_compute; discriminate).
  pose proof (@failed_stop_then_retry s eq_refl eq_refl Hs Ho eq_refl) as H.
  cbv zeta in H. destruct H as (_ & H1 & _ & H2 & _ & _ & _ & _ & H3 & _).
  split; [exact H1 |]. split; [exact H2 | exact H3].
Defined.

(* ------------------------------------------------------------------ *)
(** ** Listing and selecting devices *)

Module DevicesFacts.
Import Cli Devices.
Local Open Scope cmd_scope.

Lemma get_device_info_known (host : list Audio.DeviceInfo) (id : Z) info :
  Audio.get_device_info_by_index host id = Ret info ->
  (0 <= id)%Z /\ nth_error host (Z.to_nat id) = Some info.
Proof.
  unfold Audio.get_device_info_by_index.
  destruct (negb (Audio.c_int id)); [discriminate |].
  destruct (Z.leb_spec 0 id) as [Hid | Hid]; [| discriminate].
  destruct (nth_error host (Z.to_nat id)); [| discriminate].
  intros E. injection E as ->. split; [exact Hid | reflexivity].
Qed.

(** The indices that [list_devices] lists are those of the devices that
    exist and have channels of the direction. *)
Lemma listed_iff d host (id : Z) :
  In id (map index (list_devices d host))
  <-> exists info,
        Audio.get_device_info_by_index host id = Ret info
        /\ (0 < channels_of d info)%Z.
Proof.
  unfold list_devices. rewrite in_map_iff. split.
  - intros (e & <- & He). apply in_flat_map in He.
    destruct He as (i & Hi & He).
    destruct (Audio.get_device_info_by_index host (Z.of_nat i))
      as [info | ex] eqn:E; [| contradiction].
    destruct (0 <? channels_of d info)%Z eqn:C; [| contradiction].
    destruct He as [<- | []]. cbn [index].
    exists info. split; [exact E | now apply Z.ltb_lt].
  - intros (info & E & C).
    destruct (get_device_info_known host id E) as [Hid Hn].
    exists {| index := id;
              listed_name := Audio.name info;
              listed_channels := channels_of d info;
              listed_sample_rate := Audio.defaultSampleRate info |}.
    split; [reflexivity |].
    apply in_flat_map. exists (Z.to_nat id).
    rewrite Z2Nat.id by exact Hid. rewrite E.
    apply Z.ltb_lt in C. rewrite C. split; [| now left].
    apply in_seq. split; [lia |]. cbn.
    apply nth_error_Some. congruence.
Qed.

Lemma existsb_eqb_In (id : Z) (l : list Z) :
  existsb (Z.eqb id) l = true <-> In id l.
Proof.
  rewrite existsb_exists. split.
  - intros (x & Hx & E). apply Z.eqb_eq in E. now subst.
  - intros H. exists id. split; [exact H | apply Z.eqb_refl].
Qed.

(** The indices are listed in increasing order. *)
Lemma listed_increasing d host :
  forall n, StronglySorted Z.lt
    (map index
       (flat_map
          (fun i =>
             match Audio.get_device_info_by_index host (Z.of_nat i) with
             | Ret device_info =>
                 if (0 <? channels_of d device_info)%Z then
                   [{| index := Z.of_nat i;
                       listed_name := Audio.name device_info;
                       listed_channels := channels_of d device_info;
                       listed_sample_rate :=
                         Audio.defaultSampleRate device_info |}]
                 else []
             | Raise _ => []
             end)
          (seq n (length host - n)))).
Proof.
  intros n. remember (length host - n) as k eqn:Hk. clear Hk.
  revert n. induction k as [| k IH]; intros n; cbn [seq flat_map].
  - constructor.
  - rewrite map_app.
    assert (Hrest : Forall (fun j => (Z.of_nat n < j)%Z)
              (map index
                 (flat_map
                    (fun i =>
                       match Audio.get_device_info_by_index host (Z.of_nat i)
                       with
                       | Ret device_info =>
                           if (0 <? channels_of d device_info)%Z then
                             [{| index := Z.of_nat i;
                                 listed_name := Audio.name device_info;
                                 listed_channels := channels_of d device_info;
                                 listed_sample_rate :=
                                   Audio.defaultSampleRate device_info |}]
                           else []
                       | Raise _ => []
                       end)
                    (seq (S n) k)))).
    { apply Forall_forall. intros j Hj. apply in_map_iff in Hj.
      destruct Hj as (e & <- & He). apply in_flat_map in He.
      destruct He as (i & Hi & He). apply in_seq in Hi.
      destruct (Audio.get_device_info_by_index host (Z.of_nat i))
        as [info | ex]; [| contradiction].
      destruct (0 <? channels_of d info)%Z; [| contradiction].
      destruct He as [<- | []]. cbn [index]. lia. }
    destruct (Audio.get_device_info_by_index host (Z.of_nat n))
      as [info | ex];
      [destruct (0 <? channels_of d info)%Z |]; cbn [map app];
      try apply IH.
    constructor; [apply IH | exact Hrest].
Qed.

(** What the endpoints are configured with. *)
Definition config (a : Audio.AudioEndpoint) : option Z * Z * Z * Z :=
  (Audio.device_index a, Audio.sample_rate a, Audio.buffer_size a,
   Audio.channels a).

Definition configs (s : CommandHandler)
    : (option Z * Z * Z * Z) * (option Z * Z * Z * Z) :=
  (config (audio_input s), config (audio_output s)).

Lemma configs_endpoint_start d :
  CliFacts.preserves configs (endpoint_start d).
Proof.
  intros s. unfold endpoint_start, Audio.start.
  destruct d;
    cbn [endpoint];
    [destruct (Audio.stream (audio_input s)), (Audio.active (audio_input s))
    |destruct (Audio.stream (audio_output s)),
       (Audio.active (audio_output s))];
    try reflexivity;
    destruct (Audio.next_fault (host_faults s)) as [[|] ?]; reflexivity.
Qed.

Lemma configs_endpoint_stop d :
  CliFacts.preserves configs (endpoint_stop d).
Proof.
  intros s. unfold endpoint_stop, Audio.stop.
  destruct d;
    cbn [endpoint];
    [destruct (Audio.stream (audio_input s)), (Audio.active (audio_input s))
    |destruct (Audio.stream (audio_output s)),
       (Audio.active (audio_output s))];
    try reflexivity;
    destruct (Audio.next_fault (host_faults s)) as [[|] ?]; reflexivity.
Qed.

Lemma configs_pipeline_start : CliFacts.preserves configs pipeline_start.
Proof.
  intros s. unfold pipeline_start.
  destruct (Pipeline.start (pipeline s)). reflexivity.
Qed.

Lemma configs_pipeline_stop : CliFacts.preserves configs pipeline_stop.
Proof.
  intros s. unfold pipeline_stop.
  destruct (Pipeline.stop (pipeline s)). reflexivity.
Qed.

Lemma configs_display_start : CliFacts.preserves configs display_start_metrics.
Proof.
  intros s. unfold display_start_metrics.
  destruct (start_metrics (display s)). reflexivity.
Qed.

Lemma configs_display_stop : CliFacts.preserves configs display_stop_metrics.
Proof.
  intros s. unfold display_stop_metrics.
  destruct (stop_metrics (display s)). reflexivity.
Qed.

Lemma configs_simple :
  (forall l m, CliFacts.preserves configs (log l m))
  /\ (forall k m, CliFacts.preserves configs (show k m))
  /\ (forall a b, CliFacts.preserves configs (set_flags a b))
  /\ (forall b, CliFacts.preserves configs (set_paused b))
  /\ CliFacts.preserves configs thread_start
  /\ CliFacts.preserves configs thread_stop.
Proof. repeat split. Qed.

Create HintDb configs.
#[local] Hint Resolve configs_endpoint_start configs_endpoint_stop
  configs_pipeline_start configs_pipeline_stop configs_display_start
  configs_display_stop : configs.
#[local] Hint Extern 1 (CliFacts.preserves configs (log _ _)) =>
  apply configs_simple : configs.
#[local] Hint Extern 1 (CliFacts.preserves configs (show _ _)) =>
  apply configs_simple : configs.
#[local] Hint Extern 1 (CliFacts.preserves configs (set_flags _ _)) =>
  apply configs_simple : configs.
#[local] Hint Extern 1 (CliFacts.preserves configs (set_paused _)) =>
  apply configs_simple : configs.
#[local] Hint Extern 1 (CliFacts.preserves configs thread_start) =>
  apply configs_simple : configs.
#[local] Hint Extern 1 (CliFacts.preserves configs thread_stop) =>
  apply configs_simple : configs.
#[local] Hint Extern 2 (CliFacts.preserves _ (bind _ _)) =>
  apply CliFacts.preserves_bind; [| intros ?] : configs.
#[local] Hint Extern 2 (CliFacts.preserves _ (try_ _ _)) =>
  apply CliFacts.preserves_try; [| intros ?] : configs.

Lemma configs_cleanup : CliFacts.preserves configs _cleanup.
Proof. unfold _cleanup. auto 20 with configs. Qed.

#[local] Hint Resolve configs_cleanup : configs.

Lemma configs_start_body : CliFacts.preserves configs start_body.
Proof. unfold start_body. auto 20 with configs. Qed.

Lemma configs_resume_body : CliFacts.preserves configs resume_body.
Proof. unfold resume_body. auto 20 with configs. Qed.

Lemma configs_start : CliFacts.preserves configs _start_transformation.
Proof.
  intros s. unfold _start_transformation.
  destruct (active s); [destruct (paused s) |].
  - apply configs_resume_body.
  - reflexivity.
  - apply configs_start_body.
Qed.

Lemma configs_stop : CliFacts.preserves configs _stop_transformation.
Proof.
  intros s. unfold _stop_transformation.
  destruct (negb (active s)); [reflexivity |].
  revert s.
  change (CliFacts.preserves configs
    (try_
       (thread_stop ;;
        endpoint_stop Audio.Input ;;
        endpoint_stop Audio.Output ;;
        pipeline_stop ;;
        display_stop_metrics ;;
        set_flags false false ;;
        log INFO "Voice transformation stopped" ;;
        show Success "Voice transformation stopped")
       (fun e =>
          log ERROR "Error stopping voice transformation: {e}" ;;
          show Error "Error stopping voice transformation: {e}"))).
  auto 20 with configs.
Qed.

(** [start] and [stop] return; their errors are caught. *)
Lemma start_returns s : fst (_start_transformation s) = Ret tt.
Proof.
  unfold _start_transformation.
  destruct (active s); [destruct (paused s) |]; try reflexivity.
  - apply CliFacts.returns_try. intros e. apply CliFacts.returns_log_show.
  - unfold start_body. apply CliFacts.returns_try. intros e s'.
    unfold bind. cbn.
    unfold _cleanup.
    apply (@CliFacts.returns_try _ _
             (fun e' => CliFacts.returns_log_show _ _ _ _)).
Qed.

Lemma stop_returns s : fst (_stop_transformation s) = Ret tt.
Proof.
  unfold _stop_transformation.
  destruct (negb (active s)); [reflexivity |].
  apply CliFacts.returns_try. intros e. apply CliFacts.returns_log_show.
Qed.

End DevicesFacts.

Module SelectionFacts.
Import Cli Devices DevicesFacts.
Local Open Scope cmd_scope.

Section Selection.

Variable int : string -> option Z.
Variable host : list Audio.DeviceInfo.

(** The handler after the optional [stop] of a device change. *)
Definition stopped (s : CommandHandler) : CommandHandler :=
  if active s then snd (_stop_transformation s) else s.

(** The handler after the new endpoint is assigned. *)
Definition replaced (d : Audio.direction) (id : Z) (s : CommandHandler)
    : CommandHandler :=
  snd (replace_endpoint host d id (stopped s)).

(** The handler after the optional [start] of a device change. *)
Definition restarted (d : Audio.direction) (id : Z) (s : CommandHandler)
    : CommandHandler :=
  if active s then snd (_start_transformation (replaced d id s))
  else replaced d id s.

(** The handler after a device change that was accepted. *)
Definition installed (d : Audio.direction) (id : Z) (s : CommandHandler)
    : CommandHandler :=
  CliFacts.report Success (msg_set d)
    (with_logger (logger (restarted d id s) ++ [(INFO, msg_set_log d)])
       (restarted d id s)).

Lemma set_device_accepted d a rest id s :
  int a = Some id ->
  In id (map index (list_devices d host)) ->
  _set_device int host d (a :: rest) s = (Ret tt, installed d id s).
Proof.
  intros Ha Hin.
  destruct (proj1 (listed_iff d host id) Hin) as (info & Hinfo & _).
  unfold _set_device, try_, bind at 1, parse_int.
  rewrite Ha. cbn [ret].
  apply existsb_eqb_In in Hin. rewrite Hin. cbn [negb].
  unfold installed, restarted, replaced, stopped, bind.
  destruct (active s) eqn:A.
  - pose proof (stop_returns s) as R1.
    destruct (_stop_transformation s) as [r1 s1]. cbn [fst snd] in *.
    subst r1.
    unfold replace_endpoint, Audio.init. rewrite Hinfo. cbn [snd].
    match goal with
    | |- context [_start_transformation ?x] =>
        pose proof (start_returns x) as R3;
        destruct (_start_transformation x) as [r3 s3]
    end.
    cbn [fst snd] in *. subst r3. reflexivity.
  - cbn [ret]. unfold replace_endpoint, Audio.init. rewrite Hinfo.
    reflexivity.
Qed.

Lemma set_device_rejected d a rest id s :
  int a = Some id ->
  ~ In id (map index (list_devices d host)) ->
  _set_device int host d (a :: rest) s
  = (Ret tt, CliFacts.report Error "Invalid device ID: {device_id}" s).
Proof.
  intros Ha Hin. unfold _set_device, try_, bind, parse_int.
  rewrite Ha. cbn [ret].
  destruct (existsb (Z.eqb id) (map index (list_devices d host))) eqn:E.
  - apply existsb_eqb_In in E. contradiction.
  - reflexivity.
Qed.

Lemma stopped_configs s : configs (stopped s) = configs s.
Proof.
  unfold stopped. destruct (active s); [apply configs_stop | reflexivity].
Qed.

Lemma endpoint_config d s :
  config (endpoint d s)
  = match d with
    | Audio.Input => fst (configs s)
    | Audio.Output => snd (configs s)
    end.
Proof. destruct d; reflexivity. Qed.

(** The other direction. *)
Definition other (d : Audio.direction) : Audio.direction :=
  match d with
  | Audio.Input => Audio.Output
  | Audio.Output => Audio.Input
  end.

Lemma replaced_endpoint d id info s :
  Audio.get_device_info_by_index host id = Ret info ->
  endpoint d (replaced d id s)
  = {| Audio.device_index := Some id;
       Audio.sample_rate := Audio.sample_rate (endpoint d s);
       Audio.buffer_size := Audio.buffer_size (endpoint d s);
       Audio.channels := Audio.channels (endpoint d s);
       Audio.stream := None;
       Audio.streams_opened := 0;
       Audio.active := false;
       Audio.data_queue := [] |}
  /\ endpoint (other d) (replaced d id s) = endpoint (other d) (stopped s)
  /\ active (replaced d id s) = active (stopped s)
  /\ host_faults (replaced d id s) = host_faults (stopped s)
  /\ pipeline (replaced d id s) = pipeline (stopped s)
  /\ display (replaced d id s) = display (stopped s).
Proof.
  intros Hinfo. unfold replaced, replace_endpoint, Audio.init.
  rewrite Hinfo. cbn [snd].
  pose proof (stopped_configs s) as C.
  pose proof (endpoint_config d (stopped s)) as C1.
  pose proof (endpoint_config d s) as C2.
  unfold config in C1, C2.
  assert (E : (Audio.sample_rate (endpoint d (stopped s)),
               Audio.buffer_size (endpoint d (stopped s)),
               Audio.channels (endpoint d (stopped s)))
              = (Audio.sample_rate (endpoint d s),
                 Audio.buffer_size (endpoint d s),
                 Audio.channels (endpoint d s))).
  { rewrite C in C1. destruct d; congruence. }
  injection E as -> -> ->.
  destruct d; repeat split; reflexivity.
Qed.

Lemma restarted_configs d id s :
  configs (restarted d id s) = configs (replaced d id s).
Proof.
  unfold restarted. destruct (active s); [apply configs_start | reflexivity].
Qed.

Lemma stopped_no_fault s :
  active s = true -> host_faults s = [] ->
  active (stopped s) = false /\ host_faults (stopped s) = [].
Proof.
  intros Ha Hf. unfold stopped. rewrite Ha. revert Ha Hf.
  LifecycleFacts.open_handler s; cbn [active host_faults];
    intros -> ->; cbn; split; reflexivity.
Qed.

Lemma installed_all_on d id info s :
  Audio.get_device_info_by_index host id = Ret info ->
  active s = true -> host_faults s = [] ->
  LifecycleFacts.all_on (installed d id s).
Proof.
  intros Hinfo Ha Hf.
  destruct (stopped_no_fault s Ha Hf) as [A1 F1].
  destruct (replaced_endpoint d id s Hinfo) as (_ & _ & A2 & F2 & _).
  rewrite A1 in A2. rewrite F1 in F2.
  pose proof (LifecycleFacts.start_no_fault (replaced d id s) A2 F2)
    as H.
  cbv zeta in H. destruct H as (_ & H & _).
  unfold installed, restarted. rewrite Ha.
  unfold LifecycleFacts.all_on in *. cbn. exact H.
Qed.

End Selection.
End SelectionFacts.

(** X8.  [list_devices] lists exactly the devices that exist on the
    host and have channels of the direction: an index is listed if and
    only if [get_device_info_by_index] knows it and the device has a
    positive number of input (for [AudioInput]) or output (for
    [AudioOutput]) channels.  The indices come in increasing order, so
    none is listed twice. *)
Theorem list_devices_sound_complete
    (d : Audio.direction) (host : list Audio.DeviceInfo) (id : Z) :
  (In id (map Devices.index (Devices.list_devices d host)) ->
   exists info,
     Audio.get_device_info_by_index host id = Ret info
     /\ (0 < Devices.channels_of d info)%Z)
  /\ (forall info,
        Audio.get_device_info_by_index host id = Ret info ->
        (0 < Devices.channels_of d info)%Z ->
        In id (map Devices.index (Devices.list_devices d host)))
  /\ StronglySorted Z.lt (map Devices.index (Devices.list_devices d host)).
Proof.
  split; [apply DevicesFacts.listed_iff |]. split.
  - intros info H1 H2. apply DevicesFacts.listed_iff. now exists info.
  - pose proof (DevicesFacts.listed_increasing d host 0) as H.
    rewrite Nat.sub_0_r in H. exact H.
Qed.

Lemma list_devices_sound_complete_witness :
  let host := [Audio.mkDeviceInfo "Microphone" 2 0 44100;
               Audio.mkDeviceInfo "Speakers" 0 2 48000;
               Audio.mkDeviceInfo "Headset" 1 2 16000] in
  map Devices.index (Devices.list_devices Audio.Input host) = [0; 2]%Z
  /\ In 2%Z (map Devices.index (Devices.list_devices Audio.Input host)).
Proof.
  intros host. split; [reflexivity |].
  destruct (list_devices_sound_complete Audio.Input host 2) as (_ & H & _).
  apply (H (Audio.mkDeviceInfo "Headset" 1 2 16000)); [reflexivity |].
  cbn. lia.
Defined.

(** X9.  A device change is refused, with an error on the display and
    no other effect (the transformation is neither stopped nor
    restarted, the endpoint stays), when the argument is not a number,
    when no device has the index, and when the device of that index has
    no channel of the direction; with no argument at all only an error is
    printed too. *)
Theorem set_device_refuses
    (int : string -> option Z) (host : list Audio.DeviceInfo)
    (d : Audio.direction) (a : string) (rest : list string)
    (s : Cli.CommandHandler) :
  Devices._set_device int host d [] s
  = (Ret tt, CliFacts.report Cli.Error (Devices.msg_specify d) s)
  /\ (int a = None ->
      Devices._set_device int host d (a :: rest) s
      = (Ret tt, CliFacts.report Cli.Error "Device ID must be a number" s))
  /\ (forall id,
        int a = Some id ->
        (forall info,
           Audio.get_device_info_by_index host id = Ret info ->
           (Devices.channels_of d info <= 0)%Z) ->
        Devices._set_device int host d (a :: rest) s
        = (Ret tt,
           CliFacts.report Cli.Error "Invalid device ID: {device_id}" s)).
Proof.
  split; [reflexivity |]. split.
  - intros Ha. unfold Devices._set_device, Cli.try_, Cli.bind,
      Devices.parse_int. rewrite Ha. reflexivity.
  - intros id Ha Hno.
    apply (@SelectionFacts.set_device_rejected int host d a rest id s Ha).
    intros Hin. apply DevicesFacts.listed_iff in Hin.
    destruct Hin as (info & Hi & Hc). specialize (Hno info Hi). lia.
Qed.

Lemma set_device_refuses_witness :
  let host := [Audio.mkDeviceInfo "Microphone" 2 0 44100;
               Audio.mkDeviceInfo "Speakers" 0 2 48000] in
  let int := fun a : string =>
               if String.eqb a "9999" then Some 9999%Z
               else if String.eqb a "1" then Some 1%Z else None in
  Devices._set_input_device int host ["9999"%string] CliFacts.running
  = (Ret tt,
     CliFacts.report Cli.Error "Invalid device ID: {device_id}"
       CliFacts.running)
  /\ Devices._set_input_device int host ["1"%string] CliFacts.running
     = (Ret tt,
        CliFacts.report Cli.Error "Invalid device ID: {device_id}"
          CliFacts.running).
Proof.
  intros host int. split.
  - destruct (set_device_refuses int host Audio.Input "9999" []
                CliFacts.running) as (_ & _ & H).
    apply (H 9999%Z); [reflexivity |].
    intros info Hi. discriminate Hi.
  - destruct (set_device_refuses int host Audio.Input "1" []
                CliFacts.running) as (_ & _ & H).
    apply (H 1%Z); [reflexivity |].
    intros info Hi. injection Hi as <-. cbn. lia.
Defined.

(** X10.  A device change that is accepted installs the device.  For an
    index whose device exists and has channels of the direction, the
    command returns and the endpoint of that direction is then a new
    one for exactly that index (never the default device), with the
    sample rate, buffer size and channel count of the old one, while the
    endpoint of the other direction keeps its configuration.  On a
    handler that was not active the new endpoint is not started and the
    handler stays inactive; on an active handler, when no device call
    fails, the transformation is running again afterwards. *)
Theorem set_device_installs
    (int : string -> option Z) (host : list Audio.DeviceInfo)
    (d : Audio.direction) (a : string) (rest : list string)
    (id : Z) (info : Audio.DeviceInfo) (s : Cli.CommandHandler) :
  int a = Some id ->
  Audio.get_device_info_by_index host id = Ret info ->
  (0 < Devices.channels_of d info)%Z ->
  let s' := snd (Devices._set_device int host d (a :: rest) s) in
  fst (Devices._set_device int host d (a :: rest) s) = Ret tt
  /\ DevicesFacts.config (Cli.endpoint d s')
     = (Some id, Audio.sample_rate (Cli.endpoint d s),
        Audio.buffer_size (Cli.endpoint d s),
        Audio.channels (Cli.endpoint d s))
  /\ DevicesFacts.config (Cli.endpoint (SelectionFacts.other d) s')
     = DevicesFacts.config (Cli.endpoint (SelectionFacts.other d) s)
  /\ LifecycleFacts.last_printed s' = Some (Cli.Success, Devices.msg_set d)
  /\ (Cli.active s = false ->
      Cli.active s' = false
      /\ Audio.active (Cli.endpoint d s') = false
      /\ Audio.stream (Cli.endpoint d s') = None
      /\ Audio.data_queue (Cli.endpoint d s') = []
      /\ Cli.pipeline s' = Cli.pipeline s)
  /\ (Cli.active s = true -> Cli.host_faults s = [] ->
      LifecycleFacts.all_on s').
Proof.
  intros Ha Hinfo Hc s'.
  assert (Hin : In id (map Devices.index (Devices.list_devices d host))).
  { apply DevicesFacts.listed_iff. now exists info. }
  subst s'.
  rewrite (@SelectionFacts.set_device_accepted int host d a rest id s Ha Hin).
  cbn [fst snd].
  destruct (@SelectionFacts.replaced_endpoint host d id info s Hinfo)
    as (E1 & E2 & E3 & E4 & E5 & E6).
  pose proof (SelectionFacts.restarted_configs host d id s) as C3.
  pose proof (SelectionFacts.stopped_configs s) as C1.
  assert (K : forall x,
            DevicesFacts.config
              (Cli.endpoint x (SelectionFacts.installed host d id s))
            = DevicesFacts.config
                (Cli.endpoint x (SelectionFacts.replaced host d id s))).
  { intros x. unfold SelectionFacts.installed.
    rewrite !SelectionFacts.endpoint_config.
    change (DevicesFacts.configs
              (CliFacts.report Cli.Success (Devices.msg_set d)
                 (Cli.with_logger
                    (Cli.logger (SelectionFacts.restarted host d id s)
                     ++ [(INFO, Devices.msg_set_log d)])
                    (SelectionFacts.restarted host d id s))))
      with (DevicesFacts.configs (SelectionFacts.restarted host d id s)).
    now rewrite C3. }
  split; [reflexivity |].
  split; [rewrite K, E1; reflexivity |].
  split.
  { rewrite K, E2. rewrite !SelectionFacts.endpoint_config, C1.
    reflexivity. }
  split.
  { unfold LifecycleFacts.last_printed, SelectionFacts.installed,
      CliFacts.report. cbn. now rewrite rev_app_distr. }
  split.
  - intros Hact.
    assert (R : SelectionFacts.restarted host d id s
                = SelectionFacts.replaced host d id s).
    { unfold SelectionFacts.restarted. now rewrite Hact. }
    assert (S0 : SelectionFacts.stopped s = s).
    { unfold SelectionFacts.stopped. now rewrite Hact. }
    unfold SelectionFacts.installed. rewrite R.
    rewrite S0 in E3, E5.
    assert (Q : forall x,
              Cli.endpoint x
                (CliFacts.report Cli.Success (Devices.msg_set d)
                   (Cli.with_logger
                      (Cli.logger (SelectionFacts.replaced host d id s)
                       ++ [(INFO, Devices.msg_set_log d)])
                      (SelectionFacts.replaced host d id s)))
              = Cli.endpoint x (SelectionFacts.replaced host d id s))
      by (intros []; reflexivity).
    rewrite !Q, E1. cbn.
    repeat split; try reflexivity; try congruence.
  - intros Hact Hf.
    now apply SelectionFacts.installed_all_on with (info := info).
Qed.

Lemma set_device_installs_witness :
  let host := [Audio.mkDeviceInfo "Microphone" 2 0 44100;
               Audio.mkDeviceInfo "Speakers" 0 2 48000;
               Audio.mkDeviceInfo "Headset" 1 2 16000] in
  let int := fun a : string =>
               if String.eqb a "2" then Some 2%Z else None in
  let s' := snd (Devices._set_input_device int host ["2"%string]
                   CliFacts.running) in
  Audio.device_index (Cli.audio_input s') = Some 2%Z
  /\ Cli.active s' = true.
Proof.
  intros host int s'.
  pose proof (@set_device_installs int host Audio.Input "2" [] 2%Z
                (Audio.mkDeviceInfo "Headset" 1 2 16000) CliFacts.running
                eq_refl eq_refl eq_refl) as H.
  cbv zeta in H. destruct H as (_ & H1 & _ & _ & _ & H2).
  split.
  - apply (f_equal (fun c => fst (fst (fst c)))) in H1. exact H1.
  - apply H2; vm_compute; reflexivity.
Defined.

(* ------------------------------------------------------------------ *)
(** ** The capture side *)

Module CaptureFacts.
Import Audio Capture.

Lemma int16_round_trip (z : Z) :
  (-32768 <= z <= 32767)%Z ->
  int16_of_bytes (z mod 256) ((z / 256) mod 256) = z.
Proof.
  intros Hz. unfold int16_of_bytes. cbv zeta.
  replace (z mod 256 + 256 * ((z / 256) mod 256))%Z with (z mod 65536)%Z
    by (change 65536%Z with (256 * 256)%Z; apply Z.rem_mul_r; lia).
  destruct (Z.ltb_spec (z mod 65536) 32768) as [H | H].
  - destruct (Z.neg_nonneg_cases z) as [Hn | Hp].
    + replace z with (z + 65536 - 1 * 65536)%Z in H at 1 by lia.
      rewrite <- Zminus_mod_idemp_r, Z.mod_same, Z.sub_0_r in H by lia.
      rewrite Z.mod_small in H by lia. lia.
    + apply Z.mod_small. lia.
  - destruct (Z.neg_nonneg_cases z) as [Hn | Hp].
    + replace (z mod 65536)%Z with (z + 65536)%Z; [lia |].
      symmetry. replace z with (z + 65536 - 1 * 65536)%Z at 1 by lia.
      rewrite <- Zminus_mod_idemp_r, Z.mod_same, Z.sub_0_r by lia.
      apply Z.mod_small. lia.
    + rewrite Z.mod_small in H by lia. lia.
Qed.

Lemma frombuffer_tobytes (a : frame) :
  is_int16 a -> frombuffer (tobytes a) = Some a.
Proof.
  unfold is_int16, tobytes.
  induction 1 as [| z a Hz Ha IH]; cbn [flat_map app frombuffer].
  - reflexivity.
  - rewrite IH, int16_round_trip by exact Hz. reflexivity.
Qed.

Lemma frombuffer_odd (b : list Z) :
  Nat.odd (length b) = true -> frombuffer b = None.
Proof.
  revert b. fix IH 1. intros [| lo [| hi rest]] H.
  - discriminate H.
  - reflexivity.
  - cbn [frombuffer]. rewrite IH; [reflexivity |].
    cbn [length] in H. now rewrite Nat.odd_succ_succ in H.
Qed.

Lemma get_audio_chunk_empty polls self :
  data_queue self = [] ->
  get_audio_chunk polls self
  = (None, self,
     [(WARNING, "Timeout while waiting for audio input"%string)]).
Proof.
  intros H. induction polls as [| k IH]; cbn [get_audio_chunk].
  - reflexivity.
  - rewrite H. cbn. exact IH.
Qed.

Lemma get_audio_chunk_head polls self x rest :
  data_queue self = x :: rest ->
  get_audio_chunk (S polls) self = (Some x, with_data_queue self rest, []).
Proof. intros H. cbn [get_audio_chunk]. rewrite H. reflexivity. Qed.

Lemma is_int16_pad a n : is_int16 a -> is_int16 (pad_right a n).
Proof.
  intros H. unfold is_int16, pad_right. apply Forall_app. split; [exact H |].
  apply Forall_forall. intros z Hz. apply repeat_spec in Hz. subst. lia.
Qed.

Lemma is_int16_firstn a n : is_int16 a -> is_int16 (firstn n a).
Proof.
  intros H. unfold is_int16 in *. rewrite Forall_forall in *.
  intros z Hz. apply H. rewrite <- (firstn_skipn n a).
  apply in_or_app. now left.
Qed.

Lemma is_int16_zeros n : is_int16 (zeros n).
Proof.
  unfold is_int16, zeros. apply Forall_forall. intros z Hz.
  apply repeat_spec in Hz. subst. lia.
Qed.

End CaptureFacts.

(** X11.  The capture side decodes what it is given and hands it out
    in order.  The bytes of an int16 frame decode to that frame, and the
    input callback called with them appends exactly that frame to the
    queue of the endpoint (dropping the oldest frame of a full queue);
    when the queue was empty, the next [get_audio_chunk] that looks at
    the queue at least once returns the frame and leaves the queue
    empty.  A buffer with an odd number of bytes makes the callback raise
    ValueError and leaves the queue as it was.  On an empty queue
    [get_audio_chunk] returns [None] with a timeout warning and changes
    nothing. *)
Theorem capture_round_trip
    (a : frame) (status : Z) (polls : nat) (self : Audio.AudioEndpoint) :
  Capture.is_int16 a ->
  Capture.frombuffer (Audio.tobytes a) = Some a
  /\ fst (fst (Capture.callback (Audio.tobytes a) status self)) = Ret tt
  /\ Audio.data_queue
       (snd (fst (Capture.callback (Audio.tobytes a) status self)))
     = Deque.append 100 (Audio.data_queue self) a
  /\ (Audio.data_queue self = [] ->
      Capture.get_audio_chunk (S polls)
        (snd (fst (Capture.callback (Audio.tobytes a) status self)))
      = (Some a, self, []))
  /\ (forall b, Nat.odd (length b) = true ->
      fst (Capture.callback b status self) = (Raise ValueError, self))
  /\ (Audio.data_queue self = [] ->
      Capture.get_audio_chunk polls self
      = (None, self,
         [(WARNING, "Timeout while waiting for audio input"%string)])).
Proof.
  intros Ha. pose proof (CaptureFacts.frombuffer_tobytes Ha) as E.
  split; [exact E |].
  unfold Capture.callback. rewrite E. cbn [fst snd].
  split; [reflexivity |]. split; [reflexivity |]. split.
  - intros Hq.
    rewrite (@CaptureFacts.get_audio_chunk_head polls _ a []).
    + destruct self; cbn in *. subst. reflexivity.
    + cbn. rewrite Hq. reflexivity.
  - split.
    + intros b Hb. rewrite (CaptureFacts.frombuffer_odd b Hb). reflexivity.
    + intros Hq. now apply CaptureFacts.get_audio_chunk_empty.
Qed.

Lemma capture_round_trip_witness :
  let self := Audio.fresh None 16000 512 1 in
  Capture.frombuffer (Audio.tobytes [-32768; -1; 0; 1; 32767]%Z)
  = Some [-32768; -1; 0; 1; 32767]%Z
  /\ Capture.get_audio_chunk 1
       (snd (fst (Capture.callback (Audio.tobytes [-1; 300]%Z) 0 self)))
     = (Some [-1; 300]%Z, self, []).
Proof.
  intros self. split.
  - apply (@capture_round_trip [-32768; -1; 0; 1; 32767]%Z 0 0 self).
    repeat constructor; lia.
  - destruct (@capture_round_trip [-1; 300]%Z 0 0 self) as (_ & _ & _ & H & _).
    + repeat constructor; lia.
    + apply H. reflexivity.
Defined.

(** X12.  What the playback callback hands to the device decodes to
    the samples it was computed from.  When the frames in the queue of the
    output endpoint are int16 frames, the bytes returned for a request of
    [frame_count] samples decode, with [np.frombuffer], to an int16
    frame of exactly [frame_count] samples: nothing is lost or wrapped in
    the conversion to bytes. *)
Theorem playback_bytes_decode
    (status : Z) (frame_count : nat) (self : Audio.AudioEndpoint) :
  Forall Capture.is_int16 (Audio.data_queue self) ->
  exists samples,
    Capture.frombuffer (AudioFacts.buffer status frame_count self)
    = Some samples
    /\ length samples = frame_count
    /\ Capture.is_int16 samples
    /\ AudioFacts.buffer status frame_count self = Audio.tobytes samples.
Proof.
  intros Hq. unfold AudioFacts.buffer.
  destruct (Audio.data_queue self) as [| a rest] eqn:E.
  - rewrite (AudioFacts.callback_empty status frame_count self E).
    cbn [fst]. exists (Audio.zeros frame_count).
    split; [apply CaptureFacts.frombuffer_tobytes,
              CaptureFacts.is_int16_zeros |].
    split; [apply repeat_length |].
    split; [apply CaptureFacts.is_int16_zeros | reflexivity].
  - rewrite (AudioFacts.callback_head status frame_count self E).
    cbn [fst].
    assert (Ha : Capture.is_int16 a) by now inversion Hq.
    destruct (Nat.ltb_spec (length a) frame_count) as [Hlt | Hge];
      [| destruct (Nat.ltb_spec frame_count (length a)) as [Hgt | Hle]].
    + exists (Audio.pad_right a (frame_count - length a)).
      pose proof (CaptureFacts.is_int16_pad (frame_count - length a) Ha)
        as Hp.
      split; [now apply CaptureFacts.frombuffer_tobytes |].
      split; [rewrite AudioFacts.pad_right_length; lia |].
      split; [exact Hp | reflexivity].
    + exists (firstn frame_count a).
      pose proof (CaptureFacts.is_int16_firstn frame_count Ha) as Hp.
      split; [now apply CaptureFacts.frombuffer_tobytes |].
      split; [rewrite length_firstn; lia |].
      split; [exact Hp | reflexivity].
    + exists a.
      split; [now apply CaptureFacts.frombuffer_tobytes |].
      split; [lia |]. split; [exact Ha | reflexivity].
Qed.

Lemma playback_bytes_decode_witness :
  let self :=
    Audio.play_audio (Audio.fresh None 16000 512 1)
      [-5; 7]%Z in
  Capture.frombuffer (AudioFacts.buffer 0 4 self) = Some [-5; 7; 0; 0]%Z
  /\ exists samples,
       Capture.frombuffer (AudioFacts.buffer 0 4 self) = Some samples
       /\ length samples = 4.
Proof.
  intros self. split; [reflexivity |].
  destruct (@playback_bytes_decode 0 4 self) as (samples & H1 & H2 & _).
  - repeat constructor; lia.
  - exists samples. split; assumption.
Defined.

(* ------------------------------------------------------------------ *)
(** ** The metrics command and the loop of the handler *)

Module RelayFacts.
Import Cli Relay.

Lemma toggle_effect s :
  let s' := snd (_toggle_metrics s) in
  fst (_toggle_metrics s) = Ret tt
  /\ show_metrics (display s') = negb (show_metrics (display s))
  /\ (show_metrics (display s') = false -> d_active (display s') = false)
  /\ (show_metrics (display s') = true -> active s = true ->
      d_active (display s') = true)
  /\ (show_metrics (display s') = true -> active s = false ->
      d_active (display s') = d_active (display s))
  /\ CliFacts.untouched s' = CliFacts.untouched s
  /\ audio_input s' = audio_input s
  /\ audio_output s' = audio_output s
  /\ paused s' = paused s
  /\ show_metrics (display (snd (_toggle_metrics s')))
     = show_metrics (display s).
Proof.
  destruct s as [ai ao p [[|] [|] ? ? ? ?] [|] ? ? ? ? ? ?];
    cbn; repeat split; try reflexivity; try discriminate.
Qed.

Section Loop.

Variable fsum : list Q -> Q.

Lemma turn_idle polls m :
  active (handler m) = false \/ paused (handler m) = true ->
  turn fsum polls m = m.
Proof.
  intros H. unfold turn.
  destruct (active (handler m)), (paused (handler m)), H;
    try discriminate; reflexivity.
Qed.

Lemma turn_starved polls m :
  active (handler m) = true -> paused (handler m) = false ->
  Audio.data_queue (audio_input (handler m)) = [] ->
  let m' := turn fsum polls m in
  pipeline (handler m') = pipeline (handler m)
  /\ audio_output (handler m') = audio_output (handler m)
  /\ audio_input (handler m') = audio_input (handler m)
  /\ logger (handler m')
     = logger (handler m)
       ++ [(WARNING, "Timeout while waiting for audio input"%string)]
  /\ metrics m' = Some (Telemetry.get_metrics fsum (pipeline (handler m))).
Proof.
  intros Ha Hp Hq. unfold turn. rewrite Ha, Hp. cbn [andb negb].
  rewrite (CaptureFacts.get_audio_chunk_empty polls _ Hq).
  cbn. repeat split; reflexivity.
Qed.

Lemma turn_relays polls m x rest :
  active (handler m) = true -> paused (handler m) = false ->
  Audio.data_queue (audio_input (handler m)) = x :: rest ->
  let m' := turn fsum (S polls) m in
  let p := Pipeline.add_audio (pipeline (handler m)) x in
  Audio.data_queue (audio_input (handler m')) = rest
  /\ Pipeline.input_queue (pipeline (handler m'))
     = Deque.append 100 (Pipeline.input_queue (pipeline (handler m))) x
  /\ (Pipeline.output_queue (pipeline (handler m)) = [] ->
      pipeline (handler m') = p
      /\ audio_output (handler m') = audio_output (handler m))
  /\ (forall t ts,
        Pipeline.output_queue (pipeline (handler m)) = t :: ts ->
        Pipeline.output_queue (pipeline (handler m')) = ts
        /\ Audio.data_queue (audio_output (handler m'))
           = Deque.append 100
               (Audio.data_queue (audio_output (handler m))) t)
  /\ logger (handler m') = logger (handler m)
  /\ metrics m' = Some (Telemetry.get_metrics fsum (pipeline (handler m'))).
Proof.
  intros Ha Hp Hq. unfold turn. rewrite Ha, Hp. cbn [andb negb].
  rewrite (@CaptureFacts.get_audio_chunk_head polls _ x rest Hq).
  rewrite PipelineFacts.get_transformed_audio_popleft.
  cbn [Pipeline.add_audio Pipeline.with_input_queue Pipeline.output_queue
       pipeline with_logger with_endpoint].
  destruct (Pipeline.output_queue (pipeline (handler m))) as [| t ts] eqn:E;
    cbn [Deque.popleft].
  - split; [reflexivity |]. split; [reflexivity |].
    split; [intros _; split; reflexivity |].
    split; [intros t' ts' H; discriminate H |].
    split; [cbn; now rewrite app_nil_r | reflexivity].
  - split; [reflexivity |]. split; [reflexivity |].
    split; [intros H; discriminate H |].
    split; [intros t' ts' H; injection H as <- <-; split; reflexivity |].
    split; [cbn; now rewrite app_nil_r | reflexivity].
Qed.

End Loop.
End RelayFacts.

(** X13.  The [metrics] command flips [show_metrics] and keeps the
    display thread in step with it: after the command, hidden metrics mean
    a stopped display thread, shown metrics on an active handler mean a
    running one, and shown metrics on an inactive handler leave the
    thread as it was.  The command returns, touches neither the endpoints
    nor the pipeline nor the handler's flags, and a second [metrics]
    restores [show_metrics]. *)
Theorem toggle_metrics_keeps_thread_in_step (s : Cli.CommandHandler) :
  let s' := snd (Relay._toggle_metrics s) in
  fst (Relay._toggle_metrics s) = Ret tt
  /\ Cli.show_metrics (Cli.display s')
     = negb (Cli.show_metrics (Cli.display s))
  /\ (Cli.show_metrics (Cli.display s') = false ->
      Cli.d_active (Cli.display s') = false)
  /\ (Cli.show_metrics (Cli.display s') = true -> Cli.active s = true ->
      Cli.d_active (Cli.display s') = true)
  /\ (Cli.show_metrics (Cli.display s') = true -> Cli.active s = false ->
      Cli.d_active (Cli.display s') = Cli.d_active (Cli.display s))
  /\ CliFacts.untouched s' = CliFacts.untouched s
  /\ Cli.audio_input s' = Cli.audio_input s
  /\ Cli.audio_output s' = Cli.audio_output s
  /\ Cli.paused s' = Cli.paused s
  /\ Cli.show_metrics (Cli.display (snd (Relay._toggle_metrics s')))
     = Cli.show_metrics (Cli.display s).
Proof. apply RelayFacts.toggle_effect. Qed.

Lemma toggle_metrics_keeps_thread_in_step_witness :
  let s' := snd (Relay._toggle_metrics CliFacts.running) in
  Cli.d_active (Cli.display CliFacts.running) = true
  /\ Cli.show_metrics (Cli.display s') = false
  /\ Cli.d_active (Cli.display s') = false.
Proof.
  intros s'.
  pose proof (toggle_metrics_keeps_thread_in_step CliFacts.running) as H.
  cbv zeta in H. destruct H as (_ & _ & H & _).
  split; [reflexivity |]. split; [reflexivity |].
  apply H. reflexivity.
Defined.

(** X14.  What one turn of the handler's loop moves.  While the handler
    is inactive or paused the turn changes nothing.  On an active handler
    whose input queue is empty, the turn logs the timeout and moves
    nothing: the pipeline and the output endpoint stay as they are, even
    when transformed frames wait in the pipeline.  On an active handler
    whose input queue has a head, the turn moves that frame to the input
    queue of the pipeline and, when the pipeline has a transformed frame,
    moves the oldest one to the queue of the output endpoint; in each case
    the display then holds the metrics of the pipeline as the turn left
    it. *)
Theorem handler_turn_moves_frames
    (fsum : list Q -> Q) (polls : nat) (m : Relay.Monitor) (x : frame) (rest : list frame) :
  (Cli.active (Relay.handler m) = false
   \/ Cli.paused (Relay.handler m) = true ->
   Relay.turn fsum polls m = m)
  /\ (Cli.active (Relay.handler m) = true ->
      Cli.paused (Relay.handler m) = false ->
      Audio.data_queue (Cli.audio_input (Relay.handler m)) = [] ->
      let m' := Relay.turn fsum polls m in
      Cli.pipeline (Relay.handler m') = Cli.pipeline (Relay.handler m)
      /\ Cli.audio_output (Relay.handler m')
         = Cli.audio_output (Relay.handler m)
      /\ Cli.audio_input (Relay.handler m')
         = Cli.audio_input (Relay.handler m)
      /\ Cli.logger (Relay.handler m')
         = Cli.logger (Relay.handler m)
           ++ [(WARNING, "Timeout while waiting for audio input"%string)]
      /\ Relay.metrics m'
         = Some (Telemetry.get_metrics fsum (Cli.pipeline (Relay.handler m))))
  /\ (Cli.active (Relay.handler m) = true ->
      Cli.paused (Relay.handler m) = false ->
      Audio.data_queue (Cli.audio_input (Relay.handler m)) = x :: rest ->
      let m' := Relay.turn fsum (S polls) m in
      Audio.data_queue (Cli.audio_input (Relay.handler m')) = rest
      /\ Pipeline.input_queue (Cli.pipeline (Relay.handler m'))
         = Deque.append 100
             (Pipeline.input_queue (Cli.pipeline (Relay.handler m))) x
      /\ (Pipeline.output_queue (Cli.pipeline (Relay.handler m)) = [] ->
          Cli.pipeline (Relay.handler m')
          = Pipeline.add_audio (Cli.pipeline (Relay.handler m)) x
          /\ Cli.audio_output (Relay.handler m')
             = Cli.audio_output (Relay.handler m))
      /\ (forall t ts,
            Pipeline.output_queue (Cli.pipeline (Relay.handler m)) = t :: ts ->
            Pipeline.output_queue (Cli.pipeline (Relay.handler m')) = ts
            /\ Audio.data_queue (Cli.audio_output (Relay.handler m'))
               = Deque.append 100
                   (Audio.data_queue (Cli.audio_output (Relay.handler m)))
                   t)
      /\ Cli.logger (Relay.handler m') = Cli.logger (Relay.handler m)
      /\ Relay.metrics m'
         = Some (Telemetry.get_metrics fsum (Cli.pipeline (Relay.handler m')))).
Proof.
  split; [apply RelayFacts.turn_idle |]. split.
  - apply RelayFacts.turn_starved.
  - apply RelayFacts.turn_relays.
Qed.

Lemma handler_turn_moves_frames_witness :
  let s :=
    Cli.with_pipeline
      (Pipeline.with_output_queue (Cli.pipeline CliFacts.running) [[9]%Z])
      CliFacts.running in
  let m := Relay.turn (fun _ => 0%Q) 50 (Relay.mkMonitor s None) in
  Cli.active s = true
  /\ Cli.audio_output (Relay.handler m) = Cli.audio_output s
  /\ Pipeline.output_queue (Cli.pipeline (Relay.handler m)) = [[9]%Z].
Proof.
  intros s m.
  destruct (handler_turn_moves_frames (fun _ => 0%Q) 50
              (Relay.mkMonitor s None) [] [])
    as (_ & H & _).
  cbv zeta in H.
  destruct (H eq_refl eq_refl eq_refl) as (H1 & H2 & _).
  split; [reflexivity |]. split; [exact H2 |].
  unfold m. rewrite H1. reflexivity.
Defined.

(* ------------------------------------------------------------------ *)
(** ** Stopping while the threads run *)

Module ThreadsFacts.
Import Cli Threads.



Section Threads.

Variable exp2 : Q -> Q.
Variable resample : pyfloat -> pyfloat -> frame -> outcome frame.
Variable fsum : list Q -> Q.




End Threads.
End ThreadsFacts.



(* ------------------------------------------------------------------ *)
(** ** Preprocessing *)

Module PreprocessFacts.
Import Preprocess.

(** The largest magnitude of a non-empty array. *)
Definition peak (x : Q) (l : list Q) : Q :=
  Telemetry.py_max (Qabs x) (map Qabs l).

Lemma peak_spec x l :
  (exists y, In y (x :: l) /\ Qabs y = peak x l)
  /\ forall y, In y (x :: l) -> (Qabs y <= peak x l)%Q.
Proof.
  unfold peak.
  destruct (TelemetryFacts.py_max_spec (map Qabs l) (Qabs x)) as [Hin Hle].
  split.
  - change (Qabs x :: map Qabs l) with (map Qabs (x :: l)) in Hin.
    apply in_map_iff in Hin. destruct Hin as (y & Hy & Hin).
    exists y. split; assumption.
  - intros y Hy. apply Hle.
    change (Qabs x :: map Qabs l) with (map Qabs (x :: l)).
    now apply in_map.
Qed.

Lemma normalize_nonempty divide multiply x l :
  (Telemetry.Qltb (1 # 100) (peak x l) = true ->
   _normalize_audio divide multiply (x :: l)
   = Ret (map (fun y => multiply y (divide (7 # 10)%Q (peak x l)))
            (x :: l)))
  /\ (Telemetry.Qltb (1 # 100) (peak x l) = false ->
      _normalize_audio divide multiply (x :: l) = Ret (x :: l)).
Proof.
  unfold _normalize_audio, peak. cbn [map].
  split; intros ->; reflexivity.
Qed.

(** An int16 sample divided by 32768, then clipped, multiplied by
    32767 and converted. *)
Lemma postprocess_to_float_sample (t : IEEE.dtype) (z : Z) :
  (-32768 <= z <= 32767)%Z ->
  AudioProcessor.astype_int16
    (AudioProcessor.scale t 32767
       (AudioProcessor.clip (-1) 1 (Fin (inject_Z z / 32768))))
  = Some (z - Z.sgn z)%Z.
Proof.
  intros Hz.
  assert (Hlo : Qle_bool (-1) (inject_Z z / 32768) = true).
  { apply Qle_bool_iff. unfold Qle. cbn. lia. }
  assert (Hhi : Qle_bool (inject_Z z / 32768) 1 = true).
  { apply Qle_bool_iff. unfold Qle. cbn. lia. }
  assert (Hc : AudioProcessor.clip (-1) 1 (Fin (inject_Z z / 32768))
               = Fin (inject_Z z / 32768)).
  { unfold AudioProcessor.clip. cbv zeta.
    replace (flt (Fin (inject_Z z / 32768)) (Fin (-1))) with false
      by (cbn [flt]; rewrite Hlo; reflexivity).
    replace (fgt (Fin (inject_Z z / 32768)) (Fin 1)) with false
      by (unfold fgt; cbn [flt]; rewrite Hhi; reflexivity).
    reflexivity. }
  rewrite Hc. cbn [AudioProcessor.scale].
  destruct (IEEEFacts.round_int16 t Hz) as (r & -> & Hr).
  cbn [AudioProcessor.astype_int16]. cbv zeta. rewrite Hr.
  replace ((-32768 <=? z - Z.sgn z)%Z && (z - Z.sgn z <=? 32767)%Z)
    with true; [reflexivity |].
  symmetry. apply andb_true_iff. split; apply Z.leb_le.
  - destruct (Z.lt_trichotomy z 0) as [Hn | [-> | Hp]].
    + rewrite (Z.sgn_neg z Hn). lia.
    + cbn. lia.
    + rewrite (Z.sgn_pos z Hp). lia.
  - destruct (Z.lt_trichotomy z 0) as [Hn | [-> | Hp]].
    + rewrite (Z.sgn_neg z Hn). lia.
    + cbn. lia.
    + rewrite (Z.sgn_pos z Hp). lia.
Qed.

Lemma Qabs_to_float (s : Z) :
  Qabs (inject_Z s / 32768) = (Z.abs s # 32768)%Q.
Proof.
  unfold Qdiv, Qmult, Qinv, inject_Z, Qabs. cbn [Qnum Qden].
  now rewrite Z.mul_1_r.
Qed.

(** The largest magnitude of a frame divided by 32768 is that of one
    of its samples. *)
Lemma peak_sample (z : Z) (a : frame) :
  exists s,
    In s (z :: a)
    /\ peak (inject_Z z / 32768) (to_float a) = (Z.abs s # 32768)%Q
    /\ Forall (fun s' => (Z.abs s' <= Z.abs s)%Z) (z :: a).
Proof.
  destruct (peak_spec (inject_Z z / 32768) (to_float a))
    as [(y & Hin & Ey) Hall].
  change (In y (to_float (z :: a))) in Hin. unfold to_float in Hin.
  apply in_map_iff in Hin. destruct Hin as (s & <- & Hs).
  rewrite Qabs_to_float in Ey.
  exists s. split; [exact Hs |]. split; [now symmetry |].
  apply Forall_forall. intros s' Hs'.
  assert (H : (Qabs (inject_Z s' / 32768)
               <= peak (inject_Z z / 32768) (to_float a))%Q).
  { apply Hall. change (In (inject_Z s' / 32768)%Q (to_float (z :: a))).
    unfold to_float.
    exact (in_map (fun z => inject_Z z / 32768)%Q (z :: a) s' Hs'). }
  rewrite <- Ey, Qabs_to_float in H. unfold Qle in H.
  cbn [Qnum Qden] in H. lia.
Qed.

Lemma peak_loud (z : Z) (a : frame) :
  Exists (fun s => (328 <= Z.abs s)%Z) (z :: a) ->
  Telemetry.Qltb (1 # 100) (peak (inject_Z z / 32768) (to_float a)) = true.
Proof.
  intros H. apply Exists_exists in H. destruct H as (s & Hin & Hs).
  destruct (peak_spec (inject_Z z / 32768) (to_float a)) as [_ Hall].
  assert (Hle : (Qabs (inject_Z s / 32768)
                 <= peak (inject_Z z / 32768) (to_float a))%Q).
  { apply Hall. change (In (inject_Z s / 32768)%Q (to_float (z :: a))).
    unfold to_float.
    exact (in_map (fun z => inject_Z z / 32768)%Q (z :: a) s Hin). }
  assert (Hlt : (1 # 100 < Qabs (inject_Z s / 32768))%Q).
  { rewrite Qabs_to_float. unfold Qlt. cbn [Qnum Qden]. lia. }
  unfold Telemetry.Qltb.
  destruct (Qle_bool (peak (inject_Z z / 32768) (to_float a)) (1 # 100))
    eqn:E; [| reflexivity].
  apply Qle_bool_iff in E. exfalso.
  apply (Qlt_not_le _ _ Hlt). now apply Qle_trans with (1 := Hle).
Qed.

Lemma peak_quiet (z : Z) (a : frame) :
  Forall (fun s => (Z.abs s <= 327)%Z) (z :: a) ->
  Telemetry.Qltb (1 # 100) (peak (inject_Z z / 32768) (to_float a)) = false.
Proof.
  intros H.
  destruct (peak_spec (inject_Z z / 32768) (to_float a))
    as [(y & Hin & <-) _].
  change (In y (to_float (z :: a))) in Hin. unfold to_float in Hin.
  apply in_map_iff in Hin. destruct Hin as (s & <- & Hs).
  rewrite Forall_forall in H. specialize (H s Hs).
  unfold Telemetry.Qltb.
  replace (Qle_bool (Qabs (inject_Z s / 32768)) (1 # 100)) with true;
    [reflexivity |].
  symmetry. apply Qle_bool_iff. rewrite Qabs_to_float.
  unfold Qle. cbn [Qnum Qden]. lia.
Qed.

End PreprocessFacts.

(** X15.  Normalisation in [process] is gated and uses one gain.  For
    a processor that normalises and reduces no noise: an empty frame makes
    [process] raise ValueError ([np.max] of an empty array); a non-empty
    frame whose samples all have magnitude 327 or less (at most 0.01
    after the division by 32768) is returned divided by 32768 and not
    amplified; a frame with a sample of magnitude 328 or more is returned
    with every sample, divided by 32768, multiplied by the same gain, the
    quotient of 0.7 and the largest magnitude of the frame divided by
    32768, so that the length is kept. *)
Theorem process_normalizes_by_peak
    (reduce_noise : list Q -> list Q -> list Q)
    (divide multiply : Q -> Q -> Q)
    (profile : option (list Q)) (audio_data : frame) :
  let self := Preprocess.mkProcessor true false profile in
  let process := Preprocess.process reduce_noise divide multiply self in
  (audio_data = [] -> process audio_data = Raise ValueError)
  /\ (audio_data <> [] ->
      Forall (fun s => (Z.abs s <= 327)%Z) audio_data ->
      process audio_data = Ret (Preprocess.to_float audio_data))
  /\ (Exists (fun s => (328 <= Z.abs s)%Z) audio_data ->
      exists s,
        In s audio_data
        /\ Forall (fun s' => (Z.abs s' <= Z.abs s)%Z) audio_data
        /\ process audio_data
           = Ret (map (fun x =>
                         multiply x
                           (divide (7 # 10)%Q (Z.abs s # 32768)%Q))
                    (Preprocess.to_float audio_data))
        /\ forall ys, process audio_data = Ret ys ->
                      length ys = length audio_data).
Proof.
  intros self process. subst process.
  split; [intros ->; reflexivity |].
  destruct audio_data as [| z a].
  { split; [intros H; now contradiction H | intros H; inversion H]. }
  set (x := (inject_Z z / 32768)%Q). set (l := Preprocess.to_float a).
  destruct (PreprocessFacts.normalize_nonempty divide multiply x l)
    as [Hhi Hlo].
  split.
  - intros _ Hp. apply PreprocessFacts.peak_quiet in Hp. fold x l in Hp.
    specialize (Hlo Hp).
    unfold Preprocess.process. cbn [Preprocess.normalize self].
    change (Preprocess.to_float (z :: a)) with (x :: l).
    rewrite Hlo. reflexivity.
  - intros Hp. apply PreprocessFacts.peak_loud in Hp. fold x l in Hp.
    specialize (Hhi Hp).
    destruct (PreprocessFacts.peak_sample z a) as (s & Hs & Es & Hall).
    fold x l in Es. rewrite Es in Hhi.
    assert (E : Preprocess.process reduce_noise divide multiply self
                  (z :: a)
                = Ret (map (fun y =>
                              multiply y
                                (divide (7 # 10)%Q (Z.abs s # 32768)%Q))
                         (Preprocess.to_float (z :: a)))).
    { unfold Preprocess.process. cbn [Preprocess.normalize self].
      change (Preprocess.to_float (z :: a)) with (x :: l).
      rewrite Hhi. reflexivity. }
    exists s. split; [exact Hs |]. split; [exact Hall |].
    split; [exact E |].
    intros ys Hys. rewrite E in Hys. injection Hys as Hys.
    rewrite <- Hys. unfold Preprocess.to_float. cbn [length].
    now rewrite !length_map.
Qed.

Lemma process_normalizes_by_peak_witness :
  Preprocess.process (fun _ l => l) Qdiv Qmult
    (Preprocess.mkProcessor true false None) [327; -5]%Z
  = Ret [(327 # 32768)%Q; (-5 # 32768)%Q]
  /\ exists s,
       In s [8192; -16384; 0]%Z
       /\ Preprocess.process (fun _ l => l) Qdiv Qmult
            (Preprocess.mkProcessor true false None) [8192; -16384; 0]%Z
          = Ret (map (fun x => x * ((7 # 10) / (Z.abs s # 32768)))%Q
                   (Preprocess.to_float [8192; -16384; 0]%Z)).
Proof.
  split.
  - destruct (@process_normalizes_by_peak (fun _ l => l) Qdiv Qmult None
                [327; -5]%Z) as (_ & H & _).
    cbv zeta in H. rewrite H.
    + reflexivity.
    + discriminate.
    + repeat constructor; cbn; lia.
  - destruct (@process_normalizes_by_peak (fun _ l => l) Qdiv Qmult None
                [8192; -16384; 0]%Z) as (_ & _ & H).
    cbv zeta in H. destruct H as (s & Hs & _ & E & _).
    + apply Exists_cons_hd. cbn. lia.
    + exists s. split; [exact Hs | exact E].
Defined.

(** X16.  The int16 samples do not survive the trip through the float
    form.  For a processor that does not normalise and has no noise
    profile, [process] divides an int16 frame by 32768 and [postprocess]
    multiplies by 32767, in float32, and rounds towards zero: every sample
    [z] of the frame comes back as [z - sgn z], one unit closer to zero
    (0 stays 0), in a frame of the same length. *)
Theorem process_postprocess_shrinks
    (reduce_noise : list Q -> list Q -> list Q)
    (divide multiply : Q -> Q -> Q)
    (reduction : bool) (a : frame) :
  Capture.is_int16 a ->
  let self := Preprocess.mkProcessor false reduction None in
  Preprocess.process reduce_noise divide multiply self a
  = Ret (Preprocess.to_float a)
  /\ AudioProcessor.postprocess IEEE.float32
       (map Fin (Preprocess.to_float a))
     = map (fun z => Some (z - Z.sgn z)%Z) a.
Proof.
  intros Ha self. split.
  - unfold Preprocess.process. cbn. destruct reduction; reflexivity.
  - unfold AudioProcessor.postprocess, Preprocess.to_float.
    rewrite !map_map.
    induction Ha as [| z a Hz Ha IH]; cbn [map]; [reflexivity |].
    rewrite IH. f_equal.
    now apply PreprocessFacts.postprocess_to_float_sample.
Qed.

Lemma process_postprocess_shrinks_witness :
  AudioProcessor.postprocess IEEE.float32
    (map Fin (Preprocess.to_float [-32768; -1; 0; 1; 32767]%Z))
  = [Some (-32767); Some 0; Some 0; Some 0; Some 32766]%Z.
Proof.
  apply (@process_postprocess_shrinks (fun _ l => l) Qdiv Qmult false
           [-32768; -1; 0; 1; 32767]%Z).
  repeat constructor; lia.
Defined.

(* ------------------------------------------------------------------ *)
(** ** The conversion engine *)

(** X17.  [convert] fails open and keeps the flag [is_loaded] in step
    with the networks.  From a model whose flag tells whether the networks
    are there: the flag still does so after [convert], and the path is the
    same; a model that was loaded is left as it was; when the model is
    still not loaded afterwards, [convert] has returned the features it
    was given and logged that the model failed to load, and the model is
    unchanged (so the next call tries to load again); when the model is
    loaded afterwards, the result is the transformed features if the
    conversion returns, and the features it was given, with an error
    logged, if the conversion raises. *)
Theorem convert_fails_open
    (Net : Type) (path_exists : string -> bool) (build : outcome Net)
    (Features : Type)
    (transform :
       option Net -> Features -> pyfloat -> pyfloat -> pyfloat -> bool ->
       outcome Features)
    (self : Engine.RVCModel Net) (features : Features)
    (ps fs it : pyfloat) (pt : bool) :
  Engine.coherent self ->
  let r := Engine.convert path_exists build transform self features
             ps fs it pt in
  let out := fst (fst r) in
  let self' := snd (fst r) in
  Engine.coherent self'
  /\ Engine.model_path self' = Engine.model_path self
  /\ (Engine.is_loaded self = true -> self' = self)
  /\ (Engine.is_loaded self' = false ->
      out = features /\ self' = self
      /\ In (ERROR, "Failed to load RVC model"%string) (snd r))
  /\ (Engine.is_loaded self' = true ->
      match transform (Engine.model self') features ps fs it pt with
      | Ret transformed_features => out = transformed_features
      | Raise _ =>
          out = features
          /\ In (ERROR, "Error in voice conversion: {e}"%string) (snd r)
      end).
Proof.
  intros Hc r out self'. subst out self' r.
  unfold Engine.convert, Engine.load.
  destruct self as [path net loaded]. unfold Engine.coherent in *.
  cbn [Engine.is_loaded Engine.model Engine.model_path] in *.
  destruct loaded; cbn [negb Engine.model].
  - destruct (transform net features ps fs it pt) eqn:Ht;
      cbn [fst snd Engine.is_loaded Engine.model Engine.model_path];
      (split; [exact Hc |]); (split; [reflexivity |]);
      (split; [reflexivity |]); (split; [discriminate |]);
      intros _; rewrite Ht.
    + reflexivity.
    + split; [reflexivity |]. apply in_or_app. right. now left.
  - destruct (path_exists path); cbn [negb Engine.model].
    + destruct build as [built | e]; cbn [negb Engine.model].
      * destruct (transform (Some built) features ps fs it pt) eqn:Ht;
          cbn [fst snd Engine.is_loaded Engine.model Engine.model_path];
          (split; [reflexivity |]); (split; [reflexivity |]);
          (split; [discriminate |]); (split; [discriminate |]);
          intros _; rewrite Ht.
        -- reflexivity.
        -- split; [reflexivity |]. apply in_or_app. right. now left.
      * cbn [fst snd Engine.is_loaded Engine.model Engine.model_path].
        split; [exact Hc |]. split; [reflexivity |].
        split; [discriminate |]. split; [| discriminate].
        intros _. repeat split. apply in_or_app. right. now left.
    + cbn [fst snd Engine.is_loaded Engine.model Engine.model_path].
      split; [exact Hc |]. split; [reflexivity |].
      split; [discriminate |]. split; [| discriminate].
      intros _. repeat split. apply in_or_app. right. now left.
Qed.

Lemma convert_fails_open_witness :
  let self : Engine.RVCModel nat :=
    Engine.init nat "models/vietnamese_female.pt"%string in
  Engine.coherent self
  /\ fst (Engine.convert (fun _ => false) (Ret 0%nat)
            (fun _ (f : list Q) _ _ _ _ => Ret (map (Qmult 2) f))
            self [100; 200]%Q (Fin 5) (Fin (12 # 10)) (Fin (8 # 10)) true)
     = ([100; 200]%Q, self).
Proof.
  intros self.
  assert (Hc : Engine.coherent self) by reflexivity.
  split; [exact Hc |].
  pose proof (@convert_fails_open nat (fun _ => false) (Ret 0%nat) (list Q)
                (fun _ f _ _ _ _ => Ret (map (Qmult 2) f)) self
                [100; 200]%Q (Fin 5) (Fin (12 # 10)) (Fin (8 # 10)) true Hc)
    as H.
  cbv zeta in H. destruct H as (_ & _ & _ & H & _).
  destruct (H eq_refl) as (H1 & H2 & _).
  apply injective_projections; [exact H1 | exact H2].
Defined.

(** X18.  [load] and [unload] are idempotent and undo each other.  For
    a model whose flag tells whether the networks are there: what [load]
    returns is the flag afterwards, which still tells whether the networks
    are there; a second [load] after a successful one returns True, changes
    nothing and logs nothing (the networks are built once); [unload] after
    [load] gives the model as [__init__] makes it for the same path, and
    a second [unload] changes nothing and logs nothing. *)
Theorem load_unload_round_trip
    (Net : Type) (path_exists : string -> bool) (build : outcome Net)
    (self : Engine.RVCModel Net) :
  Engine.coherent self ->
  let ok := fst (fst (Engine.load path_exists build self)) in
  let loaded := snd (fst (Engine.load path_exists build self)) in
  let unloaded := fst (Engine.unload loaded) in
  ok = Engine.is_loaded loaded
  /\ Engine.coherent loaded
  /\ (ok = false -> loaded = self)
  /\ (ok = true -> Engine.load path_exists build loaded = (true, loaded, []))
  /\ unloaded = Engine.init Net (Engine.model_path self)
  /\ Engine.unload unloaded = (unloaded, []).
Proof.
  intros Hc ok loaded unloaded. subst ok loaded unloaded.
  destruct self as [path net loaded]. unfold Engine.coherent in *.
  unfold Engine.load, Engine.unload, Engine.init.
  cbn [Engine.is_loaded Engine.model Engine.model_path] in *.
  destruct loaded; cbn [negb fst snd Engine.is_loaded].
  - cbn [Engine.model Engine.model_path].
    repeat split; try assumption; try discriminate.
  - destruct net as [net |]; [discriminate Hc |].
    destruct (path_exists path); cbn [negb].
    + destruct build as [built | e];
        cbn [fst snd Engine.is_loaded Engine.model Engine.model_path];
        repeat split; try assumption; try discriminate.
    + cbn [fst snd Engine.is_loaded Engine.model Engine.model_path].
      repeat split; try assumption; try discriminate.
Qed.

Lemma load_unload_round_trip_witness :
  let self : Engine.RVCModel nat :=
    Engine.init nat "models/vietnamese_female.pt"%string in
  let loaded := snd (fst (Engine.load (fun _ => true) (Ret 7%nat) self)) in
  Engine.is_loaded loaded = true
  /\ fst (Engine.unload loaded) = self.
Proof.
  intros self loaded.
  pose proof (@load_unload_round_trip nat (fun _ => true) (Ret 7%nat) self
                eq_refl) as H.
  cbv zeta in H. destruct H as (H1 & _ & _ & _ & H2 & _).
  split; [symmetry; exact H1 | exact H2].
Defined.
